(** * OpenRouter chat provider for VS Code: adapter and stream reassembly

    A shallow embedding of [src/adapter.ts] (class [OpenRouterAdapter]),
    of the two revisions of [src/provider.ts] (the OpenAI-compatible
    transport and the OpenRouter SDK transport) and of the stand-alone
    provider that carries its own message translation.

    Conventions.
    - A JavaScript string is a [string]: a sequence of code units, here
      restricted to the range below 256.
    - [undefined] and [null] are [None]; [a ?? b] is a match on the option.
    - A JavaScript [Map] keeps its keys in insertion order; it is an
      association list whose [set] overwrites in place.
    - [progress.report(p)] appends [p] to the list of reported parts.
    - A thrown [Error] is the [Failed] outcome carrying the message.
    - [JSON.parse], [JSON.stringify], [btoa] and [Number.prototype.toFixed]
      belong to the JavaScript runtime; the translated functions take them
      as parameters.  A small executable reader and printer for a fragment
      of JSON is provided to run the functions on concrete inputs. *)

From Stdlib Require Import ZArith List String Ascii Bool Lia.
From Stdlib Require Import DecimalString.
From Stdlib Require Import Sorted Permutation.
Import ListNotations.

Local Open Scope string_scope.
Local Open Scope list_scope.

(* ================================================================== *)
(** * JavaScript strings *)

Module JsString.

(** [s.startsWith(p)] *)
Definition startsWith (s p : string) : bool := String.prefix p s.

(** [s.slice(n)] for [0 <= n]: the string without its first [n] units. *)
Fixpoint slice (s : string) (n : nat) : string :=
  match n, s with
  | O, _ => s
  | S _, EmptyString => EmptyString
  | S n', String _ r => slice r n'
  end.

(** White space in the sense of [String.prototype.trim], for code units
    below 256: TAB, LF, VT, FF, CR, SPACE and NBSP. *)
Definition isWhiteSpace (c : ascii) : bool :=
  let n := nat_of_ascii c in
  (Nat.eqb n 9 || Nat.eqb n 10 || Nat.eqb n 11 || Nat.eqb n 12
   || Nat.eqb n 13 || Nat.eqb n 32 || Nat.eqb n 160)%bool.

Fixpoint trimStart (s : string) : string :=
  match s with
  | EmptyString => EmptyString
  | String c r => if isWhiteSpace c then trimStart r else s
  end.

(** Drops the trailing white space: a unit is kept when it is not white
    space or when something is kept after it. *)
Fixpoint trimEnd (s : string) : string :=
  match s with
  | EmptyString => EmptyString
  | String c r =>
      match trimEnd r with
      | EmptyString => if isWhiteSpace c then EmptyString else String c EmptyString
      | r' => String c r'
      end
  end.

(** [s.trim()] *)
Definition trim (s : string) : string := trimEnd (trimStart s).

(** Truthiness of a string: non-empty. *)
Definition truthy (s : string) : bool :=
  match s with EmptyString => false | String _ _ => true end.

(** [s.split(sep)] for a one-unit separator: never the empty array. *)
Fixpoint split (sep : ascii) (s : string) : list string :=
  match s with
  | EmptyString => [EmptyString]
  | String c r =>
      if Ascii.eqb c sep then EmptyString :: split sep r
      else match split sep r with
           | h :: t => String c h :: t
           | [] => [String c EmptyString]
           end
  end.

(** [parts.join(sep)] *)
Fixpoint join (sep : string) (parts : list string) : string :=
  match parts with
  | [] => EmptyString
  | [p] => p
  | p :: rest => (p ++ sep ++ join sep rest)%string
  end.

(** [arr.includes(x)] on an array of strings. *)
Definition includes (arr : list string) (x : string) : bool :=
  existsb (String.eqb x) arr.

(** The part of [s] before the first occurrence of [sep], when there is one. *)
Fixpoint before (sep : ascii) (s : string) : option string :=
  match s with
  | EmptyString => None
  | String c r =>
      if Ascii.eqb c sep then Some EmptyString
      else option_map (String c) (before sep r)
  end.

(** [sep] occurs in [s]. *)
Fixpoint contains (sep : ascii) (s : string) : bool :=
  match s with
  | EmptyString => false
  | String c r => Ascii.eqb c sep || contains sep r
  end.

End JsString.

(* ================================================================== *)
(** * JSON values and the runtime's [JSON] object *)

#[warnings="-register-all"]
Inductive Json : Type :=
| JNull
| JBool (b : bool)
| JNumber (n : Z)
| JString (s : string)
| JArray (items : list Json)
| JObject (fields : list (string * Json)).

(** The empty object literal [{}]. *)
Definition emptyObject : Json := JObject [].

(** An executable reader and printer for the fragment of JSON with integer
    numbers and strings without escape sequences.  They stand for
    [JSON.parse] and [JSON.stringify] when a function is run on a concrete
    input; the theorems are stated for an arbitrary runtime. *)
Module JsonModel.

(** The quotation mark, code unit 34. *)
Definition doubleQuote : ascii := Eval cbv in ascii_of_nat 34.

Definition isDigit (c : ascii) : bool :=
  let n := nat_of_ascii c in (Nat.leb 48 n && Nat.leb n 57)%bool.

Definition isJsonSpace (c : ascii) : bool :=
  let n := nat_of_ascii c in
  (Nat.eqb n 32 || Nat.eqb n 9 || Nat.eqb n 10 || Nat.eqb n 13)%bool.

Fixpoint skipSpace (s : string) : string :=
  match s with
  | String c r => if isJsonSpace c then skipSpace r else s
  | EmptyString => EmptyString
  end.

(** Reads the units of a string literal up to the closing quote. *)
Fixpoint readString (s : string) : option (string * string) :=
  match s with
  | EmptyString => None
  | String c r =>
      if Ascii.eqb c doubleQuote then Some (EmptyString, r)
      else if Ascii.eqb c "\" then None
      else if Nat.ltb (nat_of_ascii c) 32 then None
      else match readString r with
           | Some (body, rest) => Some (String c body, rest)
           | None => None
           end
  end.

Fixpoint readDigits (s : string) (acc : Z) : Z * string :=
  match s with
  | String c r =>
      if isDigit c
      then readDigits r (10 * acc + Z.of_nat (nat_of_ascii c - 48))
      else (acc, s)
  | EmptyString => (acc, EmptyString)
  end.

(** An integer literal: a digit run without a superfluous leading zero,
    not followed by a fraction or an exponent. *)
Definition readNat (s : string) : option (Z * string) :=
  match s with
  | String c r =>
      if isDigit c then
        let '(n, rest) := readDigits s 0 in
        let leadingZero :=
          (Ascii.eqb c "0" && match r with
                              | String d _ => isDigit d
                              | EmptyString => false
                              end)%bool in
        let fractional :=
          match rest with
          | String d _ => (Ascii.eqb d "." || Ascii.eqb d "e" || Ascii.eqb d "E")%bool
          | EmptyString => false
          end in
        if (leadingZero || fractional)%bool then None else Some (n, rest)
      else None
  | EmptyString => None
  end.

Definition expect (word : string) (v : Json) (s : string) : option (Json * string) :=
  if String.prefix word s
  then Some (v, JsString.slice s (String.length word))
  else None.

Fixpoint readValue (fuel : nat) (s : string) : option (Json * string) :=
  match fuel with
  | O => None
  | S f =>
      let elements :=
        fix elements (n : nat) (s : string) (acc : list Json)
          : option (list Json * string) :=
          match n with
          | O => None
          | S n' =>
              match readValue f s with
              | None => None
              | Some (v, rest) =>
                  match skipSpace rest with
                  | String "," rest' => elements n' rest' (acc ++ [v])
                  | String "]" rest' => Some (acc ++ [v], rest')
                  | _ => None
                  end
              end
          end in
      let members :=
        fix members (n : nat) (s : string) (acc : list (string * Json))
          : option (list (string * Json) * string) :=
          match n with
          | O => None
          | S n' =>
              match skipSpace s with
              | String q s1 =>
                  if negb (Ascii.eqb q doubleQuote) then None else
                  match readString s1 with
                  | None => None
                  | Some (key, s2) =>
                      match skipSpace s2 with
                      | String ":" s3 =>
                          match readValue f s3 with
                          | None => None
                          | Some (v, rest) =>
                              match skipSpace rest with
                              | String "," rest' => members n' rest' (acc ++ [(key, v)])
                              | String "}" rest' => Some (acc ++ [(key, v)], rest')
                              | _ => None
                              end
                          end
                      | _ => None
                      end
                  end
              | EmptyString => None
              end
          end in
      match skipSpace s with
      | String "{" r =>
          match skipSpace r with
          | String "}" r' => Some (JObject [], r')
          | _ => match members f r [] with
                 | Some (fs, r') => Some (JObject fs, r')
                 | None => None
                 end
          end
      | String "[" r =>
          match skipSpace r with
          | String "]" r' => Some (JArray [], r')
          | _ => match elements f r [] with
                 | Some (vs, r') => Some (JArray vs, r')
                 | None => None
                 end
          end
      | String "-" r =>
          match readNat r with
          | Some (n, r') => Some (JNumber (- n), r')
          | None => None
          end
      | String "t" _ => expect "true" (JBool true) (skipSpace s)
      | String "f" _ => expect "false" (JBool false) (skipSpace s)
      | String "n" _ => expect "null" JNull (skipSpace s)
      | String c r =>
          if Ascii.eqb c doubleQuote then
            match readString r with
            | Some (body, r') => Some (JString body, r')
            | None => None
            end
          else
            match readNat (String c r) with
            | Some (n, r') => Some (JNumber n, r')
            | None => None
            end
      | EmptyString => None
      end
  end.

(** [JSON.parse(text)]: [None] where the runtime throws a [SyntaxError]. *)
Definition parse (text : string) : option Json :=
  match readValue (S (String.length text)) text with
  | Some (v, rest) =>
      match skipSpace rest with
      | EmptyString => Some v
      | _ => None
      end
  | None => None
  end.

Definition printZ (n : Z) : string := NilEmpty.string_of_int (Z.to_int n).

Definition quote (s : string) : string :=
  String doubleQuote (s ++ String doubleQuote EmptyString).

(** [JSON.stringify(v)] without indentation. *)
Fixpoint stringify (v : Json) : string :=
  match v with
  | JNull => "null"
  | JBool true => "true"
  | JBool false => "false"
  | JNumber n => printZ n
  | JString s => quote s
  | JArray items =>
      ("[" ++ JsString.join "," (map stringify items) ++ "]")%string
  | JObject fields =>
      ("{" ++ JsString.join ","
                (map (fun kv => quote (fst kv) ++ ":" ++ stringify (snd kv)) fields)
           ++ "}")%string
  end.

End JsonModel.

(** An executable [btoa]: Base64 of a binary string. *)
Module Base64Model.

Definition alphabet : string :=
  "ABCDEFGHIJKLMNOPQRSTUVWXYZabcdefghijklmnopqrstuvwxyz0123456789+/".

Definition digit (n : N) : string :=
  match String.get (N.to_nat (n mod 64)) alphabet with
  | Some c => String c EmptyString
  | None => EmptyString
  end.

Fixpoint encode (units : list N) : string :=
  match units with
  | a :: b :: c :: rest =>
      let n := (a * 65536 + b * 256 + c)%N in
      (digit (n / 262144) ++ digit (n / 4096) ++ digit (n / 64) ++ digit n
       ++ encode rest)%string
  | [a; b] =>
      let n := (a * 65536 + b * 256)%N in
      (digit (n / 262144) ++ digit (n / 4096) ++ digit (n / 64) ++ "=")%string
  | [a] =>
      let n := (a * 65536)%N in
      (digit (n / 262144) ++ digit (n / 4096) ++ "==")%string
  | [] => EmptyString
  end.

Definition btoa (binaryString : string) : string :=
  encode (map N_of_ascii (list_ascii_of_string binaryString)).

End Base64Model.

(* ================================================================== *)
(** * JavaScript [Map] with number keys *)

Module JsMap.
Section WithValue.
Context {V : Type}.

Definition t : Type := list (Z * V).

Definition empty : t := [].

(** [m.get(k)] *)
Fixpoint get (k : Z) (m : t) : option V :=
  match m with
  | [] => None
  | (k', v) :: rest => if Z.eqb k k' then Some v else get k rest
  end.

(** [m.set(k, v)]: an existing key keeps its place in the iteration
    order, a new key goes last. *)
Fixpoint set (k : Z) (v : V) (m : t) : t :=
  match m with
  | [] => [(k, v)]
  | (k', v') :: rest =>
      if Z.eqb k k' then (k, v) :: rest else (k', v') :: set k v rest
  end.

(** [[...m.keys()]] and [[...m.values()]], in insertion order. *)
Definition keys (m : t) : list Z := map fst m.
Definition values (m : t) : list V := map snd m.
End WithValue.
Arguments t V : clear implicits.
End JsMap.


(* ================================================================== *)
(** * The host's types ([vscode]) *)

Module VsCode.

(** [LanguageModelChatMessageRole]; every value other than [User] and
    [Assistant] takes the [default] branch of the role conversion. *)
Inductive LanguageModelChatMessageRole : Type :=
| User
| Assistant
| System.

(** The part classes told apart with [instanceof]: content parts of a
    request message and parts reported to the progress sink. *)
Inductive Part : Type :=
| LanguageModelTextPart (value : string)
| LanguageModelToolResultPart (callId : string) (content : Json)
| LanguageModelToolCallPart (callId : string) (name : string) (input : Json)
| LanguageModelDataPart (data : list Byte.byte) (mimeType : string)
| LanguageModelThinkingPart (value : string) (id : string) (metadata : Json)
| OtherPart.

Record LanguageModelChatRequestMessage : Type := {
  role : LanguageModelChatMessageRole;
  content : list Part
}.

Record LanguageModelChatTool : Type := {
  tool_name : string;
  tool_description : option string;
  tool_inputSchema : option Json
}.

Record LanguageModelChatInformation : Type := {
  id : string;
  name : string;
  family : string;
  version : string;
  maxInputTokens : Z;
  maxOutputTokens : Z;
  imageInput : bool;
  toolCalling : bool;
  tooltip : option string
}.

(** The sink behind [progress.report]. *)
Definition Progress : Type := list Part.
Definition report (p : Part) (progress : Progress) : Progress := progress ++ [p].

Definition isTextPart (p : Part) : bool :=
  match p with LanguageModelTextPart _ => true | _ => false end.
Definition isToolCallPart (p : Part) : bool :=
  match p with LanguageModelToolCallPart _ _ _ => true | _ => false end.
Definition isToolResultPart (p : Part) : bool :=
  match p with LanguageModelToolResultPart _ _ => true | _ => false end.

End VsCode.

(* ================================================================== *)
(** * The provider's wire types ([@openrouter/sdk/models]) *)

Module OpenRouter.

(** [Message["role"]] as far as this code produces or tests it. *)
Inductive Role : Type := user | assistant | system | tool.

Definition Role_eqb (a b : Role) : bool :=
  match a, b with
  | user, user | assistant, assistant | system, system | tool, tool => true
  | _, _ => false
  end.

Record ToolCall : Type := {
  tc_id : string;
  tc_type : string;
  tc_name : string;
  tc_arguments : string
}.

Inductive ContentItem : Type :=
| ImageUrl (url : string) (detail : string).

Inductive Content : Type :=
| ContentNull
| ContentText (text : string)
| ContentItems (items : list ContentItem).

Record Message : Type := {
  role : Role;
  content : Content;
  toolCallId : option string;
  toolCalls : option (list ToolCall)
}.

Record ToolDefinitionJson : Type := {
  td_type : string;
  td_name : string;
  td_description : string;
  td_parameters : Json
}.

(** A value of the pricing record: a number, a string, or nothing. *)
Inductive PricingValue (Number : Type) : Type :=
| PriceNumber (x : Number)
| PriceString (s : string)
| PriceNullish.
Arguments PriceNumber {Number} x.
Arguments PriceString {Number} s.
Arguments PriceNullish {Number}.

Record TopProvider : Type := { maxCompletionTokens : option Z }.
Record Architecture : Type := { inputModalities : option (list string) }.

Record Model (Number : Type) : Type := {
  model_id : string;
  model_name : string;
  contextLength : option Z;
  topProvider : option TopProvider;
  architecture : option Architecture;
  supportedParameters : option (list string);
  pricing : option (list (string * PricingValue Number))
}.
Arguments model_id {Number} m.
Arguments model_name {Number} m.
Arguments contextLength {Number} m.
Arguments topProvider {Number} m.
Arguments architecture {Number} m.
Arguments supportedParameters {Number} m.
Arguments pricing {Number} m.

(** [ChatStreamingResponseChunkData] *)
Record ChunkError : Type := { message : option string }.

Record ToolCallFunction : Type := {
  fn_name : option string;
  fn_arguments : option string
}.

Record StreamToolCall : Type := {
  index : Z;
  call_id : option string;
  call_function : option ToolCallFunction
}.

Record Delta : Type := {
  delta_content : option string;
  delta_toolCalls : option (list StreamToolCall);
  delta_reasoning : option string
}.

Record Choice : Type := { delta : option Delta }.

Record ChatStreamingResponseChunkData : Type := {
  error : option ChunkError;
  choices : option (list Choice)
}.

Definition isSystem (m : Message) : bool := Role_eqb (role m) system.
Definition isTool (m : Message) : bool := Role_eqb (role m) tool.

End OpenRouter.

(** [a ?? b] *)
Definition nullish {A : Type} (a : option A) (b : A) : A :=
  match a with Some x => x | None => b end.

(** [a?.f], for a field [f] that may itself be absent. *)
Definition chain {A B : Type} (a : option A) (f : A -> option B) : option B :=
  match a with Some x => f x | None => None end.

(** Truthiness of an optional string: present and non-empty. *)
Definition truthyString (s : option string) : bool :=
  match s with Some x => JsString.truthy x | None => false end.

(* ================================================================== *)
(** * [src/adapter.ts]: class [OpenRouterAdapter] *)

Module OpenRouterAdapter.

Import VsCode OpenRouter.

(** An entry of the [toolCallsByIndex] map of [processStreamChunk]. *)
Record ToolCallEntry : Type := {
  entry_id : option string;
  entry_name : option string;
  args : string
}.

Fixpoint insertNumber (x : Z) (l : list Z) : list Z :=
  match l with
  | [] => [x]
  | y :: r => if Z.leb x y then x :: l else y :: insertNumber x r
  end.

(** [arr.sort((a, b) => a - b)] *)
Definition sortNumbers (l : list Z) : list Z := fold_right insertNumber [] l.

Section WithRuntime.

(** JavaScript numbers with a fraction and their [toFixed]. *)
Variable Number : Type.
Variable toFixed : Number -> nat -> string.
Variable JSON_stringify : Json -> string.
Variable JSON_parse : string -> option Json.
Variable btoa : string -> string.
(** The constant exported by [./const]. *)
Variable MODEL_ID_PREFIX : string.

(** [model.id.split("/")[0] ?? "unknown"] *)
Definition modelFamily (id : string) : string :=
  nullish (nth_error (JsString.split "/" id) 0) "unknown".

Definition formatPricing (pricing : list (string * PricingValue Number)) : string :=
  JsString.join ", "
    (map (fun kv =>
            let formattedValue :=
              match snd kv with
              | PriceNumber x => toFixed x 4
              | PriceString s => s
              | PriceNullish => "N/A"
              end in
            (fst kv ++ ": " ++ formattedValue)%string)
         pricing).

(** OpenRouter Model -> VSCode LanguageModelChatInformation *)
Definition convertModelInformation (model : Model Number)
  : LanguageModelChatInformation :=
  {| id := (MODEL_ID_PREFIX ++ model_id model)%string;
     name := if JsString.truthy (model_name model)
             then model_name model else model_id model;
     family := modelFamily (model_id model);
     version := "latest";
     maxInputTokens := nullish (contextLength model) 4096%Z;
     maxOutputTokens :=
       nullish (chain (topProvider model) maxCompletionTokens) 4096%Z;
     imageInput :=
       nullish (option_map (fun l => JsString.includes l "image")
                  (chain (architecture model) inputModalities)) false;
     toolCalling :=
       nullish (option_map (fun l => JsString.includes l "tools")
                  (supportedParameters model)) false;
     tooltip := option_map formatPricing (pricing model) |}.

(** VSCode role -> OpenRouter Message role *)
Definition convertRole (role : LanguageModelChatMessageRole) : Role :=
  match role with
  | User => user
  | Assistant => assistant
  | _ => system
  end.

(** The body of the inner loop: what one content part pushes to [out]. *)
Definition pushElement (msg : LanguageModelChatRequestMessage)
    (out : list Message) (element : Part) : list Message :=
  match element with
  | LanguageModelTextPart value =>
      let role := convertRole (VsCode.role msg) in
      if negb (Role_eqb role tool)
      then out ++ [ {| role := role; content := ContentText value;
                       toolCallId := None; toolCalls := None |} ]
      else out
  | LanguageModelToolResultPart callId content =>
      out ++ [ {| role := tool;
                  content := ContentText (JSON_stringify content);
                  toolCallId := Some callId; toolCalls := None |} ]
  | LanguageModelToolCallPart callId name input =>
      out ++ [ {| role := assistant; content := ContentNull;
                  toolCallId := None;
                  toolCalls :=
                    Some [ {| tc_id := callId; tc_type := "function";
                              tc_name := name;
                              tc_arguments := JSON_stringify input |} ] |} ]
  | LanguageModelDataPart data mimeType =>
      let binaryString := string_of_list_byte data in
      if JsString.startsWith mimeType "image/"
      then out ++ [ {| role := convertRole (VsCode.role msg);
                       content :=
                         ContentItems
                           [ImageUrl ("data:" ++ mimeType ++ ";base64,"
                                        ++ btoa binaryString)%string
                                     "auto"];
                       toolCallId := None; toolCalls := None |} ]
      else out
  | _ => out
  end.

(** VSCode messages -> OpenRouter Message[] *)
Definition vscodeMessagesToOpenRouter
    (messages : list LanguageModelChatRequestMessage) : list Message :=
  fold_left
    (fun out msg => fold_left (pushElement msg) (VsCode.content msg) out)
    messages [].

(** VSCode tools -> OpenRouter tools array *)
Definition convertTools (tools : list LanguageModelChatTool)
  : list ToolDefinitionJson :=
  map (fun t =>
         {| td_type := "function";
            td_name := tool_name t;
            td_description := nullish (tool_description t) EmptyString;
            td_parameters := nullish (tool_inputSchema t) emptyObject |})
      tools.

(** Strip provider prefix from VSCode model id to get OpenRouter model id *)
Definition getOpenRouterModelId (vscodeModelId : string) : string :=
  if JsString.startsWith vscodeModelId MODEL_ID_PREFIX
  then JsString.slice vscodeModelId (String.length MODEL_ID_PREFIX)
  else vscodeModelId.

(** The body of the loop over [delta.toolCalls]. *)
Definition accumulateToolCall (toolCallsByIndex : JsMap.t ToolCallEntry)
    (tc : StreamToolCall) : JsMap.t ToolCallEntry :=
  let idx := index tc in
  let cur := nullish (JsMap.get idx toolCallsByIndex)
               {| entry_id := None; entry_name := None; args := EmptyString |} in
  let cur := match call_id tc with
             | Some i => {| entry_id := Some i; entry_name := entry_name cur;
                            args := args cur |}
             | None => cur
             end in
  let cur := match chain (call_function tc) fn_name with
             | Some n => {| entry_id := entry_id cur; entry_name := Some n;
                            args := args cur |}
             | None => cur
             end in
  let cur := match chain (call_function tc) fn_arguments with
             | Some a => {| entry_id := entry_id cur; entry_name := entry_name cur;
                            args := (args cur ++ a)%string |}
             | None => cur
             end in
  JsMap.set idx cur toolCallsByIndex.

(** Process one stream chunk: report content/tool calls to progress,
    accumulate tool calls in map.  Returns error message if chunk has
    error.  The result pairs the returned value with the sink and the
    map as the call leaves them. *)
Definition processStreamChunk (chunk : ChatStreamingResponseChunkData)
    (progress : Progress) (toolCallsByIndex : JsMap.t ToolCallEntry)
  : option string * (Progress * JsMap.t ToolCallEntry) :=
  match error chunk with
  | Some err =>
      (Some (nullish (message err) "OpenRouter stream error"),
       (progress, toolCallsByIndex))
  | None =>
      match chain (chain (choices chunk) (fun cs => nth_error cs 0)) delta with
      | None => (None, (progress, toolCallsByIndex))
      | Some d =>
          let progress :=
            match delta_content d with
            | Some c => if JsString.truthy c
                        then report (LanguageModelTextPart c) progress
                        else progress
            | None => progress
            end in
          let toolCallsByIndex :=
            match delta_toolCalls d with
            | Some (tc :: rest) =>
                fold_left accumulateToolCall (tc :: rest) toolCallsByIndex
            | _ => toolCallsByIndex
            end in
          (None, (progress, toolCallsByIndex))
      end
  end.

(** Report accumulated tool calls as VSCode parts to progress *)
Definition reportToolCalls (toolCallsByIndex : JsMap.t ToolCallEntry)
    (progress : Progress) : Progress :=
  let sortedIndices := sortNumbers (JsMap.keys toolCallsByIndex) in
  fold_left
    (fun progress idx =>
       match JsMap.get idx toolCallsByIndex with
       | Some cur =>
           match entry_id cur, entry_name cur with
           | Some i, Some n =>
               let text := if JsString.truthy (args cur) then args cur else "{}" in
               let input :=
                 match JSON_parse text with
                 | Some v => v
                 | None => JObject [("raw", JString (args cur))]
                 end in
               report (LanguageModelToolCallPart i n input) progress
           | _, _ => progress
           end
       | None => progress
       end)
    sortedIndices progress.

End WithRuntime.

End OpenRouterAdapter.

(* ================================================================== *)
(** * The chunk type of the OpenAI-compatible transport

    [OpenAI.Chat.ChatCompletionChunk], widened by [DeltaWithReasoning].
    The type has no error member. *)

Module OpenAI.

Record ToolCallFunction : Type := {
  fn_name : option string;
  fn_arguments : option string
}.

Record ToolCallDelta : Type := {
  index : option Z;
  tc_id : option string;
  tc_function : option ToolCallFunction
}.

Record Delta : Type := {
  reasoning : option string;
  content : option string;
  tool_calls : option (list ToolCallDelta)
}.

Record Choice : Type := { delta : option Delta }.

Record ChatCompletionChunk : Type := { choices : option (list Choice) }.

End OpenAI.

(** What a call of [provideLanguageModelChatResponse] leaves behind: the
    parts reported to the sink, and the message of the error it threw, if
    it threw. *)
Inductive Outcome : Type :=
| Completed (reported : VsCode.Progress)
| Failed (message : string) (reported : VsCode.Progress).

Definition reportedParts (o : Outcome) : VsCode.Progress :=
  match o with Completed r => r | Failed _ r => r end.

(** The request handed to the transport. *)
Record ChatRequest : Type := {
  req_model : string;
  req_messages : list OpenRouter.Message;
  req_tools : option (list OpenRouter.ToolDefinitionJson)
}.

(** The statements shared by both revisions of [src/provider.ts] between
    the translation of the messages and the call of the transport. *)
Module SystemPrompt.

Import OpenRouter.

(** [getConfiguration("openrouter").get<string>("systemPrompt")?.trim()] *)
Definition systemPromptOverride (setting : option string) : option string :=
  option_map JsString.trim setting.

(** [if (systemPromptOverride) { filter ...; unshift ... }] *)
Definition applyOverride (systemPromptOverride : option string)
    (orMessages : list Message) : list Message :=
  match systemPromptOverride with
  | Some text =>
      if JsString.truthy text
      then {| role := system; content := ContentText text;
              toolCallId := None; toolCalls := None |}
           :: filter (fun msg => negb (Role_eqb (role msg) system)) orMessages
      else orMessages
  | None => orMessages
  end.

(** From the translated messages to the list the request carries; the
    empty translation throws before the setting is read. *)
Definition prepareMessages (setting : option string)
    (orMessages : list Message) : string + list Message :=
  match orMessages with
  | [] => inl "No messages to send."
  | _ => inr (applyOverride (systemPromptOverride setting) orMessages)
  end.

End SystemPrompt.

(* ================================================================== *)
(** * [src/provider.ts], OpenAI-compatible transport *)

Module OpenAIProvider.

Import VsCode OpenAI.

(** An entry of [toolCallAccum]. *)
Record ToolCallAccumulator : Type := {
  acc_id : string;
  acc_name : string;
  argsStr : string
}.

(** The variables that live across the chunk loop, with the sink. *)
Record StreamState : Type := {
  thinkingActive : bool;
  reportedText : bool;
  reportedToolCall : bool;
  toolCallAccum : JsMap.t ToolCallAccumulator;
  progress : Progress
}.

(** [OpenRouterModelData]: an item of the answer of [/models]. *)
Record TopProviderData : Type := {
  tp_context_length : option Z;
  tp_max_completion_tokens : option Z
}.

Record OpenRouterModelData : Type := {
  data_id : string;
  data_name : option string;
  data_context_length : option Z;
  data_supported_parameters : option (list string);
  data_input_modalities : option (list string);
  data_top_provider : option TopProviderData
}.

Record ModelCapabilities : Type := {
  cap_name : string;
  cap_toolCalling : bool;
  cap_vision : bool;
  cap_maxInputTokens : Z;
  cap_maxOutputTokens : Z
}.

Definition resolveModelCapabilities (m : OpenRouterModelData)
  : option ModelCapabilities :=
  if negb (JsString.truthy (data_id m)) then None
  else
    let contextLength :=
      nullish (chain (data_top_provider m) tp_context_length)
              (nullish (data_context_length m) 0%Z) in
    let maxOut :=
      nullish (chain (data_top_provider m) tp_max_completion_tokens) 16000%Z in
    Some {| cap_name := nullish (data_name m) (data_id m);
            cap_toolCalling :=
              nullish (option_map (fun l => JsString.includes l "tools")
                         (data_supported_parameters m)) false;
            cap_vision :=
              nullish (option_map (fun l => JsString.includes l "image")
                         (data_input_modalities m)) false;
            cap_maxInputTokens := Z.max 0 (contextLength - 16000);
            cap_maxOutputTokens := maxOut |}.

(** The loop of [provideLanguageModelChatInformation] over the models of
    the answer. *)
Definition listModels (MODEL_ID_PREFIX : string)
    (models : list OpenRouterModelData) : list LanguageModelChatInformation :=
  fold_left
    (fun list model =>
       match resolveModelCapabilities model with
       | None => list
       | Some cap =>
           list ++ [ {| id := (MODEL_ID_PREFIX ++ data_id model)%string;
                        name := cap_name cap;
                        family :=
                          nullish (nth_error (JsString.split "/" (data_id model)) 0)
                                  "unknown";
                        version := "latest";
                        maxInputTokens := cap_maxInputTokens cap;
                        maxOutputTokens := cap_maxOutputTokens cap;
                        imageInput := cap_vision cap;
                        toolCalling := cap_toolCalling cap;
                        tooltip := None |} ]
       end)
    models [].

Definition initialState : StreamState :=
  {| thinkingActive := false; reportedText := false;
     reportedToolCall := false; toolCallAccum := JsMap.empty;
     progress := [] |}.

Definition thinkingDone : Part :=
  LanguageModelThinkingPart EmptyString EmptyString (JObject [("vscode_reasoning_done", JBool true)]).

Section WithRuntime.

Variable JSON_parse : string -> option Json.
Variable JSON_stringify : Json -> string.
Variable btoa : string -> string.
Variable MODEL_ID_PREFIX : string.

(** The body of [for (const toolCall of toolCalls)].  The accumulator
    object is shared with the map: its updates are written back under
    its index, which keeps the entry's place. *)
Definition stepToolCall (st : StreamState) (toolCall : ToolCallDelta)
  : StreamState :=
  let index := nullish (index toolCall) 0%Z in
  let '(acc, accum) :=
    match JsMap.get index (toolCallAccum st) with
    | Some acc => (acc, toolCallAccum st)
    | None =>
        let acc := {| acc_id := EmptyString; acc_name := EmptyString; argsStr := EmptyString |} in
        (acc, JsMap.set index acc (toolCallAccum st))
    end in
  let acc :=
    match tc_id toolCall with
    | Some i => if JsString.truthy i
                then {| acc_id := i; acc_name := acc_name acc;
                        argsStr := argsStr acc |}
                else acc
    | None => acc
    end in
  let acc :=
    match chain (tc_function toolCall) fn_name with
    | Some n => if JsString.truthy n
                then {| acc_id := acc_id acc; acc_name := n;
                        argsStr := argsStr acc |}
                else acc
    | None => acc
    end in
  let acc :=
    match chain (tc_function toolCall) fn_arguments with
    | Some argStr => {| acc_id := acc_id acc; acc_name := acc_name acc;
                        argsStr := (argsStr acc ++ argStr)%string |}
    | None => acc
    end in
  let accum := JsMap.set index acc accum in
  let parsed :=
    if Nat.ltb 0 (String.length (argsStr acc))
    then JSON_parse (argsStr acc)
    else Some emptyObject in
  match parsed with
  | None =>
      {| thinkingActive := thinkingActive st;
         reportedText := reportedText st;
         reportedToolCall := reportedToolCall st;
         toolCallAccum := accum;
         progress := progress st |}
  | Some args =>
      {| thinkingActive := thinkingActive st;
         reportedText := reportedText st;
         reportedToolCall := true;
         toolCallAccum := accum;
         progress :=
           report (LanguageModelToolCallPart (acc_id acc) (acc_name acc) args)
                  (progress st) |}
  end.

(** [if (reasoning) ... else if (thinkingActive) ...] *)
Definition stepReasoning (st : StreamState) (d : Delta) : StreamState :=
  match reasoning d with
  | Some (String c r) =>
      {| thinkingActive := true;
         reportedText := reportedText st;
         reportedToolCall := reportedToolCall st;
         toolCallAccum := toolCallAccum st;
         progress :=
           report (LanguageModelThinkingPart (String c r) EmptyString (JObject []))
                  (progress st) |}
  | _ =>
      if thinkingActive st
      then {| thinkingActive := false;
              reportedText := reportedText st;
              reportedToolCall := reportedToolCall st;
              toolCallAccum := toolCallAccum st;
              progress := report thinkingDone (progress st) |}
      else st
  end.

(** [if (delta.content?.trim()) ...] *)
Definition stepContent (st : StreamState) (d : Delta) : StreamState :=
  match content d with
  | Some c =>
      if JsString.truthy (JsString.trim c)
      then {| thinkingActive := thinkingActive st;
              reportedText := true;
              reportedToolCall := reportedToolCall st;
              toolCallAccum := toolCallAccum st;
              progress := report (LanguageModelTextPart c) (progress st) |}
      else st
  | None => st
  end.

(** [if (toolCalls?.length) for (const toolCall of toolCalls) ...] *)
Definition stepToolCalls (st : StreamState) (d : Delta) : StreamState :=
  match tool_calls d with
  | Some (tc :: rest) => fold_left stepToolCall (tc :: rest) st
  | _ => st
  end.

(** The body of [for (const choice of chunk.choices ?? [])]. *)
Definition stepChoice (st : StreamState) (choice : Choice) : StreamState :=
  match delta choice with
  | None => st
  | Some d => stepToolCalls (stepContent (stepReasoning st d) d) d
  end.

(** The body of [for await (const chunk of iterable)]. *)
Definition stepChunk (st : StreamState) (chunk : ChatCompletionChunk)
  : StreamState :=
  fold_left stepChoice (nullish (choices chunk) []) st.

Definition chunkLoop (st : StreamState) (chunks : list ChatCompletionChunk)
  : StreamState :=
  fold_left stepChunk chunks st.

(** An accumulator whose argument string is non-empty and does not
    parse: the test of the loop after the stream. *)
Definition dangling (acc : ToolCallAccumulator) : bool :=
  if Nat.eqb (String.length (argsStr acc)) 0 then false
  else match JSON_parse (argsStr acc) with
       | Some _ => false
       | None => true
       end.

(** The body of [for (const acc of toolCallAccum.values())]. *)
Definition stepDangling (st : StreamState) (acc : ToolCallAccumulator)
  : StreamState :=
  if Nat.eqb (String.length (argsStr acc)) 0 then st
  else match JSON_parse (argsStr acc) with
       | Some _ => st
       | None =>
           {| thinkingActive := thinkingActive st;
              reportedText := reportedText st;
              reportedToolCall := true;
              toolCallAccum := toolCallAccum st;
              progress :=
                report (LanguageModelToolCallPart (acc_id acc) (acc_name acc)
                          emptyObject)
                       (progress st) |}
       end.

Definition reportDangling (st : StreamState) : StreamState :=
  fold_left stepDangling (JsMap.values (toolCallAccum st)) st.

(** [if (thinkingActive) progress.report(...)] after the stream. *)
Definition closeThinking (st : StreamState) : StreamState :=
  if thinkingActive st
  then {| thinkingActive := thinkingActive st;
          reportedText := reportedText st;
          reportedToolCall := reportedToolCall st;
          toolCallAccum := toolCallAccum st;
          progress := report thinkingDone (progress st) |}
  else st.

(** [if (!reportedText && !reportedToolCall) progress.report(" ")] *)
Definition reportPlaceholder (st : StreamState) : StreamState :=
  if (negb (reportedText st) && negb (reportedToolCall st))%bool
  then {| thinkingActive := thinkingActive st;
          reportedText := reportedText st;
          reportedToolCall := reportedToolCall st;
          toolCallAccum := toolCallAccum st;
          progress := report (LanguageModelTextPart " ") (progress st) |}
  else st.

(** The state before the placeholder test: chunk loop, dangling tool
    calls, closing of the thinking segment. *)
Definition beforePlaceholder (chunks : list ChatCompletionChunk) : StreamState :=
  closeThinking (reportDangling (chunkLoop initialState chunks)).

(** Everything from the first chunk to the return: the parts the sink
    has received when the stream is exhausted. *)
Definition streamResponse (chunks : list ChatCompletionChunk) : Progress :=
  progress (reportPlaceholder (beforePlaceholder chunks)).

(** The request built before the stream is opened. *)
Definition buildRequest (apiKey : option string)
    (model : LanguageModelChatInformation)
    (messages : list LanguageModelChatRequestMessage)
    (tools : option (list LanguageModelChatTool))
    (setting : option string) : string + ChatRequest :=
  if negb (truthyString apiKey) then inl "API key required"
  else
    let modelId :=
      OpenRouterAdapter.getOpenRouterModelId MODEL_ID_PREFIX (VsCode.id model) in
    let orMessages :=
      OpenRouterAdapter.vscodeMessagesToOpenRouter JSON_stringify btoa messages in
    match SystemPrompt.prepareMessages setting orMessages with
    | inl e => inl e
    | inr orMessages =>
        let tools := OpenRouterAdapter.convertTools (nullish tools []) in
        inr {| req_model := modelId;
               req_messages := orMessages;
               req_tools := match tools with [] => None | _ => Some tools end |}
    end.

(** [provideLanguageModelChatResponse], with the key the secret store
    resolves to, the configured setting and the transport as inputs. *)
Definition provideLanguageModelChatResponse (apiKey : option string)
    (model : LanguageModelChatInformation)
    (messages : list LanguageModelChatRequestMessage)
    (tools : option (list LanguageModelChatTool))
    (setting : option string)
    (transport : ChatRequest -> list ChatCompletionChunk) : Outcome :=
  match buildRequest apiKey model messages tools setting with
  | inl e => Failed e []
  | inr request => Completed (streamResponse (transport request))
  end.

End WithRuntime.

End OpenAIProvider.

(* ================================================================== *)
(** * [src/provider.ts], OpenRouter SDK transport *)

Module SdkProvider.

Import VsCode OpenRouter.

(** What the loop can throw: the [Error] it constructs itself, and the
    errors of the runtime. *)
Inductive Exception : Type :=
| Error (message : string)
| SyntaxError (text : string)
| TypeError (detail : string).

(** A loop body either falls through or throws; the sink keeps whatever
    was reported before. *)
Definition Step : Type := option Exception * Progress.

Fixpoint forOf {A : Type} (body : A -> Progress -> Step) (items : list A)
    (progress : Progress) : Step :=
  match items with
  | [] => (None, progress)
  | x :: rest =>
      match body x progress with
      | (Some e, progress') => (Some e, progress')
      | (None, progress') => forOf body rest progress'
      end
  end.

Section WithRuntime.

Variable JSON_parse : string -> option Json.
Variable JSON_stringify : Json -> string.
Variable btoa : string -> string.
Variable MODEL_ID_PREFIX : string.
(** The [message] the runtime gives its own errors. *)
Variable runtimeMessage : Exception -> string.

(** [err.message] *)
Definition messageOf (e : Exception) : string :=
  match e with
  | Error m => m
  | _ => runtimeMessage e
  end.

(** The body of [for (const toolCall of element.delta.toolCalls)]. *)
Definition stepToolCall (toolCall : StreamToolCall) (progress : Progress)
  : Step :=
  let text := nullish (chain (call_function toolCall) fn_arguments) "{}" in
  match JSON_parse text with
  | None => (Some (SyntaxError text), progress)
  | Some input =>
      (None,
       report (LanguageModelToolCallPart
                 (nullish (call_id toolCall) EmptyString)
                 (nullish (chain (call_function toolCall) fn_name) EmptyString)
                 input)
              progress)
  end.

(** The body of [for (const element of chunk.choices)]. *)
Definition stepElement (element : Choice) (progress : Progress) : Step :=
  let progress :=
    match chain (delta element) delta_content with
    | Some c => if JsString.truthy c
                then report (LanguageModelTextPart c) progress
                else progress
    | None => progress
    end in
  match delta element with
  | None => (Some (TypeError "element.delta is undefined"), progress)
  | Some d =>
      let afterToolCalls :=
        match delta_toolCalls d with
        | Some tcs => forOf stepToolCall tcs progress
        | None => (None, progress)
        end in
      match afterToolCalls with
      | (Some e, progress) => (Some e, progress)
      | (None, progress) =>
          match delta_reasoning d with
          | Some (String c r) =>
              (None,
               report (LanguageModelTextPart ("reasoning: " ++ String c r)%string)
                      progress)
          | _ => (None, progress)
          end
      end
  end.

(** The body of [for await (const chunk of resp)]. *)
Definition stepChunk (chunk : ChatStreamingResponseChunkData)
    (progress : Progress) : Step :=
  match error chunk with
  | Some err => (Some (Error (nullish (message err) EmptyString)), progress)
  | None =>
      match choices chunk with
      | None => (Some (TypeError "chunk.choices is not iterable"), progress)
      | Some elements => forOf stepElement elements progress
      end
  end.

(** The chunk loop inside [try], and the [catch] that rethrows the
    message of whatever was thrown. *)
Definition streamResponse (chunks : list ChatStreamingResponseChunkData)
  : Outcome :=
  match forOf stepChunk chunks [] with
  | (Some e, progress) => Failed (messageOf e) progress
  | (None, progress) => Completed progress
  end.

(** The request built before the stream is opened; [apiKey] is the key
    the secret store or the input box gave. *)
Definition buildRequest (apiKey : option string)
    (model : LanguageModelChatInformation)
    (messages : list LanguageModelChatRequestMessage)
    (tools : option (list LanguageModelChatTool))
    (setting : option string) : string + ChatRequest :=
  if negb (truthyString apiKey) then inl "API key required"
  else
    let modelId :=
      OpenRouterAdapter.getOpenRouterModelId MODEL_ID_PREFIX (VsCode.id model) in
    let orMessages :=
      OpenRouterAdapter.vscodeMessagesToOpenRouter JSON_stringify btoa messages in
    match SystemPrompt.prepareMessages setting orMessages with
    | inl e => inl e
    | inr orMessages =>
        inr {| req_model := modelId;
               req_messages := orMessages;
               req_tools :=
                 Some (OpenRouterAdapter.convertTools (nullish tools [])) |}
    end.

Definition provideLanguageModelChatResponse (apiKey : option string)
    (model : LanguageModelChatInformation)
    (messages : list LanguageModelChatRequestMessage)
    (tools : option (list LanguageModelChatTool))
    (setting : option string)
    (transport : ChatRequest -> list ChatStreamingResponseChunkData)
  : Outcome :=
  match buildRequest apiKey model messages tools setting with
  | inl e => Failed e []
  | inr request => streamResponse (transport request)
  end.

End WithRuntime.

End SdkProvider.

(* ================================================================== *)
(** * The stand-alone provider: its own message translation *)

Module StandaloneProvider.

Import OpenRouter.

Record SimpleMessage : Type := {
  role : Role;
  content : string
}.

(** The [value] of a part that has one, as a string; the empty string
    for any other part. *)
Definition partText (p : VsCode.Part) : string :=
  match p with
  | VsCode.LanguageModelTextPart value => value
  | VsCode.LanguageModelThinkingPart value _ _ => value
  | _ => EmptyString
  end.

(** [messages.map(...).filter((m) => m.content.length > 0)] *)
Definition translate (messages : list VsCode.LanguageModelChatRequestMessage)
  : list SimpleMessage :=
  filter (fun m => Nat.ltb 0 (String.length (content m)))
    (map (fun m =>
            {| role := match VsCode.role m with
                       | VsCode.Assistant => assistant
                       | VsCode.User => user
                       | _ => system
                       end;
               content := JsString.join EmptyString (map partText (VsCode.content m)) |})
         messages).

(** [orMessages.findIndex((m) => m.role === "system")] *)
Fixpoint findSystemIndex (orMessages : list SimpleMessage) : option nat :=
  match orMessages with
  | [] => None
  | m :: rest =>
      if Role_eqb (role m) system then Some O
      else option_map S (findSystemIndex rest)
  end.

(** [orMessages.map((m, i) => i === k ? { ...m, content: text } : m)] *)
Fixpoint replaceContentAt (k : nat) (text : string)
    (orMessages : list SimpleMessage) : list SimpleMessage :=
  match orMessages, k with
  | [], _ => []
  | m :: rest, O => {| role := role m; content := text |} :: rest
  | m :: rest, S k' => m :: replaceContentAt k' text rest
  end.

(** [if (systemPromptOverride) { ... }]: the first system message takes
    the override text where it stands, or a system message is put in
    front when there is none. *)
Definition applyOverride (systemPromptOverride : option string)
    (orMessages : list SimpleMessage) : list SimpleMessage :=
  match systemPromptOverride with
  | Some text =>
      if JsString.truthy text then
        match findSystemIndex orMessages with
        | Some firstSystemIdx => replaceContentAt firstSystemIdx text orMessages
        | None => {| role := system; content := text |} :: orMessages
        end
      else orMessages
  | None => orMessages
  end.

Definition prepareMessages (setting : option string)
    (messages : list VsCode.LanguageModelChatRequestMessage)
  : string + list SimpleMessage :=
  match applyOverride (SystemPrompt.systemPromptOverride setting)
          (translate messages) with
  | [] => inl "No messages to send."
  | orMessages => inr orMessages
  end.

End StandaloneProvider.

(* ================================================================== *)
(** * Vocabulary of the statements *)

(** The host's view of a message list: its tool-result parts and its text
    parts, in the order of the list. *)
Module HostView.

Import VsCode.

Definition toolResultsOf (messages : list LanguageModelChatRequestMessage)
  : list (string * Json) :=
  flat_map (fun msg =>
              flat_map (fun p => match p with
                                 | LanguageModelToolResultPart callId content =>
                                     [(callId, content)]
                                 | _ => []
                                 end)
                       (content msg))
           messages.

Definition textsOf (messages : list LanguageModelChatRequestMessage)
  : list (LanguageModelChatMessageRole * string) :=
  flat_map (fun msg =>
              flat_map (fun p => match p with
                                 | LanguageModelTextPart value => [(role msg, value)]
                                 | _ => []
                                 end)
                       (content msg))
           messages.

End HostView.

(** The provider's view: the shapes of the messages the translation pushes. *)
Module WireView.

Import OpenRouter.

Definition textMessage (r : Role) (text : string) : Message :=
  {| role := r; content := ContentText text;
     toolCallId := None; toolCalls := None |}.

Definition toolMessage (callId : string) (text : string) : Message :=
  {| role := tool; content := ContentText text;
     toolCallId := Some callId; toolCalls := None |}.

(** A message with string content under a role other than [tool]. *)
Definition isPlainText (m : Message) : bool :=
  match content m with
  | ContentText _ => negb (isTool m)
  | _ => false
  end.

Definition countSystem (l : list Message) : nat :=
  List.length (filter isSystem l).

End WireView.

(** The chunk loop of the OpenAI-compatible revision, seen from its
    tool-call accumulators. *)
Module Reassembly.

Import VsCode OpenAI OpenAIProvider.

(** The tool-call fragments of a chunk sequence, in the order the loop
    visits them. *)
Definition toolCallFragments (chunks : list ChatCompletionChunk)
  : list ToolCallDelta :=
  flat_map (fun chunk =>
              flat_map (fun choice =>
                          match delta choice with
                          | Some d => nullish (tool_calls d) []
                          | None => []
                          end)
                       (nullish (choices chunk) []))
           chunks.

Definition fallbackEvent (acc : ToolCallAccumulator) : Part :=
  LanguageModelToolCallPart (acc_id acc) (acc_name acc) emptyObject.

Section WithRuntime.

Variable JSON_parse : string -> option Json.

(** For each fragment in turn, its index and the argument string its
    accumulator holds once the fragment is taken in: the string the
    loop tries to parse when it is not empty. *)
Fixpoint parseAttempts (st : StreamState) (fragments : list ToolCallDelta)
  : list (Z * string) :=
  match fragments with
  | [] => []
  | toolCall :: rest =>
      let st' := stepToolCall JSON_parse st toolCall in
      let i := nullish (index toolCall) 0%Z in
      (i, match JsMap.get i (toolCallAccum st') with
          | Some acc => argsStr acc
          | None => EmptyString
          end) :: parseAttempts st' rest
  end.

(** A non-empty argument string of index [i] parsed during the loop. *)
Definition parsedDuringLoop (chunks : list ChatCompletionChunk) (i : Z) : bool :=
  existsb (fun a => (Z.eqb (fst a) i
                     && Nat.ltb 0 (String.length (snd a))
                     && match JSON_parse (snd a) with
                        | Some _ => true
                        | None => false
                        end)%bool)
          (parseAttempts initialState (toolCallFragments chunks)).

(** The entries the loop after the stream reports a fallback for. *)
Definition danglingEntries (st : StreamState)
  : list (Z * ToolCallAccumulator) :=
  filter (fun kv => dangling JSON_parse (snd kv)) (toolCallAccum st).

End WithRuntime.

End Reassembly.

(** The chunk sequences of the two streaming scenarios. *)
Module Scenario.

Import OpenAI.

Definition deltaChunk (d : Delta) : ChatCompletionChunk :=
  {| choices := Some [ {| delta := Some d |} ] |}.

(** [{ reasoning: "think" }] and [{ content: "hello" }] *)
Definition reasoningChunk : ChatCompletionChunk :=
  deltaChunk {| reasoning := Some "think"; content := None; tool_calls := None |}.

Definition contentChunk : ChatCompletionChunk :=
  deltaChunk {| reasoning := None; content := Some "hello"; tool_calls := None |}.

(** The argument text of the call [f({x: 1})], cut after the colon. *)
Definition argumentsHead : string :=
  Eval cbv in ("{" ++ JsonModel.quote "x" ++ ":")%string.
Definition argumentsTail : string := "1}".
Definition argumentsWhole : string :=
  Eval cbv in (argumentsHead ++ argumentsTail)%string.

(** The input [{x: 1}] *)
Definition inputX1 : Json := JObject [("x", JNumber 1)].

(** Index 0 with id "a", name "f" and the head of the arguments; then
    index 0 with the tail of the arguments alone. *)
Definition firstToolChunk : ChatCompletionChunk :=
  deltaChunk
    {| reasoning := None; content := None;
       tool_calls :=
         Some [ {| index := Some 0%Z; tc_id := Some "a";
                   tc_function := Some {| fn_name := Some "f";
                                          fn_arguments := Some argumentsHead |} |} ] |}.

Definition secondToolChunk : ChatCompletionChunk :=
  deltaChunk
    {| reasoning := None; content := None;
       tool_calls :=
         Some [ {| index := Some 0%Z; tc_id := None;
                   tc_function := Some {| fn_name := None;
                                          fn_arguments := Some argumentsTail |} |} ] |}.

End Scenario.

(** The same two scenarios, and an error chunk between two text chunks,
    in the chunk type of the SDK. *)
Module SdkScenario.

Import OpenRouter.

Definition deltaChunk (d : Delta) : ChatStreamingResponseChunkData :=
  {| error := None; choices := Some [ {| delta := Some d |} ] |}.

Definition textChunk (text : string) : ChatStreamingResponseChunkData :=
  deltaChunk {| delta_content := Some text; delta_toolCalls := None;
                delta_reasoning := None |}.

Definition reasoningChunk : ChatStreamingResponseChunkData :=
  deltaChunk {| delta_content := None; delta_toolCalls := None;
                delta_reasoning := Some "think" |}.

Definition firstToolChunk : ChatStreamingResponseChunkData :=
  deltaChunk
    {| delta_content := None;
       delta_toolCalls :=
         Some [ {| index := 0%Z; call_id := Some "a";
                   call_function :=
                     Some {| fn_name := Some "f";
                             fn_arguments := Some Scenario.argumentsHead |} |} ];
       delta_reasoning := None |}.

Definition secondToolChunk : ChatStreamingResponseChunkData :=
  deltaChunk
    {| delta_content := None;
       delta_toolCalls :=
         Some [ {| index := 0%Z; call_id := None;
                   call_function :=
                     Some {| fn_name := None;
                             fn_arguments := Some Scenario.argumentsTail |} |} ];
       delta_reasoning := None |}.

(** [{ error: { message: "rate limited" } }] *)
Definition rateLimited : ChunkError := {| message := Some "rate limited" |}.

Definition errorChunk : ChatStreamingResponseChunkData :=
  {| error := Some rateLimited; choices := Some [] |}.

(** Messages for the errors of the runtime, to run the loop. *)
Definition runtimeMessage (e : SdkProvider.Exception) : string :=
  match e with
  | SdkProvider.Error m => m
  | SdkProvider.SyntaxError text => ("Unexpected end of JSON input: " ++ text)%string
  | SdkProvider.TypeError detail => detail
  end.

End SdkScenario.

(** The flags [reportedText] and [reportedToolCall] say what the sink has
    received. *)
Definition flagsMatch (st : OpenAIProvider.StreamState) : Prop :=
  OpenAIProvider.reportedText st
  = existsb VsCode.isTextPart (OpenAIProvider.progress st)
  /\ OpenAIProvider.reportedToolCall st
     = existsb VsCode.isToolCallPart (OpenAIProvider.progress st).

(* ================================================================== *)
(** * The secret store, the API key and the reset command *)

Module Secrets.

(** [vscode.SecretStorage] *)
Definition SecretStorage : Type := list (string * string).

Fixpoint get (key : string) (s : SecretStorage) : option string :=
  match s with
  | [] => None
  | (k, v) :: rest => if String.eqb key k then Some v else get key rest
  end.

Definition delete (key : string) (s : SecretStorage) : SecretStorage :=
  filter (fun kv => negb (String.eqb key (fst kv))) s.

Definition store (key value : string) (s : SecretStorage) : SecretStorage :=
  (key, value) :: delete key s.

Definition apiKeyName : string := "openrouter.apiKey".

End Secrets.

(** [src/extension.ts]: the handler registered for "openrouter.manage";
    it returns the store it leaves and the message it shows. *)
Module Extension.

Definition manage (secrets : Secrets.SecretStorage)
  : Secrets.SecretStorage * string :=
  (Secrets.delete Secrets.apiKeyName secrets, "OpenRouter API key cleared.").

End Extension.

(** [Math.ceil(a / b)] for lengths: the ceiling of the exact quotient. *)
Definition ceilDiv (a b : nat) : nat :=
  if Nat.eqb (a mod b) 0 then a / b else S (a / b).

(** [provideTokenCount], the same in every revision; [stringifyMessage]
    is [JSON.stringify] on a request message. *)
Definition provideTokenCount
    (stringifyMessage : VsCode.LanguageModelChatRequestMessage -> string)
    (text : string + VsCode.LanguageModelChatRequestMessage) : nat :=
  let content := match text with
                 | inl s => s
                 | inr message => stringifyMessage message
                 end in
  ceilDiv (String.length content) 3.

(* ================================================================== *)
(** * [src/provider.ts], OpenAI-compatible transport: the model listing *)

Module OpenAIModels.

Import VsCode OpenAIProvider Secrets.

(** The provider object: the secret store it was given and [_cachedModels]. *)
Record ProviderState : Type := {
  secrets : SecretStorage;
  cachedModels : option (list LanguageModelChatInformation)
}.

(** [getApiKey(silent)]; [inputBox] is what [showInputBox] resolves to. *)
Definition getApiKey (silent : bool) (inputBox : option string)
    (s : SecretStorage) : option string * SecretStorage :=
  let key := get apiKeyName s in
  if (negb (truthyString key) && negb silent)%bool then
    match inputBox with
    | Some typed =>
        (Some typed,
         if JsString.truthy typed then store apiKeyName typed s else s)
    | None => (None, s)
    end
  else (key, s).

(** The value of [data.data] or [data.models]. *)
Inductive ModelsField : Type :=
| ModelArray (models : list OpenRouterModelData)
| NotAnArray.

Record ModelsJson : Type := {
  json_data : option ModelsField;
  json_models : option ModelsField
}.

(** What [fetch] resolves to. *)
Record Response : Type := {
  ok : bool;
  status : Z;
  text : string;
  json : ModelsJson
}.

Definition numberToString (n : Z) : string :=
  NilEmpty.string_of_int (Z.to_int n).

(** [provideLanguageModelChatInformation]; [fetch] receives the key of
    the [Authorization] header. *)
Definition provideLanguageModelChatInformation (MODEL_ID_PREFIX : string)
    (silent : bool) (inputBox : option string)
    (fetch : option string -> Response) (st : ProviderState)
  : (string + list LanguageModelChatInformation) * ProviderState :=
  let '(apiKey, secrets') := getApiKey silent inputBox (secrets st) in
  let st' := {| secrets := secrets'; cachedModels := cachedModels st |} in
  if (negb (truthyString apiKey) && silent)%bool then (inr [], st')
  else
    match cachedModels st with
    | Some cached => (inr cached, st')
    | None =>
        let resp := fetch apiKey in
        if negb (ok resp)
        then (inl ("OpenRouter models " ++ numberToString (status resp)
                   ++ ": " ++ text resp)%string, st')
        else
          match nullish (json_data (json resp))
                        (nullish (json_models (json resp)) (ModelArray [])) with
          | NotAnArray => (inl "Invalid OpenRouter models response", st')
          | ModelArray models =>
              let list := listModels MODEL_ID_PREFIX models in
              (inr list, {| secrets := secrets'; cachedModels := Some list |})
          end
    end.

(** The reset command on the store the provider holds. *)
Definition afterManage (st : ProviderState) : ProviderState :=
  {| secrets := fst (Extension.manage (secrets st));
     cachedModels := cachedModels st |}.

End OpenAIModels.

(* ================================================================== *)
(** * [src/provider.ts], OpenRouter SDK transport: the model listing *)

Module SdkModels.

Import VsCode Secrets.

Record ProviderState : Type := {
  secrets : SecretStorage;
  cachedModels : option (list LanguageModelChatInformation)
}.

(** [getApiKey()]: the key, or the message of the error it throws. *)
Definition getApiKey (inputBox : option string) (s : SecretStorage)
  : (string + string) * SecretStorage :=
  match get apiKeyName s with
  | Some (String c r) => (inr (String c r), s)
  | _ =>
      match inputBox with
      | Some (String c r) => (inr (String c r), store apiKeyName (String c r) s)
      | _ => (inl "API key required", s)
      end
  end.

Section WithRuntime.

Variable Number : Type.
Variable toFixed : Number -> nat -> string.
Variable MODEL_ID_PREFIX : string.

(** [provideLanguageModelChatInformation]; [modelsList] is what the
    awaited [openRouter.models.list] settles to for the key: the [data] of
    its answer, or the message of the error it rejects with.  Nothing
    catches that error: the call fails with it, after [getApiKey] has
    stored a key typed into the input box. *)
Definition provideLanguageModelChatInformation (inputBox : option string)
    (modelsList : string -> string + list (OpenRouter.Model Number))
    (st : ProviderState)
  : (string + list LanguageModelChatInformation) * ProviderState :=
  match cachedModels st with
  | Some cached => (inr cached, st)
  | None =>
      match getApiKey inputBox (secrets st) with
      | (inl e, secrets') =>
          (inl e, {| secrets := secrets'; cachedModels := None |})
      | (inr apiKey, secrets') =>
          match modelsList apiKey with
          | inl e => (inl e, {| secrets := secrets'; cachedModels := None |})
          | inr data =>
              let models :=
                map (OpenRouterAdapter.convertModelInformation
                       Number toFixed MODEL_ID_PREFIX)
                    data in
              (inr models, {| secrets := secrets'; cachedModels := Some models |})
          end
      end
  end.

End WithRuntime.

End SdkModels.

(* ================================================================== *)
(** * The stand-alone provider: model filter and response stream *)

Module StandaloneModels.

Import VsCode.

(** The constant the file declares itself. *)
Definition MODEL_ID_PREFIX : string := "vscode-openrouter/".

(** [filterModels]; [setting] is [get<string[]>("modelFilter")]. *)
Definition filterModels (setting : option (list string))
    (models : list LanguageModelChatInformation)
  : list LanguageModelChatInformation :=
  let filter := nullish setting [] in
  match filter with
  | [] => models
  | _ =>
      List.filter
        (fun m =>
           existsb (fun f => (String.eqb (id m) f
                              || String.eqb (id m) (MODEL_ID_PREFIX ++ f))%bool)
                   filter)
        models
  end.

End StandaloneModels.

Module StandaloneStream.

Import VsCode OpenRouter.

(** [s.includes(sub)] on strings *)
Fixpoint includes (s sub : string) : bool :=
  if String.prefix sub s then true
  else match s with
       | EmptyString => false
       | String _ rest => includes rest sub
       end.

(** The [catch]: the message the rethrown error carries. *)
Definition surface (msg : string) : string :=
  let isParseError :=
    (includes msg "transform" || includes msg "parse"
     || includes msg "ZodError" || includes msg "validation")%bool in
  if isParseError
  then "OpenRouter returned an unexpected response. Check your API key, model, and try again."
  else msg.

(** [for await (const chunk of result)]: each chunk comes with the value
    [token.isCancellationRequested] has when its turn starts.  The result
    is the message thrown, if any, and the sink. *)
Fixpoint streamLoop (items : list (bool * ChatStreamingResponseChunkData))
    (progress : Progress) : option string * Progress :=
  match items with
  | [] => (None, progress)
  | (cancellationRequested, chunk) :: rest =>
      if cancellationRequested then (None, progress)
      else
        match error chunk with
        | Some err =>
            (Some (nullish (message err) "OpenRouter stream error"), progress)
        | None =>
            let delta :=
              chain (chain (chain (choices chunk) (fun cs => nth_error cs 0))
                           OpenRouter.delta)
                    delta_content in
            let progress :=
              match delta with
              | Some c => if JsString.truthy c
                          then report (LanguageModelTextPart c) progress
                          else progress
              | None => progress
              end in
            streamLoop rest progress
        end
  end.

Record Request : Type := {
  req_model : string;
  req_messages : list StandaloneProvider.SimpleMessage
}.

(** [provideLanguageModelChatResponse]: the [try] block and its [catch]. *)
Definition provideLanguageModelChatResponse (inputBox : option string)
    (secrets : Secrets.SecretStorage)
    (model : LanguageModelChatInformation)
    (messages : list LanguageModelChatRequestMessage)
    (setting : option string)
    (send : Request -> list (bool * ChatStreamingResponseChunkData))
  : Outcome * Secrets.SecretStorage :=
  match SdkModels.getApiKey inputBox secrets with
  | (inl e, secrets') => (Failed (surface e) [], secrets')
  | (inr apiKey, secrets') =>
      let cleanModelId :=
        if JsString.startsWith (id model) StandaloneModels.MODEL_ID_PREFIX
        then JsString.slice (id model)
               (String.length StandaloneModels.MODEL_ID_PREFIX)
        else id model in
      match StandaloneProvider.prepareMessages setting messages with
      | inl e => (Failed (surface e) [], secrets')
      | inr orMessages =>
          match streamLoop (send {| req_model := cleanModelId;
                                    req_messages := orMessages |}) [] with
          | (Some msg, progress) => (Failed (surface msg) progress, secrets')
          | (None, progress) => (Completed progress, secrets')
          end
      end
  end.

End StandaloneStream.

(* ================================================================== *)
(** * Vocabulary of the further statements *)

Module HostParts.

Import VsCode.

(** The parts the translation has a message for. *)
Definition translatable (p : Part) : bool :=
  match p with
  | LanguageModelTextPart _ => true
  | LanguageModelToolResultPart _ _ => true
  | LanguageModelToolCallPart _ _ _ => true
  | LanguageModelDataPart _ mimeType => JsString.startsWith mimeType "image/"
  | _ => false
  end.

Definition partsOf (messages : list LanguageModelChatRequestMessage) : list Part :=
  flat_map content messages.

Definition toolCallsOf (messages : list LanguageModelChatRequestMessage)
  : list (string * string * Json) :=
  flat_map (fun p => match p with
                     | LanguageModelToolCallPart callId name input =>
                         [(callId, name, input)]
                     | _ => []
                     end)
           (partsOf messages).

End HostParts.

Module StreamView.

Import VsCode OpenAI.

(** The deltas of a chunk sequence, in the order the loop visits them. *)
Definition deltasOf (chunks : list ChatCompletionChunk) : list Delta :=
  flat_map (fun chunk =>
              flat_map (fun choice => match delta choice with
                                      | Some d => [d]
                                      | None => []
                                      end)
                       (nullish (choices chunk) []))
           chunks.

(** The text fragments that are not blank. *)
Definition textContents (chunks : list ChatCompletionChunk) : list string :=
  flat_map (fun d => match content d with
                     | Some c => if JsString.truthy (JsString.trim c) then [c] else []
                     | None => []
                     end)
           (deltasOf chunks).

(** The text part a delta gives rise to, if any. *)
Definition textOf (d : Delta) : list Part :=
  match content d with
  | Some c => if JsString.truthy (JsString.trim c)
              then [LanguageModelTextPart c] else []
  | None => []
  end.

(** A delta the loop has nothing to report for. *)
Definition quiet (d : Delta) : bool :=
  (negb (truthyString (reasoning d))
   && negb (truthyString (option_map JsString.trim (content d)))
   && match tool_calls d with
      | Some (_ :: _) => false
      | _ => true
      end)%bool.

(** The argument fragments of index [i], joined in order. *)
Fixpoint argumentsFor (i : Z) (fragments : list ToolCallDelta) : string :=
  match fragments with
  | [] => EmptyString
  | tc :: rest =>
      ((if Z.eqb (nullish (index tc) 0%Z) i
        then nullish (chain (tc_function tc) fn_arguments) EmptyString
        else EmptyString)
       ++ argumentsFor i rest)%string
  end.

Definition heldArguments (i : Z) (st : OpenAIProvider.StreamState) : string :=
  match JsMap.get i (OpenAIProvider.toolCallAccum st) with
  | Some acc => OpenAIProvider.argsStr acc
  | None => EmptyString
  end.

(** Reads the thinking parts of a sink from left to right: a fragment
    opens a segment or continues it, a part with an empty fragment closes
    it and is out of place when no segment is open. *)
Fixpoint scanThinking (open : bool) (parts : list Part) : option bool :=
  match parts with
  | [] => Some open
  | LanguageModelThinkingPart EmptyString _ _ :: rest =>
      if open then scanThinking false rest else None
  | LanguageModelThinkingPart _ _ _ :: rest => scanThinking true rest
  | _ :: rest => scanThinking open rest
  end.

(** The flag [thinkingActive] says whether the sink ends inside a
    thinking segment. *)
Definition thinkingMatches (st : OpenAIProvider.StreamState) : Prop :=
  scanThinking false (OpenAIProvider.progress st)
  = Some (OpenAIProvider.thinkingActive st).

End StreamView.

Module StandaloneView.

Import VsCode OpenRouter.

(** The text part the stand-alone loop reports for a chunk, if any: the
    content of the delta of the first choice when it is not empty. *)
Definition textOf (chunk : ChatStreamingResponseChunkData) : list Part :=
  match chain (chain (chain (choices chunk) (fun cs => nth_error cs 0)) delta)
              delta_content with
  | Some c => if JsString.truthy c then [LanguageModelTextPart c] else []
  | None => []
  end.

(** A turn of the loop that goes through: no cancellation, no error. *)
Definition passes (item : bool * ChatStreamingResponseChunkData) : bool :=
  (negb (fst item)
   && match error (snd item) with Some _ => false | None => true end)%bool.

End StandaloneView.

Module AdapterView.

Import OpenRouter OpenRouterAdapter.

(** The argument fragments of index [i] among the tool calls of a delta. *)
Fixpoint argumentsFor (i : Z) (toolCalls : list StreamToolCall) : string :=
  match toolCalls with
  | [] => EmptyString
  | tc :: rest =>
      ((if Z.eqb (index tc) i
        then nullish (chain (call_function tc) fn_arguments) EmptyString
        else EmptyString)
       ++ argumentsFor i rest)%string
  end.

Definition heldArguments (i : Z) (m : JsMap.t ToolCallEntry) : string :=
  match JsMap.get i m with
  | Some entry => args entry
  | None => EmptyString
  end.

(** What [reportToolCalls] reports for one index. *)
Definition partFor (JSON_parse : string -> option Json)
    (m : JsMap.t ToolCallEntry) (idx : Z) : list VsCode.Part :=
  match JsMap.get idx m with
  | Some cur =>
      match entry_id cur, entry_name cur with
      | Some i, Some n =>
          [VsCode.LanguageModelToolCallPart i n
             match JSON_parse (if JsString.truthy (args cur)
                               then args cur else "{}") with
             | Some v => v
             | None => JObject [("raw", JString (args cur))]
             end]
      | _, _ => []
      end
  | None => []
  end.

End AdapterView.

(* ================================================================== *)
(** * Properties *)

(** ** Strings *)

Lemma startsWith_append (p x : string) :
  JsString.startsWith (p ++ x) p = true.
Proof.
  unfold JsString.startsWith.
  induction p as [|c p IH]; simpl.
  - destruct x; reflexivity.
  - destruct (ascii_dec c c) as [_|ne]; [exact IH | congruence].
Qed.

Lemma slice_append (p x : string) :
  JsString.slice (p ++ x) (String.length p) = x.
Proof.
  induction p as [|c p IH]; simpl; [destruct x; reflexivity | exact IH].
Qed.

Lemma split_nonempty (sep : ascii) (s : string) :
  JsString.split sep s <> [].
Proof.
  destruct s as [|c r]; simpl; [discriminate|].
  destruct (Ascii.eqb c sep); [discriminate|].
  destruct (JsString.split sep r); discriminate.
Qed.

(** The first element of [s.split(sep)]: what stands before the first
    separator, or all of [s] when it holds none. *)
Lemma split_first (sep : ascii) (s : string) :
  nth_error (JsString.split sep s) 0 = Some (nullish (JsString.before sep s) s).
Proof.
  induction s as [|c r IH]; simpl; [reflexivity|].
  destruct (Ascii.eqb c sep); simpl; [reflexivity|].
  destruct (JsString.split sep r) as [|h t] eqn:E; simpl in *.
  - discriminate.
  - injection IH as ->. destruct (JsString.before sep r); reflexivity.
Qed.

Lemma before_none (sep : ascii) (s : string) :
  JsString.before sep s = None <-> JsString.contains sep s = false.
Proof.
  induction s as [|c r IH]; simpl; [tauto|].
  destruct (Ascii.eqb c sep); simpl.
  - split; discriminate.
  - destruct (JsString.before sep r); simpl.
    + split; [discriminate|]. intros H. apply IH in H. discriminate.
    + split; [|reflexivity]. intros _. apply IH. reflexivity.
Qed.

(** [before] cuts at the first separator: the result holds none, and the
    separator follows it in [s]. *)
Lemma before_some (sep : ascii) (s p : string) :
  JsString.before sep s = Some p <->
  JsString.contains sep p = false /\ exists rest, s = (p ++ String sep rest)%string.
Proof.
  revert p. induction s as [|c r IH]; intros p; simpl.
  - split; [discriminate|]. intros [_ [rest H]]. destruct p; discriminate.
  - destruct (Ascii.eqb c sep) eqn:E.
    + apply Ascii.eqb_eq in E. subst c. split.
      * intros [= <-]. split; [reflexivity|]. exists r. reflexivity.
      * intros [Hp [rest H]]. destruct p as [|d p]; [reflexivity|].
        simpl in *. injection H as -> _. rewrite Ascii.eqb_refl in Hp. discriminate.
    + split.
      * destruct (JsString.before sep r) as [q|] eqn:B; simpl; [|discriminate].
        intros [= <-]. destruct (proj1 (IH q) eq_refl) as [Hq [rest ->]].
        simpl. rewrite E. split; [exact Hq|]. exists rest. reflexivity.
      * intros [Hp [rest H]]. destruct p as [|d p]; simpl in *.
        -- injection H as -> _. rewrite Ascii.eqb_refl in E. discriminate.
        -- injection H as <- ->. rewrite E in Hp. simpl in Hp.
           rewrite (proj2 (IH p)); [reflexivity|].
           split; [exact Hp|]. exists rest. reflexivity.
Qed.

(** ** Lists *)

Lemma filter_flat_map {A B : Type} (p : B -> bool) (f : A -> list B) (l : list A) :
  filter p (flat_map f l) = flat_map (fun x => filter p (f x)) l.
Proof.
  induction l as [|x l IH]; simpl; [reflexivity|].
  rewrite filter_app, IH. reflexivity.
Qed.

Lemma map_of_flat_map {A B C : Type} (h : B -> C) (f : A -> list B) (l : list A) :
  map h (flat_map f l) = flat_map (fun x => map h (f x)) l.
Proof.
  induction l as [|x l IH]; simpl; [reflexivity|].
  rewrite map_app, IH. reflexivity.
Qed.

Lemma flat_map_pointwise {A B : Type} (f g : A -> list B) (l : list A) :
  (forall x, f x = g x) -> flat_map f l = flat_map g l.
Proof.
  intros H. induction l as [|x l IH]; simpl; [reflexivity|].
  rewrite H, IH. reflexivity.
Qed.

(** A loop that only pushes to its accumulator is a [flat_map]. *)
Lemma fold_left_pushes {A B : Type} (push : list B -> A -> list B)
    (emit : A -> list B) (items : list A) (out : list B) :
  (forall o x, push o x = o ++ emit x) ->
  fold_left push items out = out ++ flat_map emit items.
Proof.
  intros H. revert out. induction items as [|x items IH]; intros out; simpl.
  - rewrite app_nil_r. reflexivity.
  - rewrite IH, H, <- app_assoc. reflexivity.
Qed.

Lemma filter_filter_swap {A : Type} (p q : A -> bool) (l : list A) :
  filter p (filter q l) = filter q (filter p l).
Proof.
  induction l as [|x l IH]; simpl; [reflexivity|].
  destruct (p x) eqn:P, (q x) eqn:Q; simpl; rewrite ?P, ?Q, IH; reflexivity.
Qed.

Lemma existsb_false_in {A : Type} (p : A -> bool) (l : list A) (x : A) :
  existsb p l = false -> In x l -> p x = false.
Proof.
  intros H Hin. destruct (p x) eqn:E; [|reflexivity].
  rewrite <- H. symmetry. apply existsb_exists. exists x. split; assumption.
Qed.

Lemma fold_left_preserves {A B : Type} (P : A -> Prop) (f : A -> B -> A)
    (l : list B) (a : A) :
  P a -> (forall a x, P a -> P (f a x)) -> P (fold_left f l a).
Proof.
  intros Ha Hstep. revert a Ha.
  induction l as [|x l IH]; simpl; intros a Ha; [exact Ha|].
  apply IH. apply Hstep. exact Ha.
Qed.

(** ** Model identifiers *)

(** C9. For every string [x] that does not begin with the model-id prefix,
    [getOpenRouterModelId (prefix ++ x)] is [x] and [getOpenRouterModelId x]
    is [x]; the function is defined on every string. *)
Theorem getOpenRouterModelId_roundtrip (prefix x : string) :
  JsString.startsWith x prefix = false ->
  OpenRouterAdapter.getOpenRouterModelId prefix (prefix ++ x) = x
  /\ OpenRouterAdapter.getOpenRouterModelId prefix x = x.
Proof.
  intros H. unfold OpenRouterAdapter.getOpenRouterModelId.
  rewrite startsWith_append, slice_append, H. split; reflexivity.
Qed.

Lemma getOpenRouterModelId_roundtrip_witness :
  JsString.startsWith "openai/gpt-4o" "vscode-openrouter/" = false
  /\ OpenRouterAdapter.getOpenRouterModelId "vscode-openrouter/"
       ("vscode-openrouter/" ++ "openai/gpt-4o") = "openai/gpt-4o"
  /\ OpenRouterAdapter.getOpenRouterModelId "vscode-openrouter/" "openai/gpt-4o"
     = "openai/gpt-4o".
Proof.
  split; [reflexivity|].
  apply (getOpenRouterModelId_roundtrip "vscode-openrouter/" "openai/gpt-4o").
  reflexivity.
Defined.

(** The prefix comes off whatever follows it, also a second prefix. *)
Lemma getOpenRouterModelId_strips_once (prefix x : string) :
  OpenRouterAdapter.getOpenRouterModelId prefix (prefix ++ x) = x.
Proof.
  unfold OpenRouterAdapter.getOpenRouterModelId.
  rewrite startsWith_append, slice_append. reflexivity.
Qed.

(** ** Model families *)

Lemma modelFamily_before (id : string) :
  OpenRouterAdapter.modelFamily id = nullish (JsString.before "/" id) id.
Proof.
  unfold OpenRouterAdapter.modelFamily. rewrite split_first. reflexivity.
Qed.

(** The listing of the OpenAI-compatible revision computes the family with
    the same expression, for the models that have an id. *)
Lemma listModels_family (prefix : string)
    (models : list OpenAIProvider.OpenRouterModelData) :
  map VsCode.family (OpenAIProvider.listModels prefix models)
  = map (fun m => nullish (JsString.before "/" (OpenAIProvider.data_id m))
                          (OpenAIProvider.data_id m))
        (filter (fun m => JsString.truthy (OpenAIProvider.data_id m)) models).
Proof.
  unfold OpenAIProvider.listModels.
  rewrite (fold_left_pushes _
             (fun model =>
                match OpenAIProvider.resolveModelCapabilities model with
                | None => []
                | Some cap =>
                    [ {| VsCode.id := (prefix ++ OpenAIProvider.data_id model)%string;
                         VsCode.name := OpenAIProvider.cap_name cap;
                         VsCode.family :=
                           OpenRouterAdapter.modelFamily (OpenAIProvider.data_id model);
                         VsCode.version := "latest";
                         VsCode.maxInputTokens := OpenAIProvider.cap_maxInputTokens cap;
                         VsCode.maxOutputTokens := OpenAIProvider.cap_maxOutputTokens cap;
                         VsCode.imageInput := OpenAIProvider.cap_vision cap;
                         VsCode.toolCalling := OpenAIProvider.cap_toolCalling cap;
                         VsCode.tooltip := None |} ]
                end)).
  - simpl. induction models as [|m models IH]; simpl; [reflexivity|].
    unfold OpenAIProvider.resolveModelCapabilities at 1.
    destruct (JsString.truthy (OpenAIProvider.data_id m)); simpl; [|exact IH].
    rewrite modelFamily_before, IH. reflexivity.
  - intros o model.
    destruct (OpenAIProvider.resolveModelCapabilities model);
      [reflexivity | rewrite app_nil_r; reflexivity].
Qed.

(** C5, as the code has it. For every provider model record the family of
    the descriptor is the part of the native id before its first "/", and
    the whole id when the id holds no "/". *)
Theorem family_is_id_up_to_first_slash
    (Number : Type) (toFixed : Number -> nat -> string) (prefix : string)
    (model : OpenRouter.Model Number) :
  VsCode.family (OpenRouterAdapter.convertModelInformation Number toFixed prefix model)
  = match JsString.before "/" (OpenRouter.model_id model) with
    | Some beforeSlash => beforeSlash
    | None => OpenRouter.model_id model
    end.
Proof.
  simpl. rewrite modelFamily_before. reflexivity.
Qed.

(** Against C5 with the "unknown" sentinel: the id "gpt4" holds no "/" and
    its family is "gpt4", not "unknown". *)
Lemma family_without_slash_is_not_unknown :
  let model : OpenRouter.Model Empty_set :=
    {| OpenRouter.model_id := "gpt4"; OpenRouter.model_name := "GPT 4";
       OpenRouter.contextLength := None; OpenRouter.topProvider := None;
       OpenRouter.architecture := None; OpenRouter.supportedParameters := None;
       OpenRouter.pricing := None |} in
  let descriptor :=
    OpenRouterAdapter.convertModelInformation Empty_set
      (fun x _ => match x with end) "vscode-openrouter/" model in
  JsString.contains "/" (OpenRouter.model_id model) = false
  /\ VsCode.family descriptor = "gpt4"
  /\ VsCode.family descriptor <> "unknown".
Proof.
  simpl. repeat split. discriminate.
Qed.

(** The fallback of [?? "unknown"] is never taken: [split] returns at
    least one element. *)
Lemma modelFamily_unknown_only_literally (id : string) :
  OpenRouterAdapter.modelFamily id = "unknown" ->
  id = "unknown" \/ exists rest, id = ("unknown/" ++ rest)%string.
Proof.
  rewrite modelFamily_before.
  destruct (JsString.before "/" id) as [p|] eqn:B; simpl.
  - intros ->. apply before_some in B. destruct B as [_ [rest ->]].
    right. exists rest. reflexivity.
  - intros ->. left. reflexivity.
Qed.

(** ** [processStreamChunk] on an error chunk *)

(** C10. For every chunk whose error member is present,
    [processStreamChunk] returns the error's message, or "OpenRouter stream
    error" when the message is absent, reports nothing and leaves the map
    as it was, whatever else the chunk carries. *)
Theorem processStreamChunk_error
    (err : OpenRouter.ChunkError) (choices : option (list OpenRouter.Choice))
    (progress : VsCode.Progress)
    (toolCallsByIndex : JsMap.t OpenRouterAdapter.ToolCallEntry) :
  OpenRouterAdapter.processStreamChunk
    {| OpenRouter.error := Some err; OpenRouter.choices := choices |}
    progress toolCallsByIndex
  = (Some match OpenRouter.message err with
          | Some m => m
          | None => "OpenRouter stream error"
          end,
     (progress, toolCallsByIndex)).
Proof.
  unfold OpenRouterAdapter.processStreamChunk. simpl.
  destruct (OpenRouter.message err); reflexivity.
Qed.

(** ** Translation of the messages *)

Section Translation.

Import VsCode OpenRouter OpenRouterAdapter HostView WireView.

Variable JSON_stringify : Json -> string.
Variable btoa : string -> string.

Local Abbreviation translate := (vscodeMessagesToOpenRouter JSON_stringify btoa).
Local Abbreviation push := (pushElement JSON_stringify btoa).

(** The guard [role !== "tool"] of the text branch never fails. *)
Lemma convertRole_not_tool (r : LanguageModelChatMessageRole) :
  Role_eqb (convertRole r) tool = false.
Proof. destruct r; reflexivity. Qed.

Lemma pushElement_appends (msg : LanguageModelChatRequestMessage)
    (out : list Message) (element : Part) :
  push msg out element = out ++ push msg [] element.
Proof.
  destruct element; simpl; try (rewrite app_nil_r; reflexivity);
    try reflexivity.
  - rewrite convertRole_not_tool. reflexivity.
  - destruct (JsString.startsWith mimeType "image/");
      [reflexivity | rewrite app_nil_r; reflexivity].
Qed.

(** The two loops push, for each message and each of its parts in
    order, what the part gives rise to. *)
Lemma vscodeMessagesToOpenRouter_flat_map
    (messages : list LanguageModelChatRequestMessage) :
  translate messages
  = flat_map (fun msg => flat_map (push msg []) (VsCode.content msg)) messages.
Proof.
  unfold vscodeMessagesToOpenRouter.
  rewrite (fold_left_pushes _
             (fun msg => flat_map (push msg []) (VsCode.content msg))).
  - reflexivity.
  - intros o msg. apply fold_left_pushes. intros o' x. apply pushElement_appends.
Qed.

(** C1, as the code has it. For every host message list each tool-result
    part gives exactly one provider message with role "tool", carrying
    the part's call id and its JSON-stringified content: the tool-role
    messages of the result are these, in order. Text parts are not
    dropped: each gives a text message under the converted role of its
    host message, whether or not that message holds a tool-result part. *)
Theorem tool_results_and_texts_are_both_translated
    (messages : list LanguageModelChatRequestMessage) :
  filter isTool (translate messages)
  = map (fun cv => toolMessage (fst cv) (JSON_stringify (snd cv)))
        (toolResultsOf messages)
  /\ filter isPlainText (translate messages)
     = map (fun rv => textMessage (convertRole (fst rv)) (snd rv))
           (textsOf messages).
Proof.
  rewrite vscodeMessagesToOpenRouter_flat_map.
  unfold toolResultsOf, textsOf.
  rewrite !filter_flat_map, !map_of_flat_map. split.
  - apply flat_map_pointwise. intros msg.
    rewrite filter_flat_map, map_of_flat_map.
    apply flat_map_pointwise. intros element.
    destruct element; simpl; try reflexivity.
    + rewrite convertRole_not_tool. simpl. unfold isTool. simpl.
      rewrite convertRole_not_tool. reflexivity.
    + destruct (JsString.startsWith mimeType "image/"); simpl; [|reflexivity].
      unfold isTool. simpl. rewrite convertRole_not_tool. reflexivity.
  - apply flat_map_pointwise. intros msg.
    rewrite filter_flat_map, map_of_flat_map.
    apply flat_map_pointwise. intros element.
    destruct element; simpl; try reflexivity.
    + rewrite convertRole_not_tool. simpl. unfold isPlainText, isTool. simpl.
      rewrite convertRole_not_tool. reflexivity.
    + destruct (JsString.startsWith mimeType "image/"); reflexivity.
Qed.

End Translation.

(** Against C1 with dropped text parts: a user message holds a text part
    and a tool-result part; the translation keeps the text as a "user"
    message next to the "tool" message. *)
Lemma text_beside_tool_result_is_kept :
  let result := JArray [JString "42"] in
  let msg :=
    {| VsCode.role := VsCode.User;
       VsCode.content :=
         [VsCode.LanguageModelTextPart "Here is the result";
          VsCode.LanguageModelToolResultPart "call_1" result] |} in
  let out :=
    OpenRouterAdapter.vscodeMessagesToOpenRouter
      JsonModel.stringify Base64Model.btoa [msg] in
  existsb VsCode.isToolResultPart (VsCode.content msg) = true
  /\ out = [WireView.textMessage OpenRouter.user "Here is the result";
            WireView.toolMessage "call_1" (JsonModel.stringify result)]
  /\ filter WireView.isPlainText out
     = [WireView.textMessage OpenRouter.user "Here is the result"].
Proof.
  repeat split.
Qed.

(** ** The system-prompt override *)

Section Override.

Import OpenRouter WireView SystemPrompt.

Lemma applyOverride_configured (text : string) (orMessages : list Message) :
  JsString.truthy text = true ->
  applyOverride (Some text) orMessages
  = textMessage system text
    :: filter (fun msg => negb (isSystem msg)) orMessages.
Proof. intros H. unfold applyOverride. rewrite H. reflexivity. Qed.

(** Without a setting, or with one that trims to nothing, the list goes
    out as translated. *)
Lemma applyOverride_not_configured (setting : option string)
    (orMessages : list Message) :
  truthyString (systemPromptOverride setting) = false ->
  applyOverride (systemPromptOverride setting) orMessages = orMessages.
Proof.
  unfold applyOverride. destruct (systemPromptOverride setting) as [text|];
    simpl; [|reflexivity].
  intros ->. reflexivity.
Qed.

Lemma countSystem_filtered (l : list Message) :
  countSystem (filter (fun msg => negb (isSystem msg)) l) = 0.
Proof.
  unfold countSystem. induction l as [|m l IH]; simpl; [reflexivity|].
  destruct (isSystem m) eqn:E; simpl; [exact IH|].
  rewrite E. exact IH.
Qed.

Lemma prepareMessages_configured (setting : option string) (text : string)
    (orMessages sent : list Message) :
  systemPromptOverride setting = Some text ->
  JsString.truthy text = true ->
  prepareMessages setting orMessages = inr sent ->
  sent = textMessage system text
         :: filter (fun msg => negb (isSystem msg)) orMessages.
Proof.
  intros Hs Ht. unfold prepareMessages. rewrite Hs.
  destruct orMessages as [|m l]; [discriminate|].
  intros H. injection H as <-.
  exact (applyOverride_configured text (m :: l) Ht).
Qed.

Variable JSON_stringify : Json -> string.
Variable btoa : string -> string.
Variable MODEL_ID_PREFIX : string.

Local Abbreviation translate :=
  (OpenRouterAdapter.vscodeMessagesToOpenRouter JSON_stringify btoa).

(** Both revisions put the prepared list into the request. *)
Lemma buildRequest_messages
    (apiKey : option string) (model : VsCode.LanguageModelChatInformation)
    (messages : list VsCode.LanguageModelChatRequestMessage)
    (tools : option (list VsCode.LanguageModelChatTool))
    (setting : option string) (request : ChatRequest) :
  OpenAIProvider.buildRequest JSON_stringify btoa MODEL_ID_PREFIX
    apiKey model messages tools setting = inr request
  \/ SdkProvider.buildRequest JSON_stringify btoa MODEL_ID_PREFIX
       apiKey model messages tools setting = inr request ->
  prepareMessages setting (translate messages) = inr (req_messages request).
Proof.
  unfold OpenAIProvider.buildRequest, SdkProvider.buildRequest.
  intros [H|H].
  - destruct (negb (truthyString apiKey)); [discriminate|].
    destruct (prepareMessages setting (translate messages)); [discriminate|].
    injection H as <-. reflexivity.
  - destruct (negb (truthyString apiKey)); [discriminate|].
    destruct (prepareMessages setting (translate messages)); [discriminate|].
    injection H as <-. reflexivity.
Qed.

(** C2. For every message list and every configured override (the
    setting, trimmed, is not empty), the message list of the request
    that either revision of [provider.ts] hands to the transport starts
    with one new system message holding the override text, followed by
    the translated messages without those of role "system": it holds
    exactly one system message, and no system message of the translation. *)
Theorem override_replaces_system_messages
    (apiKey : option string) (model : VsCode.LanguageModelChatInformation)
    (messages : list VsCode.LanguageModelChatRequestMessage)
    (tools : option (list VsCode.LanguageModelChatTool))
    (setting : option string) (text : string) (request : ChatRequest) :
  systemPromptOverride setting = Some text ->
  JsString.truthy text = true ->
  OpenAIProvider.buildRequest JSON_stringify btoa MODEL_ID_PREFIX
    apiKey model messages tools setting = inr request
  \/ SdkProvider.buildRequest JSON_stringify btoa MODEL_ID_PREFIX
       apiKey model messages tools setting = inr request ->
  req_messages request
  = textMessage system text
    :: filter (fun msg => negb (isSystem msg)) (translate messages)
  /\ hd_error (req_messages request) = Some (textMessage system text)
  /\ countSystem (req_messages request) = 1
  /\ Forall (fun msg => isSystem msg = false /\ In msg (translate messages))
            (tl (req_messages request)).
Proof.
  intros Hs Ht Hreq.
  apply buildRequest_messages in Hreq.
  apply (prepareMessages_configured _ _ _ _ Hs Ht) in Hreq.
  rewrite Hreq. repeat split.
  - unfold countSystem. simpl. f_equal. apply countSystem_filtered.
  - simpl. apply Forall_forall. intros msg Hin.
    apply filter_In in Hin. destruct Hin as [Hin Hns].
    split; [|exact Hin]. destruct (isSystem msg); [discriminate|reflexivity].
Qed.

End Override.

Lemma override_replaces_system_messages_witness :
  let model :=
    {| VsCode.id := "vscode-openrouter/openai/gpt-4o"; VsCode.name := "GPT-4o";
       VsCode.family := "openai"; VsCode.version := "latest";
       VsCode.maxInputTokens := 128000; VsCode.maxOutputTokens := 4096;
       VsCode.imageInput := false; VsCode.toolCalling := true;
       VsCode.tooltip := None |} in
  let messages :=
    [ {| VsCode.role := VsCode.System;
         VsCode.content := [VsCode.LanguageModelTextPart "You are Copilot."] |};
      {| VsCode.role := VsCode.User;
         VsCode.content := [VsCode.LanguageModelTextPart "hi"] |};
      {| VsCode.role := VsCode.System;
         VsCode.content := [VsCode.LanguageModelTextPart "Follow the rules."] |} ] in
  exists request,
    OpenAIProvider.buildRequest JsonModel.stringify Base64Model.btoa
      "vscode-openrouter/" (Some "sk-or-key") model messages None
      (Some "  Answer briefly. ") = inr request
    /\ req_messages request
       = [WireView.textMessage OpenRouter.system "Answer briefly.";
          WireView.textMessage OpenRouter.user "hi"]
    /\ WireView.countSystem (req_messages request) = 1.
Proof.
  intros model messages. eexists. split; [reflexivity|].
  destruct (override_replaces_system_messages
              JsonModel.stringify Base64Model.btoa "vscode-openrouter/"
              (Some "sk-or-key") model messages None (Some "  Answer briefly. ")
              "Answer briefly." _ eq_refl eq_refl (or_introl eq_refl))
    as (Hsent & _ & Hcount & _).
  split; [exact Hsent | exact Hcount].
Defined.

(** A setting of white space only trims to the empty string and counts as
    not configured: the system messages of the translation stay. *)
Lemma blank_setting_is_no_override :
  SystemPrompt.applyOverride (SystemPrompt.systemPromptOverride (Some "   "))
    [WireView.textMessage OpenRouter.system "You are Copilot."]
  = [WireView.textMessage OpenRouter.system "You are Copilot."].
Proof. reflexivity. Qed.

(** The stand-alone provider handles the override differently: the first
    system message takes the override text where it stands and later
    system messages stay. *)
Lemma standalone_override_rewrites_in_place :
  StandaloneProvider.applyOverride (Some "Answer briefly.")
    [ {| StandaloneProvider.role := OpenRouter.user;
         StandaloneProvider.content := "hi" |};
      {| StandaloneProvider.role := OpenRouter.system;
         StandaloneProvider.content := "You are Copilot." |};
      {| StandaloneProvider.role := OpenRouter.system;
         StandaloneProvider.content := "Follow the rules." |} ]
  = [ {| StandaloneProvider.role := OpenRouter.user;
         StandaloneProvider.content := "hi" |};
      {| StandaloneProvider.role := OpenRouter.system;
         StandaloneProvider.content := "Answer briefly." |};
      {| StandaloneProvider.role := OpenRouter.system;
         StandaloneProvider.content := "Follow the rules." |} ].
Proof. reflexivity. Qed.

(** ** The stream of the OpenAI-compatible revision *)

Section Stream.

Import VsCode OpenAI OpenAIProvider Reassembly Scenario.

Variable JSON_parse : string -> option Json.

Local Abbreviation stepToolCall := (OpenAIProvider.stepToolCall JSON_parse).
Local Abbreviation stepChoice := (OpenAIProvider.stepChoice JSON_parse).
Local Abbreviation stepChunk := (OpenAIProvider.stepChunk JSON_parse).
Local Abbreviation chunkLoop := (OpenAIProvider.chunkLoop JSON_parse).
Local Abbreviation reportDangling := (OpenAIProvider.reportDangling JSON_parse).
Local Abbreviation beforePlaceholder := (OpenAIProvider.beforePlaceholder JSON_parse).
Local Abbreviation streamResponse := (OpenAIProvider.streamResponse JSON_parse).

(** C7. For the chunk sequence whose first chunk carries only the
    reasoning fragment "think" and whose second carries only the text
    "hello", the sink receives exactly: the thinking part "think", the
    closing thinking part (empty fragment, done flag set), the text part
    "hello". The first chunk leaves the thinking segment open; the second
    closes it. *)
Theorem reasoning_is_closed_before_text :
  let afterFirst := chunkLoop initialState [reasoningChunk] in
  progress afterFirst
  = [ LanguageModelThinkingPart "think" EmptyString (JObject []) ]
  /\ thinkingActive afterFirst = true
  /\ thinkingActive (stepChunk afterFirst contentChunk) = false
  /\ streamResponse [reasoningChunk; contentChunk]
     = [ LanguageModelThinkingPart "think" EmptyString (JObject []);
         LanguageModelThinkingPart EmptyString EmptyString
           (JObject [("vscode_reasoning_done", JBool true)]);
         LanguageModelTextPart "hello" ].
Proof.
  intros afterFirst.
  assert (H1 : afterFirst
               = {| thinkingActive := true; reportedText := false;
                    reportedToolCall := false; toolCallAccum := JsMap.empty;
                    progress :=
                      [LanguageModelThinkingPart "think" EmptyString (JObject [])] |})
    by reflexivity.
  rewrite H1. split; [reflexivity|]. split; [reflexivity|].
  split; [reflexivity|].
  unfold OpenAIProvider.streamResponse, OpenAIProvider.beforePlaceholder.
  change (OpenAIProvider.chunkLoop JSON_parse initialState
            [reasoningChunk; contentChunk])
    with (stepChunk afterFirst contentChunk).
  rewrite H1. reflexivity.
Qed.

(** C4. Chunk one carries, for index 0, the id "a", the name "f" and the
    argument text cut after the colon; chunk two carries the rest "1}".
    Nothing is reported after chunk one; after chunk two, and for the whole
    stream, the sink holds exactly one tool call: "a", "f", input {x: 1}. *)
Theorem split_arguments_report_one_tool_call :
  JSON_parse argumentsHead = None ->
  JSON_parse argumentsWhole = Some inputX1 ->
  progress (chunkLoop initialState [firstToolChunk]) = []
  /\ progress (chunkLoop initialState [firstToolChunk; secondToolChunk])
     = [LanguageModelToolCallPart "a" "f" inputX1]
  /\ streamResponse [firstToolChunk; secondToolChunk]
     = [LanguageModelToolCallPart "a" "f" inputX1].
Proof.
  intros Hhead Hwhole.
  assert (H1 : chunkLoop initialState [firstToolChunk]
               = {| thinkingActive := false; reportedText := false;
                    reportedToolCall := false;
                    toolCallAccum :=
                      [(0%Z, {| acc_id := "a"; acc_name := "f";
                                argsStr := argumentsHead |})];
                    progress := [] |}).
  { cbn. unfold OpenAIProvider.stepToolCall. cbn.
    change (JSON_parse _) with (JSON_parse argumentsHead).
    rewrite Hhead. reflexivity. }
  assert (H2 : chunkLoop initialState [firstToolChunk; secondToolChunk]
               = {| thinkingActive := false; reportedText := false;
                    reportedToolCall := true;
                    toolCallAccum :=
                      [(0%Z, {| acc_id := "a"; acc_name := "f";
                                argsStr := argumentsWhole |})];
                    progress := [LanguageModelToolCallPart "a" "f" inputX1] |}).
  { change (chunkLoop initialState [firstToolChunk; secondToolChunk])
      with (stepChunk (chunkLoop initialState [firstToolChunk]) secondToolChunk).
    rewrite H1. cbn. unfold OpenAIProvider.stepToolCall. cbn.
    change (JSON_parse _) with (JSON_parse argumentsWhole).
    rewrite Hwhole. reflexivity. }
  split; [rewrite H1; reflexivity|].
  split; [rewrite H2; reflexivity|].
  unfold OpenAIProvider.streamResponse, OpenAIProvider.beforePlaceholder.
  rewrite H2.
  unfold OpenAIProvider.reportDangling. cbn.
  unfold OpenAIProvider.stepDangling. cbn.
  change (JSON_parse _) with (JSON_parse argumentsWhole).
  rewrite Hwhole. reflexivity.
Qed.

End Stream.

Lemma split_arguments_report_one_tool_call_witness :
  JsonModel.parse Scenario.argumentsHead = None
  /\ JsonModel.parse Scenario.argumentsWhole = Some Scenario.inputX1
  /\ OpenAIProvider.streamResponse JsonModel.parse
       [Scenario.firstToolChunk; Scenario.secondToolChunk]
     = [VsCode.LanguageModelToolCallPart "a" "f" Scenario.inputX1].
Proof.
  split; [reflexivity|]. split; [reflexivity|].
  apply (split_arguments_report_one_tool_call JsonModel.parse eq_refl eq_refl).
Defined.

(** ** The insertion-ordered map *)

Section MapFacts.

Context {V : Type}.
Implicit Types (m : JsMap.t V) (k : Z) (v : V).

Lemma get_set_same k v m : JsMap.get k (JsMap.set k v m) = Some v.
Proof.
  induction m as [|[k' v'] m IH]; simpl.
  - rewrite Z.eqb_refl. reflexivity.
  - destruct (Z.eqb k k') eqn:E; simpl.
    + rewrite Z.eqb_refl. reflexivity.
    + rewrite E. exact IH.
Qed.

Lemma get_set_other k k' v m :
  k' <> k -> JsMap.get k' (JsMap.set k v m) = JsMap.get k' m.
Proof.
  intros Hne. induction m as [|[k0 v0] m IH]; simpl.
  - destruct (Z.eqb_spec k' k); [contradiction | reflexivity].
  - destruct (Z.eqb_spec k k0) as [->|Hk]; simpl.
    + destruct (Z.eqb_spec k' k0); [contradiction | reflexivity].
    + destruct (Z.eqb k' k0); [reflexivity | exact IH].
Qed.

Lemma keys_set_in k k' v m :
  In k' (JsMap.keys (JsMap.set k v m)) -> k' = k \/ In k' (JsMap.keys m).
Proof.
  induction m as [|[k0 v0] m IH]; simpl.
  - intros [<-|[]]. left. reflexivity.
  - destruct (Z.eqb_spec k k0) as [->|Hk]; simpl.
    + intros [<-|H]; [left; reflexivity | right; right; exact H].
    + intros [<-|H]; [right; left; reflexivity|].
      destruct (IH H) as [->|H']; [left; reflexivity | right; right; exact H'].
Qed.

(** [set] never makes a second entry for a key. *)
Lemma NoDup_keys_set k v m :
  NoDup (JsMap.keys m) -> NoDup (JsMap.keys (JsMap.set k v m)).
Proof.
  induction m as [|[k0 v0] m IH]; simpl; intros H.
  - constructor; [intros [] | constructor].
  - inversion H as [|? ? Hnotin Hrest]; subst.
    destruct (Z.eqb_spec k k0) as [->|Hk]; simpl.
    + constructor; assumption.
    + constructor; [|apply IH; exact Hrest].
      intros Hin. apply keys_set_in in Hin. destruct Hin as [->|Hin];
        [apply Hk; reflexivity | apply Hnotin; exact Hin].
Qed.

Lemma filter_key_absent k m :
  ~ In k (JsMap.keys m) -> filter (fun kv => Z.eqb (fst kv) k) m = [].
Proof.
  induction m as [|[k0 v0] m IH]; simpl; intros H; [reflexivity|].
  destruct (Z.eqb_spec k0 k) as [->|Hk].
  - exfalso. apply H. left. reflexivity.
  - apply IH. intros Hin. apply H. right. exact Hin.
Qed.

(** A key that is looked up with success has exactly one entry. *)
Lemma filter_key_found k v m :
  NoDup (JsMap.keys m) -> JsMap.get k m = Some v ->
  filter (fun kv => Z.eqb (fst kv) k) m = [(k, v)].
Proof.
  induction m as [|[k0 v0] m IH]; simpl; intros Hnd Hget; [discriminate|].
  inversion Hnd as [|? ? Hnotin Hrest]; subst.
  destruct (Z.eqb_spec k k0) as [->|Hk].
  - injection Hget as ->. rewrite Z.eqb_refl.
    rewrite (filter_key_absent _ _ Hnotin). reflexivity.
  - destruct (Z.eqb_spec k0 k) as [E|_]; [symmetry in E; contradiction|].
    apply IH; assumption.
Qed.

Lemma get_in k v m : JsMap.get k m = Some v -> In (k, v) m.
Proof.
  induction m as [|[k0 v0] m IH]; simpl; [discriminate|].
  destruct (Z.eqb_spec k k0) as [->|Hk].
  - intros [= ->]. left. reflexivity.
  - intros H. right. apply IH. exact H.
Qed.

End MapFacts.

(** ** The flags and the sink *)

Section Flags.

Import VsCode OpenAI OpenAIProvider Reassembly.

Variable JSON_parse : string -> option Json.

Local Abbreviation stepToolCall := (OpenAIProvider.stepToolCall JSON_parse).
Local Abbreviation stepChoice := (OpenAIProvider.stepChoice JSON_parse).
Local Abbreviation stepChunk := (OpenAIProvider.stepChunk JSON_parse).
Local Abbreviation chunkLoop := (OpenAIProvider.chunkLoop JSON_parse).
Local Abbreviation stepDangling := (OpenAIProvider.stepDangling JSON_parse).
Local Abbreviation reportDangling := (OpenAIProvider.reportDangling JSON_parse).
Local Abbreviation beforePlaceholder := (OpenAIProvider.beforePlaceholder JSON_parse).
Local Abbreviation streamResponse := (OpenAIProvider.streamResponse JSON_parse).

Lemma existsb_report (p : Part -> bool) (part : Part) (sink : Progress) :
  existsb p (report part sink) = (existsb p sink || p part)%bool.
Proof.
  unfold report. rewrite existsb_app. simpl. rewrite orb_false_r. reflexivity.
Qed.

Lemma flagsMatch_initial : flagsMatch initialState.
Proof. split; reflexivity. Qed.

Lemma flagsMatch_stepToolCall (st : StreamState) (toolCall : ToolCallDelta) :
  flagsMatch st -> flagsMatch (stepToolCall st toolCall).
Proof.
  intros [Ht Hc]. unfold OpenAIProvider.stepToolCall.
  destruct (JsMap.get _ (toolCallAccum st)); cbv zeta beta iota;
    match goal with
    | |- context [if ?c then JSON_parse ?s else _] =>
        destruct (if c then JSON_parse s else Some emptyObject)
    end;
    split; simpl; try assumption;
    rewrite existsb_report; simpl;
    rewrite ?orb_false_r, ?orb_true_r; try assumption; reflexivity.
Qed.

Lemma flagsMatch_stepReasoning (st : StreamState) (d : Delta) :
  flagsMatch st -> flagsMatch (stepReasoning st d).
Proof.
  intros [Ht Hc]. unfold stepReasoning.
  destruct (reasoning d) as [[|c r]|]; try destruct (thinkingActive st);
    split; simpl; try assumption;
    rewrite existsb_report; simpl; rewrite orb_false_r; assumption.
Qed.

Lemma flagsMatch_stepContent (st : StreamState) (d : Delta) :
  flagsMatch st -> flagsMatch (stepContent st d).
Proof.
  intros [Ht Hc]. unfold stepContent.
  destruct (content d) as [c|]; [|split; assumption].
  destruct (JsString.truthy (JsString.trim c)); [|split; assumption].
  split; simpl; rewrite existsb_report; simpl;
    rewrite ?orb_false_r, ?orb_true_r; try assumption; reflexivity.
Qed.

Lemma flagsMatch_stepChoice (st : StreamState) (choice : Choice) :
  flagsMatch st -> flagsMatch (stepChoice st choice).
Proof.
  intros H. unfold OpenAIProvider.stepChoice.
  destruct (delta choice) as [d|]; [|exact H].
  unfold stepToolCalls. destruct (tool_calls d) as [[|tc rest]|];
    try (apply flagsMatch_stepContent, flagsMatch_stepReasoning; exact H).
  apply fold_left_preserves; [|intros; apply flagsMatch_stepToolCall; assumption].
  apply flagsMatch_stepContent, flagsMatch_stepReasoning. exact H.
Qed.

Lemma flagsMatch_chunkLoop (st : StreamState) (chunks : list ChatCompletionChunk) :
  flagsMatch st -> flagsMatch (chunkLoop st chunks).
Proof.
  intros H. unfold OpenAIProvider.chunkLoop.
  apply fold_left_preserves; [exact H|].
  intros a chunk Ha. unfold OpenAIProvider.stepChunk.
  apply fold_left_preserves; [exact Ha|].
  intros; apply flagsMatch_stepChoice; assumption.
Qed.

Lemma flagsMatch_stepDangling (st : StreamState) (acc : ToolCallAccumulator) :
  flagsMatch st -> flagsMatch (stepDangling st acc).
Proof.
  intros [Ht Hc]. unfold OpenAIProvider.stepDangling.
  destruct (Nat.eqb _ 0); [split; assumption|].
  destruct (JSON_parse (argsStr acc)); [split; assumption|].
  split; simpl; rewrite existsb_report; simpl;
    rewrite ?orb_false_r, ?orb_true_r; try assumption; reflexivity.
Qed.

Lemma flagsMatch_closeThinking (st : StreamState) :
  flagsMatch st -> flagsMatch (closeThinking st).
Proof.
  intros [Ht Hc]. unfold closeThinking. destruct (thinkingActive st);
    split; simpl; try assumption;
    rewrite existsb_report; simpl; rewrite orb_false_r; assumption.
Qed.

(** When the placeholder test is reached, each flag is set exactly when
    the sink holds a part of its kind. *)
Lemma flagsMatch_beforePlaceholder (chunks : list ChatCompletionChunk) :
  flagsMatch (beforePlaceholder chunks).
Proof.
  unfold OpenAIProvider.beforePlaceholder.
  apply flagsMatch_closeThinking.
  unfold OpenAIProvider.reportDangling.
  apply fold_left_preserves;
    [|intros; apply flagsMatch_stepDangling; assumption].
  apply flagsMatch_chunkLoop, flagsMatch_initial.
Qed.

(** C8. Let [pre] be what the sink holds when the stream is exhausted and
    the closing steps before the placeholder test are done. For every
    chunk sequence: when [pre] holds no text part and no tool-call part,
    the response is [pre] followed by exactly one text part of a single
    space; when [pre] holds a text part or a tool-call part, the response
    is [pre] and no placeholder is added. *)
Theorem placeholder_iff_nothing_reported (chunks : list ChatCompletionChunk) :
  streamResponse chunks
  = let pre := progress (beforePlaceholder chunks) in
    if (existsb isTextPart pre || existsb isToolCallPart pre)%bool
    then pre
    else pre ++ [LanguageModelTextPart " "].
Proof.
  unfold OpenAIProvider.streamResponse, reportPlaceholder.
  destruct (flagsMatch_beforePlaceholder chunks) as [Ht Hc].
  cbv zeta. rewrite <- Ht, <- Hc.
  destruct (reportedText (beforePlaceholder chunks)),
           (reportedToolCall (beforePlaceholder chunks)); reflexivity.
Qed.

End Flags.

(** ** The tool-call accumulators *)

Section Accumulators.

Import VsCode OpenAI OpenAIProvider Reassembly.

Variable JSON_parse : string -> option Json.

Local Abbreviation stepToolCall := (OpenAIProvider.stepToolCall JSON_parse).
Local Abbreviation stepChoice := (OpenAIProvider.stepChoice JSON_parse).
Local Abbreviation stepChunk := (OpenAIProvider.stepChunk JSON_parse).
Local Abbreviation chunkLoop := (OpenAIProvider.chunkLoop JSON_parse).
Local Abbreviation dangling := (OpenAIProvider.dangling JSON_parse).
Local Abbreviation stepDangling := (OpenAIProvider.stepDangling JSON_parse).
Local Abbreviation reportDangling := (OpenAIProvider.reportDangling JSON_parse).
Local Abbreviation streamResponse := (OpenAIProvider.streamResponse JSON_parse).
Local Abbreviation parseAttempts := (Reassembly.parseAttempts JSON_parse).
Local Abbreviation parsedDuringLoop := (Reassembly.parsedDuringLoop JSON_parse).
Local Abbreviation danglingEntries := (Reassembly.danglingEntries JSON_parse).

Ltac split_step st toolCall :=
  unfold OpenAIProvider.stepToolCall;
  destruct (JsMap.get (nullish (index toolCall) 0%Z) (toolCallAccum st));
  cbv zeta beta iota;
  repeat match goal with
         | |- context [if ?c then JSON_parse ?s else Some emptyObject] =>
             destruct (if c then JSON_parse s else Some emptyObject)
         end;
  simpl.

(** A fragment touches the accumulator of its own index only. *)
Lemma stepToolCall_other (st : StreamState) (toolCall : ToolCallDelta) (i : Z) :
  i <> nullish (index toolCall) 0%Z ->
  JsMap.get i (toolCallAccum (stepToolCall st toolCall))
  = JsMap.get i (toolCallAccum st).
Proof.
  intros Hne. split_step st toolCall; rewrite ?get_set_other by exact Hne; reflexivity.
Qed.

(** The accumulators after a fragment depend on the accumulators before
    it, not on the rest of the state. *)
Lemma stepToolCall_accum_ext (st1 st2 : StreamState) (toolCall : ToolCallDelta) :
  toolCallAccum st1 = toolCallAccum st2 ->
  toolCallAccum (stepToolCall st1 toolCall)
  = toolCallAccum (stepToolCall st2 toolCall).
Proof.
  intros H. unfold OpenAIProvider.stepToolCall. rewrite H.
  destruct (JsMap.get _ (toolCallAccum st2)); cbv zeta beta iota;
    match goal with
    | |- context [if ?c then JSON_parse ?s else Some emptyObject] =>
        destruct (if c then JSON_parse s else Some emptyObject)
    end; reflexivity.
Qed.

Lemma stepToolCall_NoDup (st : StreamState) (toolCall : ToolCallDelta) :
  NoDup (JsMap.keys (toolCallAccum st)) ->
  NoDup (JsMap.keys (toolCallAccum (stepToolCall st toolCall))).
Proof.
  intros H. split_step st toolCall; repeat apply NoDup_keys_set; exact H.
Qed.

Lemma fold_stepToolCall_accum_ext (fragments : list ToolCallDelta)
    (st1 st2 : StreamState) :
  toolCallAccum st1 = toolCallAccum st2 ->
  toolCallAccum (fold_left stepToolCall fragments st1)
  = toolCallAccum (fold_left stepToolCall fragments st2).
Proof.
  revert st1 st2. induction fragments as [|tc rest IH]; intros st1 st2 H; simpl.
  - exact H.
  - apply IH. apply stepToolCall_accum_ext. exact H.
Qed.

Lemma stepChoice_accum (st : StreamState) (choice : Choice) :
  toolCallAccum (stepChoice st choice)
  = toolCallAccum
      (fold_left stepToolCall
         match delta choice with
         | Some d => nullish (tool_calls d) []
         | None => []
         end st).
Proof.
  unfold OpenAIProvider.stepChoice. destruct (delta choice) as [d|]; [|reflexivity].
  assert (Hsame : toolCallAccum (stepContent (stepReasoning st d) d)
                  = toolCallAccum st).
  { unfold stepContent, stepReasoning.
    destruct (content d) as [c|]; [destruct (JsString.truthy (JsString.trim c))|];
      destruct (reasoning d) as [[|? ?]|]; try destruct (thinkingActive st);
      reflexivity. }
  unfold stepToolCalls. destruct (tool_calls d) as [[|tc rest]|]; simpl;
    try exact Hsame.
  apply fold_stepToolCall_accum_ext, stepToolCall_accum_ext. exact Hsame.
Qed.

Lemma stepChunk_accum (st : StreamState) (chunk : ChatCompletionChunk) :
  toolCallAccum (stepChunk st chunk)
  = toolCallAccum (fold_left stepToolCall (toolCallFragments [chunk]) st).
Proof.
  unfold OpenAIProvider.stepChunk, toolCallFragments. simpl. rewrite app_nil_r.
  generalize (nullish (choices chunk) []). intros l. revert st.
  induction l as [|choice l IH]; intros st; simpl; [reflexivity|].
  rewrite fold_left_app, IH.
  apply fold_stepToolCall_accum_ext, stepChoice_accum.
Qed.

Lemma toolCallFragments_cons (chunk : ChatCompletionChunk)
    (chunks : list ChatCompletionChunk) :
  toolCallFragments (chunk :: chunks)
  = toolCallFragments [chunk] ++ toolCallFragments chunks.
Proof. unfold toolCallFragments. simpl. rewrite app_nil_r. reflexivity. Qed.

(** The accumulators of the chunk loop are those of a loop over the
    tool-call fragments alone. *)
Lemma chunkLoop_accum (chunks : list ChatCompletionChunk) (st : StreamState) :
  toolCallAccum (chunkLoop st chunks)
  = toolCallAccum (fold_left stepToolCall (toolCallFragments chunks) st).
Proof.
  revert st. induction chunks as [|chunk chunks IH]; intros st; [reflexivity|].
  rewrite toolCallFragments_cons, fold_left_app.
  change (OpenAIProvider.chunkLoop JSON_parse st (chunk :: chunks))
    with (chunkLoop (stepChunk st chunk) chunks).
  rewrite IH. apply fold_stepToolCall_accum_ext, stepChunk_accum.
Qed.

Lemma chunkLoop_NoDup (chunks : list ChatCompletionChunk) :
  NoDup (JsMap.keys (toolCallAccum (chunkLoop initialState chunks))).
Proof.
  rewrite chunkLoop_accum.
  apply (fold_left_preserves
           (fun st => NoDup (JsMap.keys (toolCallAccum st)))).
  - constructor.
  - intros; apply stepToolCall_NoDup; assumption.
Qed.

(** The argument string an accumulator holds is empty, or it is the one
    the loop tried to parse after the last fragment of its index. *)
Lemma held_strings_were_attempted (fragments : list ToolCallDelta)
    (st : StreamState) (seen : list (Z * string)) :
  (forall i acc, JsMap.get i (toolCallAccum st) = Some acc ->
                 argsStr acc = EmptyString \/ In (i, argsStr acc) seen) ->
  forall i acc,
    JsMap.get i (toolCallAccum (fold_left stepToolCall fragments st)) = Some acc ->
    argsStr acc = EmptyString
    \/ In (i, argsStr acc) (seen ++ parseAttempts st fragments).
Proof.
  revert st seen. induction fragments as [|tc rest IH]; intros st seen Hinv i acc.
  - simpl. rewrite app_nil_r. apply Hinv.
  - simpl. intros Hget.
    specialize (IH (stepToolCall st tc)
                   (seen ++ [(nullish (index tc) 0%Z,
                              match JsMap.get (nullish (index tc) 0%Z)
                                      (toolCallAccum (stepToolCall st tc)) with
                              | Some a => argsStr a
                              | None => EmptyString
                              end)])).
    rewrite <- app_assoc in IH. simpl in IH. apply IH; [|exact Hget].
    intros j a Hj. destruct (Z.eq_dec j (nullish (index tc) 0%Z)) as [->|Hne].
    + right. apply in_or_app. right. rewrite Hj. left. reflexivity.
    + rewrite stepToolCall_other in Hj by exact Hne.
      destruct (Hinv j a Hj) as [E|Hin]; [left; exact E|].
      right. apply in_or_app. left. exact Hin.
Qed.

(** What the loop over the accumulators reports, and what it leaves alone. *)
Lemma fold_stepDangling (l : list ToolCallAccumulator) (st : StreamState) :
  progress (fold_left stepDangling l st)
  = progress st ++ map fallbackEvent (filter dangling l)
  /\ thinkingActive (fold_left stepDangling l st) = thinkingActive st
  /\ toolCallAccum (fold_left stepDangling l st) = toolCallAccum st.
Proof.
  revert st. induction l as [|acc l IH]; intros st; simpl.
  - rewrite app_nil_r. repeat split.
  - destruct (IH (stepDangling st acc)) as (Hp & Ht & Ha).
    rewrite Hp, Ht, Ha.
    unfold OpenAIProvider.stepDangling, OpenAIProvider.dangling.
    destruct (Nat.eqb (String.length (argsStr acc)) 0); [repeat split|].
    destruct (JSON_parse (argsStr acc)); [repeat split|].
    simpl. unfold report. rewrite <- app_assoc. repeat split.
Qed.

Lemma reportDangling_progress (st : StreamState) :
  progress (reportDangling st)
  = progress st ++ map (fun kv => fallbackEvent (snd kv)) (danglingEntries st).
Proof.
  unfold OpenAIProvider.reportDangling.
  destruct (fold_stepDangling (JsMap.values (toolCallAccum st)) st) as (-> & _).
  f_equal. unfold Reassembly.danglingEntries, JsMap.values.
  induction (toolCallAccum st) as [|[k acc] m IH]; simpl; [reflexivity|].
  destruct (dangling acc); simpl; rewrite IH; reflexivity.
Qed.

(** C6. When the stream is exhausted, the loop over the accumulators
    reports one tool call with the empty object as input for every
    accumulator whose argument string is not empty and does not parse, in
    the order of the table, after everything the chunks gave rise to. An
    accumulator whose argument string is not empty and never parsed when
    the chunk loop tried it is among them exactly once: the table has one
    such entry for its index, and the tool call carries its id and name. *)
Theorem unparsed_tool_calls_get_fallback
    (chunks : list ChatCompletionChunk) (i : Z) (acc : ToolCallAccumulator) :
  JsMap.get i (toolCallAccum (chunkLoop initialState chunks)) = Some acc ->
  argsStr acc <> EmptyString ->
  parsedDuringLoop chunks i = false ->
  progress (reportDangling (chunkLoop initialState chunks))
  = progress (chunkLoop initialState chunks)
    ++ map (fun kv => LanguageModelToolCallPart
                        (acc_id (snd kv)) (acc_name (snd kv)) emptyObject)
           (danglingEntries (chunkLoop initialState chunks))
  /\ filter (fun kv => Z.eqb (fst kv) i)
            (danglingEntries (chunkLoop initialState chunks))
     = [(i, acc)]
  /\ exists closing,
       streamResponse chunks
       = progress (reportDangling (chunkLoop initialState chunks)) ++ closing.
Proof.
  intros Hget Hne Hnever.
  split; [apply reportDangling_progress|]. split.
  - unfold Reassembly.danglingEntries. rewrite filter_filter_swap.
    rewrite (filter_key_found i acc _ (chunkLoop_NoDup chunks) Hget).
    simpl. replace (dangling acc) with true; [reflexivity|].
    symmetry. unfold OpenAIProvider.dangling.
    destruct (Nat.eqb_spec (String.length (argsStr acc)) 0) as [E|Hlen].
    { destruct (argsStr acc); [contradiction | discriminate]. }
    assert (Hin : In (i, argsStr acc)
                     (parseAttempts initialState (toolCallFragments chunks))).
    { rewrite chunkLoop_accum in Hget.
      destruct (held_strings_were_attempted (toolCallFragments chunks)
                  initialState [] (fun j a (H : None = Some a) =>
                                     match H with end) i acc Hget)
        as [E|H]; [contradiction | exact H]. }
    unfold Reassembly.parsedDuringLoop in Hnever.
    apply (existsb_false_in _ _ _ Hnever) in Hin.
    simpl in Hin. rewrite Z.eqb_refl in Hin.
    destruct (Nat.ltb_spec 0 (String.length (argsStr acc))) as [_|Hle];
      [|lia].
    destruct (JSON_parse (argsStr acc)); [discriminate | reflexivity].
  - unfold OpenAIProvider.streamResponse, OpenAIProvider.beforePlaceholder.
    unfold reportPlaceholder, closeThinking.
    set (st := reportDangling (chunkLoop initialState chunks)).
    destruct (thinkingActive st), (reportedText st), (reportedToolCall st);
      simpl; unfold report; rewrite <- ?app_assoc;
      eexists; try reflexivity; rewrite app_nil_r; reflexivity.
Qed.

End Accumulators.

Lemma unparsed_tool_calls_get_fallback_witness :
  let acc := {| OpenAIProvider.acc_id := "a"; OpenAIProvider.acc_name := "f";
                OpenAIProvider.argsStr := Scenario.argumentsHead |} in
  let st := OpenAIProvider.chunkLoop JsonModel.parse OpenAIProvider.initialState
              [Scenario.firstToolChunk] in
  JsMap.get 0%Z (OpenAIProvider.toolCallAccum st) = Some acc
  /\ Reassembly.parsedDuringLoop JsonModel.parse [Scenario.firstToolChunk] 0%Z = false
  /\ OpenAIProvider.progress (OpenAIProvider.reportDangling JsonModel.parse st)
     = [VsCode.LanguageModelToolCallPart "a" "f" emptyObject]
  /\ filter (fun kv => Z.eqb (fst kv) 0%Z) (Reassembly.danglingEntries JsonModel.parse st)
     = [(0%Z, acc)].
Proof.
  intros acc st.
  split; [reflexivity|]. split; [reflexivity|].
  destruct (unparsed_tool_calls_get_fallback JsonModel.parse
              [Scenario.firstToolChunk] 0%Z acc eq_refl
              ltac:(discriminate) eq_refl) as (Hreported & Hone & _).
  split; [exact Hreported | exact Hone].
Defined.

(** ** The stream of the SDK revision *)

Section SdkStream.

Import VsCode OpenRouter SdkProvider.

Variable JSON_parse : string -> option Json.
Variable runtimeMessage : Exception -> string.

Local Abbreviation stepChunk := (SdkProvider.stepChunk JSON_parse).
Local Abbreviation streamResponse :=
  (SdkProvider.streamResponse JSON_parse runtimeMessage).




(** In this revision a reasoning fragment is reported as text, after the
    content of the same delta; no thinking part is reported. *)
Lemma sdk_reasoning_is_reported_as_text :
  streamResponse [SdkScenario.reasoningChunk; SdkScenario.textChunk "hello"]
  = Completed [LanguageModelTextPart "reasoning: think";
               LanguageModelTextPart "hello"].
Proof. reflexivity. Qed.

(** In this revision every fragment of the arguments is parsed on its own:
    a call whose arguments arrive in two pieces fails at the first. *)
Lemma sdk_split_arguments_throw :
  JSON_parse Scenario.argumentsHead = None ->
  streamResponse [SdkScenario.firstToolChunk; SdkScenario.secondToolChunk]
  = Failed (runtimeMessage (SyntaxError Scenario.argumentsHead)) [].
Proof.
  intros H. unfold SdkProvider.streamResponse. cbn.
  unfold SdkProvider.stepToolCall. cbn.
  rewrite H. reflexivity.
Qed.

End SdkStream.


(** The loop of the OpenAI-compatible revision reads the choices of a
    chunk and nothing else: a chunk that carries an error object and no
    choices passes without effect, and the chunk after it is processed. *)
Lemma openai_loop_passes_over_an_error_chunk (JSON_parse : string -> option Json) :
  OpenAIProvider.streamResponse JSON_parse
    [ {| OpenAI.choices := None |}; Scenario.contentChunk ]
  = [VsCode.LanguageModelTextPart "hello"].
Proof. reflexivity. Qed.


(** ** The adapter's own accumulation *)

Section AdapterStream.

Import VsCode OpenRouter OpenRouterAdapter.

Variable JSON_parse : string -> option Json.

(** [processStreamChunk] on the two tool chunks, then [reportToolCalls]:
    nothing is reported while the chunks are taken in, one tool call after. *)
Lemma adapter_reports_after_both_chunks :
  JSON_parse Scenario.argumentsWhole = Some Scenario.inputX1 ->
  let '(_, (sink1, map1)) :=
    processStreamChunk SdkScenario.firstToolChunk [] JsMap.empty in
  let '(_, (sink2, map2)) :=
    processStreamChunk SdkScenario.secondToolChunk sink1 map1 in
  sink1 = [] /\ sink2 = []
  /\ reportToolCalls JSON_parse map2 sink2
     = [LanguageModelToolCallPart "a" "f" Scenario.inputX1].
Proof.
  intros H. cbn. unfold reportToolCalls. cbn.
  change (JSON_parse _) with (JSON_parse Scenario.argumentsWhole).
  rewrite H. repeat split.
Qed.

(** [reportToolCalls] hands arguments that do not parse on under the key
    "raw", and skips an entry that lacks its id or its name. *)
Lemma adapter_reports_unparsed_arguments_raw :
  JSON_parse Scenario.argumentsHead = None ->
  reportToolCalls JSON_parse
    [(1%Z, {| entry_id := None; entry_name := Some "g"; args := "{}" |});
     (0%Z, {| entry_id := Some "a"; entry_name := Some "f";
              args := Scenario.argumentsHead |})]
    []
  = [LanguageModelToolCallPart "a" "f"
       (JObject [("raw", JString Scenario.argumentsHead)])].
Proof.
  intros H. unfold reportToolCalls. cbn.
  change (JSON_parse _) with (JSON_parse Scenario.argumentsHead).
  rewrite H. reflexivity.
Qed.

End AdapterStream.

(* ================================================================== *)
(** * Further properties *)

(** ** The adapter: descriptors and messages *)

Section AdapterMore.

Import VsCode OpenRouter OpenRouterAdapter HostParts WireView.

Variable Number : Type.
Variable toFixed : Number -> nat -> string.
Variable JSON_stringify : Json -> string.
Variable btoa : string -> string.
Variable MODEL_ID_PREFIX : string.

Local Abbreviation translate := (vscodeMessagesToOpenRouter JSON_stringify btoa).
Local Abbreviation push := (pushElement JSON_stringify btoa).

(** X1. The id of a descriptor made by [convertModelInformation] goes
    back to the native id of the model through [getOpenRouterModelId],
    whatever the native id is, also when it begins with the prefix itself. *)
Theorem descriptor_id_round_trip (model : Model Number) :
  getOpenRouterModelId MODEL_ID_PREFIX
    (VsCode.id (convertModelInformation Number toFixed MODEL_ID_PREFIX model))
  = model_id model.
Proof.
  unfold getOpenRouterModelId, convertModelInformation. simpl.
  rewrite startsWith_append, slice_append. reflexivity.
Qed.

(** X2. The translation of a message list is the translation of its
    messages one after the other: it distributes over concatenation, so a
    message is translated the same way wherever it stands and the order of
    the messages is kept. *)
Theorem translation_distributes (before after : list LanguageModelChatRequestMessage) :
  translate (before ++ after) = translate before ++ translate after.
Proof.
  rewrite !vscodeMessagesToOpenRouter_flat_map. apply flat_map_app.
Qed.

Lemma push_length (msg : LanguageModelChatRequestMessage) (element : Part) :
  List.length (push msg [] element) = if translatable element then 1 else 0.
Proof.
  destruct element; simpl; try reflexivity.
  - rewrite convertRole_not_tool. reflexivity.
  - destruct (JsString.startsWith mimeType "image/"); reflexivity.
Qed.

Lemma translate_length (messages : list LanguageModelChatRequestMessage) :
  List.length (translate messages)
  = List.length (filter translatable (partsOf messages)).
Proof.
  rewrite vscodeMessagesToOpenRouter_flat_map. unfold partsOf.
  induction messages as [|msg messages IH]; simpl; [reflexivity|].
  rewrite filter_app, !length_app, IH. f_equal.
  induction (VsCode.content msg) as [|element parts IHp]; simpl; [reflexivity|].
  rewrite length_app, IHp, push_length.
  destruct (translatable element); reflexivity.
Qed.

Lemma translate_empty (messages : list LanguageModelChatRequestMessage) :
  translate messages = []
  <-> existsb translatable (partsOf messages) = false.
Proof.
  pose proof (translate_length messages) as Hlen.
  split.
  - intros H. rewrite H in Hlen. simpl in Hlen.
    destruct (existsb translatable (partsOf messages)) eqn:E; [|reflexivity].
    apply existsb_exists in E. destruct E as (p & Hin & Hp).
    assert (Hf : In p (filter translatable (partsOf messages)))
      by (apply filter_In; split; assumption).
    destruct (filter translatable (partsOf messages)); [destruct Hf | discriminate].
  - intros H.
    destruct (filter translatable (partsOf messages)) as [|p l] eqn:F.
    + destruct (translate messages); [reflexivity | discriminate].
    + assert (Hin : In p (filter translatable (partsOf messages)))
        by (rewrite F; left; reflexivity).
      apply filter_In in Hin. destruct Hin as [Hin Hp].
      rewrite (existsb_false_in _ _ _ H Hin) in Hp. discriminate.
Qed.

(** X3. The translation has exactly one provider message for every text,
    tool-result and tool-call part and for every data part whose MIME type
    begins with "image/"; every other part (other binary data, parts of an
    unknown kind) is dropped without a trace. In particular it is empty
    exactly when no part of that kind is present. *)
Theorem translation_counts_translatable_parts
    (messages : list LanguageModelChatRequestMessage) :
  List.length (translate messages)
  = List.length (filter translatable (partsOf messages))
  /\ (translate messages = []
      <-> existsb translatable (partsOf messages) = false).
Proof.
  split; [apply translate_length | apply translate_empty].
Qed.


(** X4. Every tool-call part of the host becomes one assistant message
    with null content and a one-element tool-calls array (the call id, the
    type "function", the name, the JSON-stringified input); the messages
    of the result that carry tool calls are exactly these, in order. *)
Theorem tool_calls_become_assistant_messages
    (messages : list LanguageModelChatRequestMessage) :
  filter (fun m => match toolCalls m with Some _ => true | None => false end)
         (translate messages)
  = map (fun call =>
           {| role := assistant; content := ContentNull; toolCallId := None;
              toolCalls :=
                Some [ {| tc_id := fst (fst call); tc_type := "function";
                          tc_name := snd (fst call);
                          tc_arguments := JSON_stringify (snd call) |} ] |})
        (toolCallsOf messages).
Proof.
  rewrite vscodeMessagesToOpenRouter_flat_map.
  unfold toolCallsOf, partsOf.
  rewrite filter_flat_map.
  induction messages as [|msg messages IH]; simpl; [reflexivity|].
  rewrite IH, flat_map_app, map_app. f_equal.
  rewrite filter_flat_map, map_of_flat_map.
  apply flat_map_pointwise. intros element.
  destruct element; simpl; try reflexivity.
  - rewrite convertRole_not_tool. reflexivity.
  - destruct (JsString.startsWith mimeType "image/"); reflexivity.
Qed.

End AdapterMore.

(** ** The adapter: accumulating and reporting tool calls *)

Lemma string_app_nil_r (s : string) : (s ++ EmptyString)%string = s.
Proof. induction s as [|c s IH]; simpl; [reflexivity | rewrite IH; reflexivity]. Qed.

Lemma string_app_assoc (a b c : string) :
  ((a ++ b) ++ c)%string = (a ++ (b ++ c))%string.
Proof. induction a as [|x a IH]; simpl; [reflexivity | rewrite IH; reflexivity]. Qed.

Lemma insertNumber_perm (x : Z) (l : list Z) :
  Permutation (OpenRouterAdapter.insertNumber x l) (x :: l).
Proof.
  induction l as [|y l IH]; simpl; [apply Permutation_refl|].
  destruct (Z.leb x y); [apply Permutation_refl|].
  apply perm_trans with (y :: x :: l); [apply perm_skip, IH | apply perm_swap].
Qed.

Lemma sortNumbers_perm (l : list Z) :
  Permutation (OpenRouterAdapter.sortNumbers l) l.
Proof.
  unfold OpenRouterAdapter.sortNumbers.
  induction l as [|x l IH]; simpl; [apply perm_nil|].
  apply perm_trans with (x :: fold_right OpenRouterAdapter.insertNumber [] l);
    [apply insertNumber_perm | apply perm_skip, IH].
Qed.

Lemma insertNumber_sorted (x : Z) (l : list Z) :
  Sorted Z.le l -> Sorted Z.le (OpenRouterAdapter.insertNumber x l).
Proof.
  induction l as [|y l IH]; simpl; intros H.
  - repeat constructor.
  - destruct (Z.leb_spec x y) as [Hle|Hgt].
    + constructor; [exact H | constructor; exact Hle].
    + inversion H as [|? ? Hs Hhd]; subst.
      constructor; [apply IH; exact Hs|].
      destruct l as [|z l]; simpl.
      * constructor. lia.
      * destruct (Z.leb x z); constructor; [lia|].
        inversion Hhd; assumption.
Qed.

Lemma sortNumbers_sorted (l : list Z) :
  Sorted Z.le (OpenRouterAdapter.sortNumbers l).
Proof.
  unfold OpenRouterAdapter.sortNumbers.
  induction l as [|x l IH]; simpl; [constructor|].
  apply insertNumber_sorted, IH.
Qed.

Section AdapterToolCalls.

Import VsCode OpenRouter OpenRouterAdapter AdapterView.

Variable JSON_parse : string -> option Json.

Lemma accumulateToolCall_held (m : JsMap.t ToolCallEntry) (tc : StreamToolCall)
    (i : Z) :
  heldArguments i (accumulateToolCall m tc)
  = (heldArguments i m
     ++ (if Z.eqb (index tc) i
         then nullish (chain (call_function tc) fn_arguments) EmptyString
         else EmptyString))%string.
Proof.
  unfold heldArguments, accumulateToolCall.
  destruct (Z.eqb_spec (index tc) i) as [<-|Hne].
  - rewrite get_set_same.
    destruct (JsMap.get (index tc) m) as [cur|]; simpl;
      destruct (call_id tc); destruct (chain (call_function tc) fn_name);
      destruct (chain (call_function tc) fn_arguments); simpl;
      rewrite ?string_app_nil_r; reflexivity.
  - rewrite get_set_other by (intros E; apply Hne; symmetry; exact E).
    rewrite string_app_nil_r. reflexivity.
Qed.

Lemma fold_accumulateToolCall_held (toolCalls : list StreamToolCall)
    (m : JsMap.t ToolCallEntry) (i : Z) :
  heldArguments i (fold_left accumulateToolCall toolCalls m)
  = (heldArguments i m ++ argumentsFor i toolCalls)%string.
Proof.
  revert m. induction toolCalls as [|tc rest IH]; intros m; simpl.
  - rewrite string_app_nil_r. reflexivity.
  - rewrite IH, accumulateToolCall_held, string_app_assoc. reflexivity.
Qed.

(** X5. On a chunk without error whose first choice has a delta,
    [processStreamChunk] returns no error, reports the content of the
    delta as one text part when it is not empty and nothing else, and
    appends to the argument string of every index the argument fragments
    the delta carries for it, in order: fragments are only ever added at
    the end, and an index the delta does not mention keeps its string. *)
Theorem processStreamChunk_accumulates
    (chunk : ChatStreamingResponseChunkData) (d : Delta)
    (sink : Progress) (m : JsMap.t ToolCallEntry) :
  error chunk = None ->
  chain (chain (choices chunk) (fun cs => nth_error cs 0)) delta = Some d ->
  exists m',
    processStreamChunk chunk sink m
    = (None,
       (sink ++ (if truthyString (delta_content d)
                 then [LanguageModelTextPart (nullish (delta_content d) EmptyString)]
                 else []),
        m'))
    /\ forall i,
         heldArguments i m'
         = (heldArguments i m
            ++ argumentsFor i (nullish (delta_toolCalls d) []))%string.
Proof.
  intros Herr Hdelta. unfold processStreamChunk. rewrite Herr, Hdelta.
  eexists. split.
  - f_equal. f_equal.
    destruct (delta_content d) as [c|]; simpl;
      [destruct (JsString.truthy c); [reflexivity|] |];
      rewrite app_nil_r; reflexivity.
  - intros i. destruct (delta_toolCalls d) as [[|tc rest]|]; simpl;
      rewrite ?string_app_nil_r; try reflexivity.
    rewrite fold_accumulateToolCall_held, accumulateToolCall_held,
      string_app_assoc. reflexivity.
Qed.

Lemma reportToolCalls_step (m : JsMap.t ToolCallEntry) (sink : Progress) (idx : Z) :
  match JsMap.get idx m with
  | Some cur =>
      match entry_id cur, entry_name cur with
      | Some i, Some n =>
          let text := if JsString.truthy (args cur) then args cur else "{}" in
          let input :=
            match JSON_parse text with
            | Some v => v
            | None => JObject [("raw", JString (args cur))]
            end in
          report (LanguageModelToolCallPart i n input) sink
      | _, _ => sink
      end
  | None => sink
  end
  = sink ++ partFor JSON_parse m idx.
Proof.
  unfold partFor. destruct (JsMap.get idx m) as [cur|];
    [|rewrite app_nil_r; reflexivity].
  destruct (entry_id cur), (entry_name cur); simpl;
    rewrite ?app_nil_r; reflexivity.
Qed.

(** X6. [reportToolCalls] keeps what the sink holds and appends the tool
    calls in ascending order of their index, whatever the order in which
    the indices entered the map: it visits every key once, in sorted
    order, and reports a key's entry when it has both an id and a name
    (with the parsed arguments, "{}" standing for an empty string, or the
    raw text under "raw" when the arguments do not parse). *)
Theorem reportToolCalls_ascending (m : JsMap.t ToolCallEntry) (sink : Progress) :
  reportToolCalls JSON_parse m sink
  = sink ++ flat_map (partFor JSON_parse m) (sortNumbers (JsMap.keys m))
  /\ Sorted Z.le (sortNumbers (JsMap.keys m))
  /\ Permutation (sortNumbers (JsMap.keys m)) (JsMap.keys m).
Proof.
  split; [|split; [apply sortNumbers_sorted | apply sortNumbers_perm]].
  unfold reportToolCalls.
  apply fold_left_pushes. intros o idx. apply reportToolCalls_step.
Qed.

End AdapterToolCalls.

Lemma processStreamChunk_accumulates_witness :
  let m := [(0%Z, {| OpenRouterAdapter.entry_id := Some "a";
                     OpenRouterAdapter.entry_name := Some "f";
                     OpenRouterAdapter.args := Scenario.argumentsHead |})] in
  exists m',
    OpenRouterAdapter.processStreamChunk SdkScenario.secondToolChunk [] m
    = (None, ([], m'))
    /\ AdapterView.heldArguments 0%Z m' = Scenario.argumentsWhole.
Proof.
  intros m.
  destruct (processStreamChunk_accumulates SdkScenario.secondToolChunk
              {| OpenRouter.delta_content := None;
                 OpenRouter.delta_toolCalls :=
                   Some [ {| OpenRouter.index := 0%Z; OpenRouter.call_id := None;
                             OpenRouter.call_function :=
                               Some {| OpenRouter.fn_name := None;
                                       OpenRouter.fn_arguments :=
                                         Some Scenario.argumentsTail |} |} ];
                 OpenRouter.delta_reasoning := None |}
              [] m eq_refl eq_refl) as (m' & Hrun & Hheld).
  exists m'. split; [exact Hrun | exact (Hheld 0%Z)].
Defined.

(** ** The reassembler: what the sink receives *)

Lemma flat_map_nested {A B C : Type} (f : B -> list C) (g : A -> list B)
    (l : list A) :
  flat_map f (flat_map g l) = flat_map (fun x => flat_map f (g x)) l.
Proof.
  induction l as [|x l IH]; simpl; [reflexivity|].
  rewrite flat_map_app, IH. reflexivity.
Qed.

Lemma flat_map_nothing {A B : Type} (l : list A) :
  flat_map (fun _ : A => @nil B) l = [].
Proof. induction l as [|x l IH]; simpl; [reflexivity | exact IH]. Qed.

(** A loop whose steps each add to a list read off the state adds the
    contributions of its items in order. *)
Lemma fold_left_collects {S X B : Type} (f : S -> X -> S) (g : S -> list B)
    (h : X -> list B) (l : list X) (st : S) :
  (forall st x, g (f st x) = g st ++ h x) ->
  g (fold_left f l st) = g st ++ flat_map h l.
Proof.
  intros H. revert st. induction l as [|x l IH]; intros st; simpl.
  - rewrite app_nil_r. reflexivity.
  - rewrite IH, H, <- app_assoc. reflexivity.
Qed.

Section StreamMore.

Import VsCode OpenAI OpenAIProvider Reassembly StreamView.

Variable JSON_parse : string -> option Json.

Local Abbreviation stepToolCall := (OpenAIProvider.stepToolCall JSON_parse).
Local Abbreviation stepChoice := (OpenAIProvider.stepChoice JSON_parse).
Local Abbreviation stepChunk := (OpenAIProvider.stepChunk JSON_parse).
Local Abbreviation chunkLoop := (OpenAIProvider.chunkLoop JSON_parse).
Local Abbreviation dangling := (OpenAIProvider.dangling JSON_parse).
Local Abbreviation stepDangling := (OpenAIProvider.stepDangling JSON_parse).
Local Abbreviation reportDangling := (OpenAIProvider.reportDangling JSON_parse).
Local Abbreviation beforePlaceholder := (OpenAIProvider.beforePlaceholder JSON_parse).
Local Abbreviation streamResponse := (OpenAIProvider.streamResponse JSON_parse).

Ltac step_cases st toolCall :=
  unfold OpenAIProvider.stepToolCall;
  destruct (JsMap.get (nullish (index toolCall) 0%Z) (toolCallAccum st));
  cbv zeta beta iota;
  match goal with
  | |- context [if ?c then JSON_parse ?s else Some emptyObject] =>
      destruct (if c then JSON_parse s else Some emptyObject)
  end;
  simpl.

(** *** Text parts *)

Lemma stepToolCall_texts (st : StreamState) (toolCall : ToolCallDelta) :
  filter isTextPart (progress (stepToolCall st toolCall))
  = filter isTextPart (progress st).
Proof.
  step_cases st toolCall; unfold report; rewrite ?filter_app; simpl;
    rewrite ?app_nil_r; reflexivity.
Qed.

Lemma stepChoice_texts (st : StreamState) (choice : Choice) :
  filter isTextPart (progress (stepChoice st choice))
  = filter isTextPart (progress st)
    ++ flat_map textOf match delta choice with Some d => [d] | None => [] end.
Proof.
  unfold OpenAIProvider.stepChoice. destruct (delta choice) as [d|]; simpl;
    [|rewrite app_nil_r; reflexivity].
  rewrite app_nil_r.
  assert (Hrc : filter isTextPart (progress (stepContent (stepReasoning st d) d))
                = filter isTextPart (progress st) ++ textOf d).
  { unfold stepContent, stepReasoning, textOf.
    destruct (content d) as [c|];
      [destruct (JsString.truthy (JsString.trim c))|];
      destruct (reasoning d) as [[|? ?]|]; try destruct (thinkingActive st);
      simpl; unfold report; rewrite ?filter_app; simpl;
      rewrite ?app_nil_r; reflexivity. }
  unfold stepToolCalls. destruct (tool_calls d) as [[|tc rest]|];
    try exact Hrc.
  rewrite <- Hrc.
  rewrite (fold_left_collects _ (fun s => filter isTextPart (progress s))
             (fun _ => [])).
  - rewrite flat_map_nothing, app_nil_r. reflexivity.
  - intros s x. rewrite app_nil_r. apply stepToolCall_texts.
Qed.

(** X7. The text parts the chunk loop reports are exactly the text
    fragments of the deltas that are not blank, each verbatim (leading and
    trailing white space included) and in the order of arrival; reasoning
    and tool-call fragments never produce a text part. *)
Theorem text_parts_are_the_fragments (chunks : list ChatCompletionChunk) :
  filter isTextPart (progress (chunkLoop initialState chunks))
  = map LanguageModelTextPart (textContents chunks).
Proof.
  unfold OpenAIProvider.chunkLoop.
  rewrite (fold_left_collects _ (fun s => filter isTextPart (progress s))
             (fun chunk =>
                flat_map (fun choice =>
                            flat_map textOf
                              match delta choice with Some d => [d] | None => [] end)
                         (nullish (choices chunk) []))).
  - simpl. unfold textContents, deltasOf.
    rewrite map_of_flat_map, flat_map_nested.
    apply flat_map_pointwise. intros chunk.
    rewrite flat_map_nested. apply flat_map_pointwise. intros choice.
    destruct (delta choice) as [d|]; simpl; [|reflexivity].
    rewrite !app_nil_r. unfold textOf.
    destruct (content d) as [c|]; [|reflexivity].
    destruct (JsString.truthy (JsString.trim c)); reflexivity.
  - intros st chunk. unfold OpenAIProvider.stepChunk.
    apply (fold_left_collects _ (fun s => filter isTextPart (progress s))).
    intros s choice. apply stepChoice_texts.
Qed.

End StreamMore.

Section StreamShape.

Import VsCode OpenAI OpenAIProvider Reassembly StreamView.

Variable JSON_parse : string -> option Json.

Local Abbreviation stepToolCall := (OpenAIProvider.stepToolCall JSON_parse).
Local Abbreviation stepChoice := (OpenAIProvider.stepChoice JSON_parse).
Local Abbreviation stepChunk := (OpenAIProvider.stepChunk JSON_parse).
Local Abbreviation chunkLoop := (OpenAIProvider.chunkLoop JSON_parse).
Local Abbreviation dangling := (OpenAIProvider.dangling JSON_parse).
Local Abbreviation stepDangling := (OpenAIProvider.stepDangling JSON_parse).
Local Abbreviation reportDangling := (OpenAIProvider.reportDangling JSON_parse).
Local Abbreviation beforePlaceholder := (OpenAIProvider.beforePlaceholder JSON_parse).
Local Abbreviation streamResponse := (OpenAIProvider.streamResponse JSON_parse).

Ltac step_cases st toolCall :=
  unfold OpenAIProvider.stepToolCall;
  destruct (JsMap.get (nullish (index toolCall) 0%Z) (toolCallAccum st));
  cbv zeta beta iota;
  match goal with
  | |- context [if ?c then JSON_parse ?s else Some emptyObject] =>
      destruct (if c then JSON_parse s else Some emptyObject)
  end;
  simpl.

(** *** Thinking segments *)

Lemma scanThinking_app (open : bool) (l l' : list Part) :
  scanThinking open (l ++ l')
  = match scanThinking open l with
    | Some open' => scanThinking open' l'
    | None => None
    end.
Proof.
  revert open. induction l as [|p l IH]; intros open; simpl; [reflexivity|].
  destruct p; try apply IH.
  destruct value; [destruct open; [apply IH | reflexivity] | apply IH].
Qed.

Lemma thinkingMatches_stepToolCall (st : StreamState) (toolCall : ToolCallDelta) :
  thinkingMatches st -> thinkingMatches (stepToolCall st toolCall).
Proof.
  unfold thinkingMatches. intros H.
  step_cases st toolCall; try exact H;
    unfold report; rewrite scanThinking_app, H; reflexivity.
Qed.

Lemma thinkingMatches_stepReasoning (st : StreamState) (d : Delta) :
  thinkingMatches st -> thinkingMatches (stepReasoning st d).
Proof.
  unfold thinkingMatches, stepReasoning. intros H.
  destruct (reasoning d) as [[|c r]|]; simpl.
  - destruct (thinkingActive st) eqn:E; [|rewrite H, E; reflexivity].
    simpl. unfold report. rewrite scanThinking_app, H. reflexivity.
  - unfold report. rewrite scanThinking_app, H. reflexivity.
  - destruct (thinkingActive st) eqn:E; [|rewrite H, E; reflexivity].
    simpl. unfold report. rewrite scanThinking_app, H. reflexivity.
Qed.

Lemma thinkingMatches_stepContent (st : StreamState) (d : Delta) :
  thinkingMatches st -> thinkingMatches (stepContent st d).
Proof.
  unfold thinkingMatches, stepContent. intros H.
  destruct (content d) as [c|]; [|exact H].
  destruct (JsString.truthy (JsString.trim c)); [|exact H].
  simpl. unfold report. rewrite scanThinking_app, H. reflexivity.
Qed.

Lemma thinkingMatches_chunkLoop (st : StreamState) (chunks : list ChatCompletionChunk) :
  thinkingMatches st -> thinkingMatches (chunkLoop st chunks).
Proof.
  intros H. unfold OpenAIProvider.chunkLoop.
  apply fold_left_preserves; [exact H|].
  intros a chunk Ha. unfold OpenAIProvider.stepChunk.
  apply fold_left_preserves; [exact Ha|].
  intros s choice Hs. unfold OpenAIProvider.stepChoice.
  destruct (delta choice) as [d|]; [|exact Hs].
  unfold stepToolCalls. destruct (tool_calls d) as [[|tc rest]|];
    try (apply thinkingMatches_stepContent, thinkingMatches_stepReasoning; exact Hs).
  apply fold_left_preserves;
    [|intros; apply thinkingMatches_stepToolCall; assumption].
  apply thinkingMatches_stepContent, thinkingMatches_stepReasoning. exact Hs.
Qed.

Lemma thinkingMatches_stepDangling (st : StreamState) (acc : ToolCallAccumulator) :
  thinkingMatches st -> thinkingMatches (stepDangling st acc).
Proof.
  unfold thinkingMatches, OpenAIProvider.stepDangling. intros H.
  destruct (Nat.eqb _ 0); [exact H|].
  destruct (JSON_parse (argsStr acc)); [exact H|].
  simpl. unfold report. rewrite scanThinking_app, H. reflexivity.
Qed.

(** X8. In every response the thinking parts are well bracketed: a
    closing part (empty fragment, done flag) only follows an open thinking
    segment, and when the call returns no segment is left open, whether
    the provider stopped sending reasoning before the end or not. *)
Theorem thinking_segments_are_closed (chunks : list ChatCompletionChunk) :
  scanThinking false (streamResponse chunks) = Some false.
Proof.
  assert (H : thinkingMatches (reportDangling (chunkLoop initialState chunks))).
  { unfold OpenAIProvider.reportDangling.
    apply fold_left_preserves;
      [|intros; apply thinkingMatches_stepDangling; assumption].
    apply thinkingMatches_chunkLoop. reflexivity. }
  unfold OpenAIProvider.streamResponse, OpenAIProvider.beforePlaceholder.
  set (st := reportDangling (chunkLoop initialState chunks)) in *.
  unfold thinkingMatches in H.
  unfold reportPlaceholder, closeThinking.
  destruct (thinkingActive st) eqn:E; simpl;
    destruct (negb (reportedText st) && negb (reportedToolCall st))%bool; simpl;
    unfold report; rewrite ?scanThinking_app, H; reflexivity.
Qed.

(** *** The end of the stream *)

Lemma fold_stepDangling_flags (l : list ToolCallAccumulator) (st : StreamState) :
  reportedText (fold_left stepDangling l st) = reportedText st
  /\ reportedToolCall (fold_left stepDangling l st)
     = (reportedToolCall st || existsb dangling l)%bool.
Proof.
  revert st. induction l as [|acc l IH]; intros st; simpl.
  - rewrite orb_false_r. split; reflexivity.
  - destruct (IH (stepDangling st acc)) as (Ht & Hc). rewrite Ht, Hc.
    unfold OpenAIProvider.stepDangling, OpenAIProvider.dangling.
    destruct (Nat.eqb (String.length (argsStr acc)) 0); [split; reflexivity|].
    destruct (JSON_parse (argsStr acc)); [split; reflexivity|].
    simpl. rewrite orb_true_r. split; reflexivity.
Qed.

Lemma danglingEntries_values (st : StreamState) :
  map snd (danglingEntries JSON_parse st)
  = filter dangling (JsMap.values (toolCallAccum st)).
Proof.
  unfold Reassembly.danglingEntries, JsMap.values.
  induction (toolCallAccum st) as [|[k acc] m IH]; simpl; [reflexivity|].
  destruct (dangling acc); simpl; rewrite IH; reflexivity.
Qed.

(** X9. The response is, in this order: the parts the chunks gave rise
    to; one tool call with the empty object as input for every accumulator
    whose argument string is not empty and does not parse, in the order
    the indices first arrived; the closing thinking part when a segment is
    still open; the single-space text part when no text part and no tool
    call, fallback included, was reported. *)
Theorem response_ends_in_fixed_order (chunks : list ChatCompletionChunk) :
  let st := chunkLoop initialState chunks in
  let fallbacks := map fallbackEvent (filter dangling (JsMap.values (toolCallAccum st))) in
  streamResponse chunks
  = progress st
    ++ fallbacks
    ++ (if thinkingActive st then [thinkingDone] else [])
    ++ (if (reportedText st || reportedToolCall st
            || existsb dangling (JsMap.values (toolCallAccum st)))%bool
        then [] else [LanguageModelTextPart " "]).
Proof.
  intros st fallbacks.
  unfold OpenAIProvider.streamResponse, OpenAIProvider.beforePlaceholder,
    OpenAIProvider.reportDangling.
  fold st.
  destruct (fold_stepDangling JSON_parse (JsMap.values (toolCallAccum st)) st)
    as (Hp & Ha & _).
  destruct (fold_stepDangling_flags (JsMap.values (toolCallAccum st)) st)
    as (Ht & Hc).
  set (st' := fold_left stepDangling (JsMap.values (toolCallAccum st)) st) in *.
  unfold reportPlaceholder, closeThinking. rewrite Ha.
  destruct (thinkingActive st); simpl; rewrite Ht, Hc;
    destruct (reportedText st), (reportedToolCall st),
      (existsb dangling (JsMap.values (toolCallAccum st)));
    simpl; unfold report; rewrite Hp; fold fallbacks;
    rewrite <- ?app_assoc, ?app_nil_r; reflexivity.
Qed.

(** X10. Every response that runs to the end of its stream holds at
    least one text part or tool-call part, whatever the chunks were: an
    empty response is never handed to the host. *)
Theorem response_is_never_empty (chunks : list ChatCompletionChunk) :
  existsb (fun p => (isTextPart p || isToolCallPart p)%bool)
          (streamResponse chunks) = true.
Proof.
  unfold OpenAIProvider.streamResponse, reportPlaceholder.
  destruct (flagsMatch_beforePlaceholder JSON_parse chunks) as [Ht Hc].
  destruct (reportedText (beforePlaceholder chunks)) eqn:Et; simpl.
  - symmetry in Ht. apply existsb_exists in Ht. destruct Ht as (p & Hin & Hp).
    apply existsb_exists. exists p. split; [exact Hin|]. rewrite Hp. reflexivity.
  - destruct (reportedToolCall (beforePlaceholder chunks)) eqn:Ec; simpl.
    + symmetry in Hc. apply existsb_exists in Hc. destruct Hc as (p & Hin & Hp).
      apply existsb_exists. exists p. split; [exact Hin|].
      rewrite Hp. apply orb_true_r.
    + unfold report. rewrite existsb_app. simpl. apply orb_true_r.
Qed.

(** X11. When no delta of the stream carries a reasoning fragment, a text
    fragment that is not blank or a tool-call fragment (the empty stream,
    chunks without choices, white space only), the response is exactly
    one text part holding a single space. *)
Theorem quiet_stream_gives_the_placeholder (chunks : list ChatCompletionChunk) :
  forallb quiet (deltasOf chunks) = true ->
  streamResponse chunks = [LanguageModelTextPart " "].
Proof.
  intros Hq.
  assert (Hloop : chunkLoop initialState chunks = initialState).
  { unfold OpenAIProvider.chunkLoop. unfold deltasOf in Hq.
    induction chunks as [|chunk chunks IH]; [reflexivity|].
    simpl in Hq. rewrite forallb_app in Hq. apply andb_prop in Hq.
    destruct Hq as [Hchunk Hrest]. simpl.
    replace (stepChunk initialState chunk) with initialState;
      [apply IH; exact Hrest|].
    unfold OpenAIProvider.stepChunk.
    induction (nullish (choices chunk) []) as [|choice l IHl]; [reflexivity|].
    simpl in Hchunk. rewrite forallb_app in Hchunk. apply andb_prop in Hchunk.
    destruct Hchunk as [Hc Hl]. simpl.
    replace (stepChoice initialState choice) with initialState;
      [apply IHl; exact Hl|].
    unfold OpenAIProvider.stepChoice. destruct (delta choice) as [d|];
      [|reflexivity].
    simpl in Hc. rewrite andb_true_r in Hc. unfold quiet in Hc.
    apply andb_prop in Hc. destruct Hc as [Hc Htc].
    apply andb_prop in Hc. destruct Hc as [Hr Hco].
    unfold stepToolCalls, stepContent, stepReasoning.
    destruct (reasoning d) as [[|? ?]|]; try discriminate Hr;
      destruct (content d) as [c|]; simpl in *;
      try (destruct (JsString.truthy (JsString.trim c)); [discriminate Hco|]);
      destruct (tool_calls d) as [[|? ?]|]; try discriminate Htc; reflexivity. }
  unfold OpenAIProvider.streamResponse, OpenAIProvider.beforePlaceholder.
  rewrite Hloop. reflexivity.
Qed.

End StreamShape.

Lemma quiet_stream_gives_the_placeholder_witness :
  let blank : OpenAI.ChatCompletionChunk :=
    Scenario.deltaChunk
      {| OpenAI.reasoning := None; OpenAI.content := Some "  ";
         OpenAI.tool_calls := Some [] |} in
  let noChoices : OpenAI.ChatCompletionChunk := {| OpenAI.choices := None |} in
  OpenAIProvider.streamResponse JsonModel.parse [blank; noChoices]
  = [VsCode.LanguageModelTextPart " "].
Proof.
  intros blank noChoices.
  apply (quiet_stream_gives_the_placeholder JsonModel.parse [blank; noChoices]).
  reflexivity.
Defined.

(** ** The reassembler: the accumulated arguments *)

Section HeldArguments.

Import VsCode OpenAI OpenAIProvider Reassembly StreamView.

Variable JSON_parse : string -> option Json.

Local Abbreviation stepToolCall := (OpenAIProvider.stepToolCall JSON_parse).
Local Abbreviation chunkLoop := (OpenAIProvider.chunkLoop JSON_parse).

Lemma stepToolCall_held (st : StreamState) (toolCall : ToolCallDelta) (i : Z) :
  heldArguments i (stepToolCall st toolCall)
  = (heldArguments i st
     ++ (if Z.eqb (nullish (index toolCall) 0%Z) i
         then nullish (chain (tc_function toolCall) fn_arguments) EmptyString
         else EmptyString))%string.
Proof.
  unfold heldArguments.
  destruct (Z.eqb_spec (nullish (index toolCall) 0%Z) i) as [<-|Hne].
  - unfold OpenAIProvider.stepToolCall.
    destruct (JsMap.get (nullish (index toolCall) 0%Z) (toolCallAccum st))
      as [acc|]; cbv zeta beta iota;
      match goal with
      | |- context [if ?c then JSON_parse ?s else Some emptyObject] =>
          destruct (if c then JSON_parse s else Some emptyObject)
      end; simpl; rewrite get_set_same;
      destruct (tc_id toolCall) as [[|? ?]|];
      destruct (chain (tc_function toolCall) fn_name) as [[|? ?]|];
      destruct (chain (tc_function toolCall) fn_arguments); simpl;
      rewrite ?string_app_nil_r; reflexivity.
  - rewrite stepToolCall_other by (intros E; apply Hne; symmetry; exact E).
    rewrite string_app_nil_r. reflexivity.
Qed.

Lemma stepToolCall_present (st : StreamState) (toolCall : ToolCallDelta) (i : Z) :
  JsMap.get i (toolCallAccum (stepToolCall st toolCall)) = None
  <-> JsMap.get i (toolCallAccum st) = None
      /\ nullish (index toolCall) 0%Z <> i.
Proof.
  destruct (Z.eq_dec (nullish (index toolCall) 0%Z) i) as [<-|Hne].
  - split; [|intros [_ H]; contradiction].
    unfold OpenAIProvider.stepToolCall.
    destruct (JsMap.get (nullish (index toolCall) 0%Z) (toolCallAccum st));
      cbv zeta beta iota;
      match goal with
      | |- context [if ?c then JSON_parse ?s else Some emptyObject] =>
          destruct (if c then JSON_parse s else Some emptyObject)
      end; simpl; rewrite get_set_same; discriminate.
  - rewrite stepToolCall_other by (intros E; apply Hne; symmetry; exact E).
    split; [intros H; split; assumption | intros [H _]; exact H].
Qed.

(** X12. When the chunk loop ends, the argument string held for an index
    is the concatenation, in order of arrival, of all argument fragments
    the stream carried for that index (a fragment without index counts
    for index 0); fragments of other indices, ids, names, reasoning and
    text never change it, and a successful parse does not reset it. The
    table has an entry for an index exactly when a fragment named it. *)
Theorem held_arguments_are_the_fragments_joined
    (chunks : list ChatCompletionChunk) (i : Z) :
  heldArguments i (chunkLoop initialState chunks)
  = argumentsFor i (toolCallFragments chunks)
  /\ (JsMap.get i (toolCallAccum (chunkLoop initialState chunks)) = None
      <-> Forall (fun tc => nullish (index tc) 0%Z <> i)
                 (toolCallFragments chunks)).
Proof.
  unfold heldArguments. rewrite chunkLoop_accum.
  generalize (toolCallFragments chunks). intros fragments.
  assert (Hheld : forall st,
             heldArguments i (fold_left stepToolCall fragments st)
             = (heldArguments i st ++ argumentsFor i fragments)%string).
  { induction fragments as [|tc rest IH]; intros st; simpl.
    - rewrite string_app_nil_r. reflexivity.
    - rewrite IH, stepToolCall_held, string_app_assoc. reflexivity. }
  assert (Hnone : forall st,
             JsMap.get i (toolCallAccum (fold_left stepToolCall fragments st)) = None
             <-> JsMap.get i (toolCallAccum st) = None
                 /\ Forall (fun tc => nullish (index tc) 0%Z <> i) fragments).
  { clear Hheld. induction fragments as [|tc rest IH]; intros st; simpl.
    - split; [intros H; split; [exact H | constructor] | intros [H _]; exact H].
    - rewrite IH, stepToolCall_present. split.
      + intros [[H Hne] Hrest]. split; [exact H | constructor; assumption].
      + intros [H Hall]. inversion Hall as [|? ? Hne Hrest]; subst.
        split; [split|]; assumption. }
  split.
  - exact (Hheld initialState).
  - rewrite Hnone. split; [intros [_ H]; exact H | intros H; split; [reflexivity | exact H]].
Qed.

End HeldArguments.

(** ** The OpenAI-compatible revision: listing and request *)

Section ListingAndRequest.

Import VsCode OpenAIProvider HostParts.

Variable MODEL_ID_PREFIX : string.

Lemma listModels_cons (model : OpenRouterModelData)
    (models : list OpenRouterModelData) :
  listModels MODEL_ID_PREFIX (model :: models)
  = match resolveModelCapabilities model with
    | None => []
    | Some cap =>
        [ {| id := (MODEL_ID_PREFIX ++ data_id model)%string;
             name := cap_name cap;
             family := nullish (nth_error (JsString.split "/" (data_id model)) 0)
                               "unknown";
             version := "latest";
             maxInputTokens := cap_maxInputTokens cap;
             maxOutputTokens := cap_maxOutputTokens cap;
             imageInput := cap_vision cap;
             toolCalling := cap_toolCalling cap;
             tooltip := None |} ]
    end ++ listModels MODEL_ID_PREFIX models.
Proof.
  unfold listModels.
  rewrite !(fold_left_pushes _
              (fun model =>
                 match resolveModelCapabilities model with
                 | None => []
                 | Some cap =>
                     [ {| id := (MODEL_ID_PREFIX ++ data_id model)%string;
                          name := cap_name cap;
                          family :=
                            nullish (nth_error (JsString.split "/" (data_id model)) 0)
                                    "unknown";
                          version := "latest";
                          maxInputTokens := cap_maxInputTokens cap;
                          maxOutputTokens := cap_maxOutputTokens cap;
                          imageInput := cap_vision cap;
                          toolCalling := cap_toolCalling cap;
                          tooltip := None |} ]
                 end)).
  - reflexivity.
  - intros o m. destruct (resolveModelCapabilities m);
      [reflexivity | rewrite app_nil_r; reflexivity].
  - intros o m. destruct (resolveModelCapabilities m);
      [reflexivity | rewrite app_nil_r; reflexivity].
Qed.

(** X13. The listing has one descriptor for every model of the answer
    that has a non-empty id, in the order of the answer, and skips the
    others; stripping the prefix from the ids of the descriptors gives
    back the native ids of those models. *)
Theorem listed_ids_round_trip (models : list OpenRouterModelData) :
  map (fun info =>
         OpenRouterAdapter.getOpenRouterModelId MODEL_ID_PREFIX (id info))
      (listModels MODEL_ID_PREFIX models)
  = map data_id (filter (fun m => JsString.truthy (data_id m)) models).
Proof.
  induction models as [|m models IH]; [reflexivity|].
  rewrite listModels_cons, map_app, IH. simpl.
  unfold resolveModelCapabilities.
  destruct (JsString.truthy (data_id m)); simpl; [|reflexivity].
  rewrite getOpenRouterModelId_strips_once. reflexivity.
Qed.

(** X14. No descriptor of the listing has a negative input bound: the
    bound is the context length the answer reports (the top provider's
    first, 0 when none is given) less 16000, and 0 when that is negative. *)
Theorem listed_input_bound_is_not_negative (models : list OpenRouterModelData) :
  Forall (fun info => (0 <= maxInputTokens info)%Z)
         (listModels MODEL_ID_PREFIX models)
  /\ map maxInputTokens (listModels MODEL_ID_PREFIX models)
     = map (fun m =>
              Z.max 0
                (nullish (chain (data_top_provider m) tp_context_length)
                         (nullish (data_context_length m) 0%Z) - 16000))
           (filter (fun m => JsString.truthy (data_id m)) models).
Proof.
  split.
  - induction models as [|m models IH]; [constructor|].
    rewrite listModels_cons. apply Forall_app. split; [|exact IH].
    unfold resolveModelCapabilities.
    destruct (JsString.truthy (data_id m)); simpl; constructor.
    + simpl. apply Z.le_max_l.
    + constructor.
  - induction models as [|m models IH]; [reflexivity|].
    rewrite listModels_cons, map_app, IH. simpl.
    unfold resolveModelCapabilities.
    destruct (JsString.truthy (data_id m)); reflexivity.
Qed.

Variable JSON_stringify : Json -> string.
Variable btoa : string -> string.

(** X15. Whether a request is built depends on two tests, in this order:
    without a key the call fails with "API key required" whatever the
    messages are; with a key it fails with "No messages to send." exactly
    when no part of the messages is translatable, also when a system-prompt
    override is configured; otherwise the request carries the model id
    without its prefix, the translated messages after the override, and
    the tools, absent rather than empty when the host passed none. *)
Theorem request_is_built_when_key_and_content
    (apiKey : option string) (model : LanguageModelChatInformation)
    (messages : list LanguageModelChatRequestMessage)
    (tools : option (list LanguageModelChatTool)) (setting : option string) :
  buildRequest JSON_stringify btoa MODEL_ID_PREFIX apiKey model messages tools setting
  = if negb (truthyString apiKey) then inl "API key required"
    else if negb (existsb translatable (partsOf messages))
         then inl "No messages to send."
         else inr {| req_model :=
                       OpenRouterAdapter.getOpenRouterModelId MODEL_ID_PREFIX (id model);
                     req_messages :=
                       SystemPrompt.applyOverride
                         (SystemPrompt.systemPromptOverride setting)
                         (OpenRouterAdapter.vscodeMessagesToOpenRouter
                            JSON_stringify btoa messages);
                     req_tools :=
                       match nullish tools [] with
                       | [] => None
                       | t :: ts => Some (OpenRouterAdapter.convertTools (t :: ts))
                       end |}.
Proof.
  unfold buildRequest. destruct (negb (truthyString apiKey)); [reflexivity|].
  pose proof (translate_empty JSON_stringify btoa messages) as Hempty.
  unfold SystemPrompt.prepareMessages.
  destruct (OpenRouterAdapter.vscodeMessagesToOpenRouter JSON_stringify btoa messages)
    as [|m l] eqn:T.
  - rewrite (proj1 Hempty eq_refl). reflexivity.
  - destruct (existsb translatable (partsOf messages)) eqn:E.
    + simpl. destruct (nullish tools []); reflexivity.
    + discriminate (proj2 Hempty eq_refl).
Qed.

End ListingAndRequest.

(** ** The API key, the cache of the listing and the reset command *)

Lemma secret_deleted (key : string) (s : Secrets.SecretStorage) :
  Secrets.get key (Secrets.delete key s) = None.
Proof.
  unfold Secrets.delete. induction s as [|[k v] s IH]; simpl; [reflexivity|].
  destruct (String.eqb key k) eqn:E; simpl; [exact IH|].
  rewrite E. exact IH.
Qed.

Lemma secret_stored (key value : string) (s : Secrets.SecretStorage) :
  Secrets.get key (Secrets.store key value s) = Some value.
Proof. unfold Secrets.store. simpl. rewrite String.eqb_refl. reflexivity. Qed.

Section OpenAIListing.

Import VsCode Secrets OpenAIModels.

Variable MODEL_ID_PREFIX : string.

Local Abbreviation provide :=
  (OpenAIModels.provideLanguageModelChatInformation MODEL_ID_PREFIX).

Lemma getApiKey_stored (silent : bool) (inputBox : option string)
    (s : SecretStorage) :
  truthyString (get apiKeyName s) = true ->
  getApiKey silent inputBox s = (get apiKeyName s, s).
Proof. intros H. unfold getApiKey. rewrite H. reflexivity. Qed.

Lemma cache_hit (silent : bool) (inputBox : option string)
    (fetch : option string -> Response) (s : SecretStorage)
    (cached : list LanguageModelChatInformation) :
  truthyString (get apiKeyName s) = true ->
  provide silent inputBox fetch {| secrets := s; cachedModels := Some cached |}
  = (inr cached, {| secrets := s; cachedModels := Some cached |}).
Proof.
  intros Hkey. unfold OpenAIModels.provideLanguageModelChatInformation. simpl.
  rewrite (getApiKey_stored silent inputBox _ Hkey), Hkey. reflexivity.
Qed.

(** X16. With a key in the secret store, a listing that succeeded is
    repeated by every later call: the second call returns the same list
    and leaves the provider as it is, whatever its options are and
    whatever the network would answer, without asking for a key. *)
Theorem listing_is_repeated_from_the_cache
    (silent silent' : bool) (inputBox inputBox' : option string)
    (fetch fetch' : option string -> Response)
    (st st1 : ProviderState) (listing : list LanguageModelChatInformation) :
  truthyString (get apiKeyName (secrets st)) = true ->
  provide silent inputBox fetch st = (inr listing, st1) ->
  provide silent' inputBox' fetch' st1 = (inr listing, st1).
Proof.
  intros Hkey Hfirst.
  unfold OpenAIModels.provideLanguageModelChatInformation in Hfirst.
  rewrite (getApiKey_stored silent inputBox _ Hkey), Hkey in Hfirst.
  simpl in Hfirst. destruct st as [s cache]. simpl in *.
  destruct cache as [cached|].
  - injection Hfirst as <- <-. apply cache_hit. exact Hkey.
  - destruct (ok (fetch (get apiKeyName s))); simpl in Hfirst; [|discriminate].
    destruct (nullish (json_data (json (fetch (get apiKeyName s))))
                (nullish (json_models (json (fetch (get apiKeyName s))))
                   (ModelArray []))); [|discriminate].
    injection Hfirst as <- <-. apply cache_hit. exact Hkey.
Qed.

(** X17. After the reset command of the extension a silent listing
    returns the empty list and changes nothing, also when models are
    cached: the cache is only consulted once a key is at hand. *)
Theorem silent_listing_after_reset_is_empty
    (inputBox : option string) (fetch : option string -> Response)
    (st : ProviderState) :
  provide true inputBox fetch (afterManage st) = (inr [], afterManage st).
Proof.
  unfold OpenAIModels.provideLanguageModelChatInformation, afterManage, getApiKey.
  simpl. rewrite secret_deleted. reflexivity.
Qed.

(** X18. A key typed into the input box is remembered: when the store
    holds no key and the call is not silent, [getApiKey] returns the
    typed key and stores it, and every later call, silent or not, returns
    that key from the store without looking at the input box. When the
    box is dismissed nothing is stored. *)
Theorem typed_key_is_remembered (typed : string) (s : SecretStorage) :
  truthyString (get apiKeyName s) = false ->
  JsString.truthy typed = true ->
  exists s',
    getApiKey false (Some typed) s = (Some typed, s')
    /\ (forall silent inputBox, getApiKey silent inputBox s' = (Some typed, s'))
    /\ getApiKey false None s = (None, s).
Proof.
  intros Hnone Htyped. exists (store apiKeyName typed s).
  unfold getApiKey at 1. rewrite Hnone, Htyped. simpl.
  split; [reflexivity|]. split.
  - intros silent inputBox. unfold getApiKey. rewrite secret_stored. simpl.
    rewrite Htyped. reflexivity.
  - unfold getApiKey. rewrite Hnone. reflexivity.
Qed.

End OpenAIListing.

Lemma listing_is_repeated_from_the_cache_witness :
  let st := {| OpenAIModels.secrets := [(Secrets.apiKeyName, "sk-or-key")];
               OpenAIModels.cachedModels := None |} in
  let answer (key : option string) :=
    {| OpenAIModels.ok := true; OpenAIModels.status := 200;
       OpenAIModels.text := EmptyString;
       OpenAIModels.json :=
         {| OpenAIModels.json_data :=
              Some (OpenAIModels.ModelArray
                      [ {| OpenAIProvider.data_id := "openai/gpt-4o";
                           OpenAIProvider.data_name := Some "GPT-4o";
                           OpenAIProvider.data_context_length := Some 128000%Z;
                           OpenAIProvider.data_supported_parameters := Some ["tools"];
                           OpenAIProvider.data_input_modalities := None;
                           OpenAIProvider.data_top_provider := None |} ]);
            OpenAIModels.json_models := None |} |} in
  let failure (key : option string) :=
    {| OpenAIModels.ok := false; OpenAIModels.status := 500;
       OpenAIModels.text := "down";
       OpenAIModels.json := {| OpenAIModels.json_data := None;
                               OpenAIModels.json_models := None |} |} in
  exists listing st1,
    OpenAIModels.provideLanguageModelChatInformation "vscode-openrouter/"
      false None answer st = (inr listing, st1)
    /\ map VsCode.id listing = ["vscode-openrouter/openai/gpt-4o"]
    /\ OpenAIModels.provideLanguageModelChatInformation "vscode-openrouter/"
         true None failure st1 = (inr listing, st1).
Proof.
  intros st answer failure. eexists. eexists.
  split; [reflexivity|]. split; [reflexivity|].
  eapply (listing_is_repeated_from_the_cache "vscode-openrouter/"
            false true None None answer failure st); reflexivity.
Defined.

Lemma typed_key_is_remembered_witness :
  exists s',
    OpenAIModels.getApiKey false (Some "sk-or-key") [] = (Some "sk-or-key", s')
    /\ OpenAIModels.getApiKey true None s' = (Some "sk-or-key", s').
Proof.
  destruct (typed_key_is_remembered "sk-or-key" [] eq_refl eq_refl)
    as (s' & Hfirst & Hlater & _).
  exists s'. split; [exact Hfirst | exact (Hlater true None)].
Defined.

(** ** Token counts *)

(** X19. The token count of a text is its length divided by three and
    rounded up: three times the count is at least the length and exceeds
    it by less than three, so the count is 0 only for the empty text. *)
Theorem token_count_bounds
    (stringifyMessage : VsCode.LanguageModelChatRequestMessage -> string)
    (text : string + VsCode.LanguageModelChatRequestMessage) :
  let content := match text with
                 | inl s => s
                 | inr message => stringifyMessage message
                 end in
  let count := provideTokenCount stringifyMessage text in
  String.length content <= 3 * count
  /\ 3 * count < String.length content + 3
  /\ (count = 0 <-> content = EmptyString).
Proof.
  intros content count. subst count. unfold provideTokenCount. fold content.
  unfold ceilDiv.
  pose proof (Nat.div_mod_eq (String.length content) 3) as Hdm.
  pose proof (Nat.mod_upper_bound (String.length content) 3 ltac:(lia)) as Hlt.
  destruct (Nat.eqb_spec (String.length content mod 3) 0) as [E|E].
  - split; [lia|]. split; [lia|]. split.
    + intros H. destruct content; [reflexivity|]. simpl in *. lia.
    + intros ->. reflexivity.
  - split; [lia|]. split; [lia|]. split.
    + intros H. discriminate H.
    + intros H. rewrite H in E. simpl in E. contradiction.
Qed.

(** ** The SDK revision: listing and parts *)

Section SdkMore.

Import VsCode OpenRouter SdkModels.

Variable Number : Type.
Variable toFixed : Number -> nat -> string.
Variable MODEL_ID_PREFIX : string.

Local Abbreviation provide :=
  (SdkModels.provideLanguageModelChatInformation Number toFixed MODEL_ID_PREFIX).


(** X21. A fresh listing of the SDK revision has one descriptor per model
    of the transport's answer, in order, and stripping the prefix from
    their ids gives back the native ids. *)
Theorem sdk_listing_round_trip
    (inputBox : option string)
    (modelsList : string -> string + list (Model Number))
    (st st1 : ProviderState) (apiKey : string) (s' : Secrets.SecretStorage)
    (listing : list LanguageModelChatInformation) :
  cachedModels st = None ->
  getApiKey inputBox (secrets st) = (inr apiKey, s') ->
  provide inputBox modelsList st = (inr listing, st1) ->
  exists data,
    modelsList apiKey = inr data
    /\ map (fun info =>
              OpenRouterAdapter.getOpenRouterModelId MODEL_ID_PREFIX (id info))
           listing
       = map model_id data
    /\ cachedModels st1 = Some listing
    /\ secrets st1 = s'.
Proof.
  intros Hcache Hkey. unfold SdkModels.provideLanguageModelChatInformation.
  rewrite Hcache, Hkey.
  destruct (modelsList apiKey) as [e|data]; [discriminate|].
  intros [= <- <-]. exists data. simpl. repeat split.
  rewrite map_map. apply map_ext. intros model. simpl.
  apply getOpenRouterModelId_strips_once.
Qed.

End SdkMore.

Lemma sdk_listing_round_trip_witness :
  let st := {| SdkModels.secrets := [(Secrets.apiKeyName, "sk-or-key")];
               SdkModels.cachedModels := None |} in
  let answer (key : string) : string + list (OpenRouter.Model Empty_set) :=
    inr [ {| OpenRouter.model_id := "openai/gpt-4o";
             OpenRouter.model_name := "GPT-4o";
             OpenRouter.contextLength := Some 128000%Z;
             OpenRouter.topProvider := None;
             OpenRouter.architecture := None;
             OpenRouter.supportedParameters := None;
             OpenRouter.pricing := None |} ] in
  exists listing st1,
    SdkModels.provideLanguageModelChatInformation Empty_set
      (fun x _ => match x with end) "vscode-openrouter/" None answer st
    = (inr listing, st1)
    /\ map (fun info =>
              OpenRouterAdapter.getOpenRouterModelId "vscode-openrouter/"
                (VsCode.id info)) listing
       = ["openai/gpt-4o"].
Proof.
  intros st answer. eexists. eexists. split; [reflexivity|].
  destruct (sdk_listing_round_trip Empty_set (fun x _ => match x with end)
              "vscode-openrouter/" None answer st _ "sk-or-key" _ _
              eq_refl eq_refl eq_refl) as (data & Hdata & Hids & _).
  injection Hdata as <-. exact Hids.
Defined.

Section SdkParts.

Import VsCode OpenRouter SdkProvider.

Variable JSON_parse : string -> option Json.
Variable runtimeMessage : Exception -> string.

Lemma forOf_keeps {A : Type} (P : Progress -> Prop)
    (body : A -> Progress -> Step) (items : list A) (sink : Progress) :
  (forall x p, P p -> P (snd (body x p))) ->
  P sink -> P (snd (forOf body items sink)).
Proof.
  intros Hbody. revert sink. induction items as [|x items IH]; intros sink H; simpl.
  - exact H.
  - specialize (Hbody x sink H).
    destruct (body x sink) as [[e|] sink']; simpl in *; [exact Hbody|].
    apply IH. exact Hbody.
Qed.

Lemma Forall_report (P : Part -> Prop) (part : Part) (sink : Progress) :
  Forall P sink -> P part -> Forall P (report part sink).
Proof.
  intros Hs Hp. unfold report. apply Forall_app.
  split; [exact Hs | constructor; [exact Hp | constructor]].
Qed.

(** X22. Whatever the chunks are and whether the call completes or
    fails, the SDK revision reports nothing but text parts and tool-call
    parts: reasoning reaches the host only as text, and no thinking part
    and no placeholder for an empty stream is reported. *)
Theorem sdk_reports_text_and_tool_calls_only
    (chunks : list ChatStreamingResponseChunkData) :
  Forall (fun p => (isTextPart p || isToolCallPart p)%bool = true)
         (reportedParts (streamResponse JSON_parse runtimeMessage chunks))
  /\ streamResponse JSON_parse runtimeMessage [] = Completed [].
Proof.
  split; [|reflexivity].
  unfold streamResponse.
  assert (H : Forall (fun p => (isTextPart p || isToolCallPart p)%bool = true)
                     (snd (forOf (stepChunk JSON_parse) chunks []))).
  { apply forOf_keeps; [|constructor].
    intros chunk sink Hs. unfold stepChunk.
    destruct (error chunk); [exact Hs|].
    destruct (choices chunk) as [elements|]; [|exact Hs].
    apply forOf_keeps; [|exact Hs].
    intros element sink' Hs'. unfold stepElement.
    set (sink1 := match chain (delta element) delta_content with
                  | Some c => if JsString.truthy c
                              then report (LanguageModelTextPart c) sink'
                              else sink'
                  | None => sink'
                  end).
    assert (H1 : Forall (fun p => (isTextPart p || isToolCallPart p)%bool = true) sink1).
    { unfold sink1. destruct (chain (delta element) delta_content) as [c|];
        [|exact Hs'].
      destruct (JsString.truthy c); [|exact Hs'].
      apply Forall_report; [exact Hs' | reflexivity]. }
    destruct (delta element) as [d|]; [|exact H1].
    match goal with
    | |- Forall _ (snd (let (_, _) := ?r in _)) =>
        assert (H2 : Forall (fun p => (isTextPart p || isToolCallPart p)%bool = true)
                            (snd r));
        [|destruct r as [[e|] sink2]; simpl in *; [exact H2|]]
    end.
    { destruct (delta_toolCalls d) as [tcs|]; [|exact H1].
      apply forOf_keeps; [|exact H1].
      intros tc p Hp. unfold stepToolCall.
      destruct (JSON_parse _); [|exact Hp].
      apply Forall_report; [exact Hp | reflexivity]. }
    destruct (delta_reasoning d) as [[|c r]|]; simpl; try exact H2.
    apply Forall_report; [exact H2 | reflexivity]. }
  destruct (forOf (stepChunk JSON_parse) chunks []) as [[e|] sink];
    simpl in *; exact H.
Qed.

End SdkParts.

(** ** The stand-alone provider *)

Section Standalone.

Import VsCode OpenRouter StandaloneProvider StandaloneModels StandaloneStream
       StandaloneView.

Lemma filter_idempotent {A : Type} (p : A -> bool) (l : list A) :
  filter p (filter p l) = filter p l.
Proof.
  induction l as [|x l IH]; simpl; [reflexivity|].
  destruct (p x) eqn:E; simpl; rewrite ?E, IH; reflexivity.
Qed.

(** X23. [filterModels] returns the models unchanged when the filter
    setting is absent or empty; otherwise it keeps, in order, exactly the
    models whose id is listed in the setting either as it is or without
    the provider prefix. Filtering twice changes nothing more. *)
Theorem filterModels_keeps_listed_models
    (setting : option (list string)) (models : list LanguageModelChatInformation) :
  (nullish setting [] = [] -> filterModels setting models = models)
  /\ (nullish setting [] <> [] ->
      forall m, In m (filterModels setting models)
                <-> In m models
                    /\ exists f, In f (nullish setting [])
                                 /\ (id m = f
                                     \/ id m = (MODEL_ID_PREFIX ++ f)%string))
  /\ filterModels setting (filterModels setting models)
     = filterModels setting models.
Proof.
  unfold filterModels. destruct (nullish setting []) as [|f0 fs] eqn:F.
  - split; [reflexivity|]. split; [intros H; contradiction | reflexivity].
  - split; [discriminate|]. split; [|apply filter_idempotent].
    intros _ m. rewrite filter_In, existsb_exists. split.
    + intros [Hin (f & Hf & Hm)]. split; [exact Hin|]. exists f.
      split; [exact Hf|]. apply orb_prop in Hm.
      destruct Hm as [Hm|Hm]; apply String.eqb_eq in Hm; [left | right]; exact Hm.
    + intros [Hin (f & Hf & Hm)]. split; [exact Hin|]. exists f.
      split; [exact Hf|]. apply orb_true_iff.
      destruct Hm as [Hm|Hm]; [left | right]; apply String.eqb_eq; exact Hm.
Qed.

Lemma findSystemIndex_some (orMessages : list SimpleMessage) (k : nat) :
  findSystemIndex orMessages = Some k ->
  exists m, nth_error orMessages k = Some m /\ role m = system.
Proof.
  revert k. induction orMessages as [|m l IH]; intros k; simpl; [discriminate|].
  destruct (Role_eqb (role m) system) eqn:E.
  - intros [= <-]. exists m. split; [reflexivity|].
    destruct (role m); try discriminate E; reflexivity.
  - destruct (findSystemIndex l) as [j|]; simpl; [|discriminate].
    intros [= <-]. apply (IH j). reflexivity.
Qed.

Lemma replaceContentAt_spec (text : string) (orMessages : list SimpleMessage)
    (k : nat) (m : SimpleMessage) :
  nth_error orMessages k = Some m ->
  nth_error (replaceContentAt k text orMessages) k
  = Some {| role := role m; content := text |}
  /\ (forall j, j <> k ->
        nth_error (replaceContentAt k text orMessages) j = nth_error orMessages j)
  /\ map role (replaceContentAt k text orMessages) = map role orMessages.
Proof.
  revert k. induction orMessages as [|x l IH]; intros k.
  - destruct k; discriminate.
  - destruct k as [|k]; simpl.
    + intros [= ->]. split; [reflexivity|]. split; [|reflexivity].
      intros [|j] Hj; [contradiction | reflexivity].
    + intros H. destruct (IH k H) as (Hk & Hother & Hroles).
      split; [exact Hk|]. split; [|rewrite Hroles; reflexivity].
      intros [|j] Hj; [reflexivity|]. simpl. apply Hother.
      intros E. apply Hj. rewrite E. reflexivity.
Qed.

(** X24. With a configured override the stand-alone provider rewrites
    the first system message in place: its content becomes the override
    text, every other message, later system messages included, stays as
    it is and where it is, and the roles of the list do not move. Only
    when the list has no system message is a new one put in front. *)
Theorem standalone_override_in_place (text : string)
    (orMessages : list SimpleMessage) :
  JsString.truthy text = true ->
  match findSystemIndex orMessages with
  | Some k =>
      nth_error (StandaloneProvider.applyOverride (Some text) orMessages) k
      = Some {| role := system; content := text |}
      /\ (forall j, j <> k ->
            nth_error (StandaloneProvider.applyOverride (Some text) orMessages) j
            = nth_error orMessages j)
      /\ map role (StandaloneProvider.applyOverride (Some text) orMessages)
         = map role orMessages
  | None =>
      StandaloneProvider.applyOverride (Some text) orMessages
      = {| role := system; content := text |} :: orMessages
  end.
Proof.
  intros Ht. unfold StandaloneProvider.applyOverride. rewrite Ht.
  destruct (findSystemIndex orMessages) as [k|] eqn:F; [|reflexivity].
  destruct (findSystemIndex_some _ _ F) as (m & Hm & Hrole).
  destruct (replaceContentAt_spec text _ _ _ Hm) as (Hk & Hother & Hroles).
  rewrite Hrole in Hk. repeat split; assumption.
Qed.

(** X25. With a configured override the stand-alone provider always has
    messages to send, also when nothing of the host's messages is
    translatable: the request then holds the system message alone. The
    revisions of [provider.ts] test for the empty translation before they
    apply the override and fail with "No messages to send." *)
Theorem standalone_override_always_sends
    (setting : option string)
    (messages : list LanguageModelChatRequestMessage) :
  truthyString (SystemPrompt.systemPromptOverride setting) = true ->
  (exists m rest,
     StandaloneProvider.prepareMessages setting messages = inr (m :: rest))
  /\ (translate messages = [] ->
      StandaloneProvider.prepareMessages setting messages
      = inr [ {| role := system;
                 content := nullish (SystemPrompt.systemPromptOverride setting)
                                    EmptyString |} ])
  /\ SystemPrompt.prepareMessages setting [] = inl "No messages to send.".
Proof.
  intros H. unfold StandaloneProvider.prepareMessages.
  destruct (SystemPrompt.systemPromptOverride setting) as [text|];
    [|discriminate]. simpl in H.
  split; [|split; [|reflexivity]].
  - unfold StandaloneProvider.applyOverride. rewrite H.
    destruct (findSystemIndex (translate messages)) as [k|] eqn:F.
    + destruct (findSystemIndex_some _ _ F) as (m & Hm & _).
      destruct (replaceContentAt_spec text _ _ _ Hm) as (Hk & _).
      destruct (replaceContentAt k text (translate messages)) as [|x l].
      * destruct k; discriminate.
      * exists x, l. reflexivity.
    + do 2 eexists. reflexivity.
  - intros ->. unfold StandaloneProvider.applyOverride. rewrite H. reflexivity.
Qed.

Lemma streamLoop_pass_one (chunk : ChatStreamingResponseChunkData)
    (rest : list (bool * ChatStreamingResponseChunkData)) (sink : Progress) :
  error chunk = None ->
  streamLoop ((false, chunk) :: rest) sink
  = streamLoop rest (sink ++ textOf chunk).
Proof.
  intros H. simpl. rewrite H. f_equal. unfold textOf.
  destruct (choices chunk) as [[|choice cs]|]; simpl;
    try (rewrite app_nil_r; reflexivity).
  destruct (delta choice) as [d|]; simpl;
    try (rewrite app_nil_r; reflexivity).
  destruct (delta_content d) as [c|]; simpl;
    try (rewrite app_nil_r; reflexivity).
  destruct (JsString.truthy c); [reflexivity | rewrite app_nil_r; reflexivity].
Qed.

Lemma streamLoop_passes
    (pre rest : list (bool * ChatStreamingResponseChunkData)) (sink : Progress) :
  forallb passes pre = true ->
  streamLoop (pre ++ rest) sink
  = streamLoop rest (sink ++ flat_map textOf (map snd pre)).
Proof.
  revert sink. induction pre as [|[cancelled chunk] pre IH]; intros sink H.
  - simpl. rewrite app_nil_r. reflexivity.
  - simpl in H. apply andb_prop in H. destruct H as [Hit Hpre].
    unfold passes in Hit. simpl in Hit. apply andb_prop in Hit.
    destruct Hit as [Hc He].
    destruct cancelled; [discriminate|].
    destruct (error chunk) eqn:E; [discriminate|].
    change (((false, chunk) :: pre) ++ rest)
      with ((false, chunk) :: (pre ++ rest)).
    rewrite (streamLoop_pass_one chunk _ sink E), IH by exact Hpre.
    simpl. rewrite app_assoc. reflexivity.
Qed.

Section Response.

Variable inputBox : option string.
Variable secrets : Secrets.SecretStorage.
Variable model : LanguageModelChatInformation.
Variable messages : list LanguageModelChatRequestMessage.
Variable setting : option string.
Variable send : Request -> list (bool * ChatStreamingResponseChunkData).

Local Abbreviation respond :=
  (StandaloneStream.provideLanguageModelChatResponse
     inputBox secrets model messages setting send).

(** X26. In the stand-alone provider, when the turns before an error
    chunk go through, the call fails at that chunk: the sink holds the
    non-empty contents of the first choices of the earlier chunks, in
    order, and nothing of the chunks after it. The failure carries the
    message of the error object, or "OpenRouter stream error" when it has
    none, unless that text mentions "transform", "parse", "ZodError" or
    "validation": then the fixed unexpected-response text replaces it. *)
Theorem standalone_error_chunk_fails
    (apiKey : string) (secrets' : Secrets.SecretStorage)
    (orMessages : list SimpleMessage) (request : Request)
    (pre post : list (bool * ChatStreamingResponseChunkData))
    (chunk : ChatStreamingResponseChunkData) (err : ChunkError) :
  SdkModels.getApiKey inputBox secrets = (inr apiKey, secrets') ->
  StandaloneProvider.prepareMessages setting messages = inr orMessages ->
  request = {| req_model :=
                 if JsString.startsWith (id model) MODEL_ID_PREFIX
                 then JsString.slice (id model) (String.length MODEL_ID_PREFIX)
                 else id model;
               req_messages := orMessages |} ->
  send request = pre ++ (false, chunk) :: post ->
  forallb passes pre = true ->
  error chunk = Some err ->
  respond
  = (Failed (surface (nullish (message err) "OpenRouter stream error"))
            (flat_map textOf (map snd pre)),
     secrets').
Proof.
  intros Hkey Hprep -> Hsend Hpre Herr.
  unfold StandaloneStream.provideLanguageModelChatResponse.
  rewrite Hkey, Hprep, Hsend, (streamLoop_passes _ _ _ Hpre).
  simpl. rewrite Herr. reflexivity.
Qed.

(** X27. In the stand-alone provider, when cancellation is requested at
    the start of a turn and the turns before it went through, the call
    completes without a failure: the sink holds what the earlier chunks
    gave, and neither the chunk of that turn nor any later chunk is looked
    at, also when one of them carries an error. *)
Theorem standalone_cancellation_completes
    (apiKey : string) (secrets' : Secrets.SecretStorage)
    (orMessages : list SimpleMessage) (request : Request)
    (pre post : list (bool * ChatStreamingResponseChunkData))
    (chunk : ChatStreamingResponseChunkData) :
  SdkModels.getApiKey inputBox secrets = (inr apiKey, secrets') ->
  StandaloneProvider.prepareMessages setting messages = inr orMessages ->
  request = {| req_model :=
                 if JsString.startsWith (id model) MODEL_ID_PREFIX
                 then JsString.slice (id model) (String.length MODEL_ID_PREFIX)
                 else id model;
               req_messages := orMessages |} ->
  send request = pre ++ (true, chunk) :: post ->
  forallb passes pre = true ->
  respond = (Completed (flat_map textOf (map snd pre)), secrets').
Proof.
  intros Hkey Hprep -> Hsend Hpre.
  unfold StandaloneStream.provideLanguageModelChatResponse.
  rewrite Hkey, Hprep, Hsend, (streamLoop_passes _ _ _ Hpre).
  reflexivity.
Qed.

End Response.

End Standalone.

Lemma filterModels_keeps_listed_models_witness :
  let describe (i : string) :=
    {| VsCode.id := i; VsCode.name := i; VsCode.family := "openai";
       VsCode.version := "latest"; VsCode.maxInputTokens := 4096;
       VsCode.maxOutputTokens := 4096; VsCode.imageInput := false;
       VsCode.toolCalling := false; VsCode.tooltip := None |} in
  let models := [describe "vscode-openrouter/openai/gpt-4o";
                 describe "vscode-openrouter/openai/o1"] in
  In (describe "vscode-openrouter/openai/gpt-4o")
     (StandaloneModels.filterModels (Some ["openai/gpt-4o"]) models)
  /\ StandaloneModels.filterModels (Some ["openai/gpt-4o"]) models
     = [describe "vscode-openrouter/openai/gpt-4o"].
Proof.
  intros describe models. split; [|reflexivity].
  destruct (filterModels_keeps_listed_models (Some ["openai/gpt-4o"]) models)
    as (_ & Hin & _).
  apply (Hin ltac:(discriminate)). split; [left; reflexivity|].
  exists "openai/gpt-4o". split; [left; reflexivity | right; reflexivity].
Defined.

Lemma standalone_override_in_place_witness :
  let orMessages :=
    [ {| StandaloneProvider.role := OpenRouter.user;
         StandaloneProvider.content := "hi" |};
      {| StandaloneProvider.role := OpenRouter.system;
         StandaloneProvider.content := "You are Copilot." |};
      {| StandaloneProvider.role := OpenRouter.system;
         StandaloneProvider.content := "Follow the rules." |} ] in
  nth_error (StandaloneProvider.applyOverride (Some "Answer briefly.") orMessages) 1
  = Some {| StandaloneProvider.role := OpenRouter.system;
            StandaloneProvider.content := "Answer briefly." |}
  /\ nth_error (StandaloneProvider.applyOverride (Some "Answer briefly.") orMessages) 2
     = Some {| StandaloneProvider.role := OpenRouter.system;
               StandaloneProvider.content := "Follow the rules." |}.
Proof.
  intros orMessages.
  pose proof (standalone_override_in_place "Answer briefly." orMessages eq_refl)
    as H.
  simpl in H. destruct H as (Hfirst & Hothers & _).
  split; [exact Hfirst | exact (Hothers 2 ltac:(discriminate))].
Defined.

Lemma standalone_override_always_sends_witness :
  exists m rest,
    StandaloneProvider.prepareMessages (Some " Answer briefly. ")
      [ {| VsCode.role := VsCode.User; VsCode.content := [VsCode.OtherPart] |} ]
    = inr (m :: rest).
Proof.
  destruct (standalone_override_always_sends (Some " Answer briefly. ")
              [ {| VsCode.role := VsCode.User;
                   VsCode.content := [VsCode.OtherPart] |} ] eq_refl)
    as (Hsends & _).
  exact Hsends.
Defined.

(** A stand-alone run: a stored key, one user message, and a stream whose
    second turn is either an error chunk or a cancelled turn. *)
Lemma standalone_error_chunk_fails_witness :
  let model :=
    {| VsCode.id := "vscode-openrouter/openai/gpt-4o"; VsCode.name := "GPT-4o";
       VsCode.family := "openai"; VsCode.version := "latest";
       VsCode.maxInputTokens := 128000; VsCode.maxOutputTokens := 4096;
       VsCode.imageInput := false; VsCode.toolCalling := true;
       VsCode.tooltip := None |} in
  let messages :=
    [ {| VsCode.role := VsCode.User;
         VsCode.content := [VsCode.LanguageModelTextPart "hi"] |} ] in
  let failing :=
    {| OpenRouter.error :=
         Some {| OpenRouter.message := Some "could not parse the upstream answer" |};
       OpenRouter.choices := None |} in
  let send (_ : StandaloneStream.Request) :=
    [(false, SdkScenario.textChunk "Hel"); (false, failing);
     (false, SdkScenario.textChunk "lo")] in
  StandaloneStream.provideLanguageModelChatResponse None
    [(Secrets.apiKeyName, "sk-or-key")] model messages None send
  = (Failed "OpenRouter returned an unexpected response. Check your API key, model, and try again."
            [VsCode.LanguageModelTextPart "Hel"],
     [(Secrets.apiKeyName, "sk-or-key")]).
Proof.
  intros model messages failing send.
  apply (standalone_error_chunk_fails None [(Secrets.apiKeyName, "sk-or-key")]
           model messages None send "sk-or-key"
           [(Secrets.apiKeyName, "sk-or-key")]
           [ {| StandaloneProvider.role := OpenRouter.user;
                StandaloneProvider.content := "hi" |} ]
           _
           [(false, SdkScenario.textChunk "Hel")]
           [(false, SdkScenario.textChunk "lo")]
           failing
           {| OpenRouter.message := Some "could not parse the upstream answer" |}
           eq_refl eq_refl eq_refl eq_refl eq_refl eq_refl).
Defined.

Lemma standalone_cancellation_completes_witness :
  let model :=
    {| VsCode.id := "vscode-openrouter/openai/gpt-4o"; VsCode.name := "GPT-4o";
       VsCode.family := "openai"; VsCode.version := "latest";
       VsCode.maxInputTokens := 128000; VsCode.maxOutputTokens := 4096;
       VsCode.imageInput := false; VsCode.toolCalling := true;
       VsCode.tooltip := None |} in
  let messages :=
    [ {| VsCode.role := VsCode.User;
         VsCode.content := [VsCode.LanguageModelTextPart "hi"] |} ] in
  let send (_ : StandaloneStream.Request) :=
    [(false, SdkScenario.textChunk "Hel"); (true, SdkScenario.errorChunk);
     (false, SdkScenario.textChunk "lo")] in
  StandaloneStream.provideLanguageModelChatResponse None
    [(Secrets.apiKeyName, "sk-or-key")] model messages None send
  = (Completed [VsCode.LanguageModelTextPart "Hel"],
     [(Secrets.apiKeyName, "sk-or-key")]).
Proof.
  intros model messages send.
  apply (standalone_cancellation_completes None
           [(Secrets.apiKeyName, "sk-or-key")]
           model messages None send "sk-or-key"
           [(Secrets.apiKeyName, "sk-or-key")]
           [ {| StandaloneProvider.role := OpenRouter.user;
                StandaloneProvider.content := "hi" |} ]
           _
           [(false, SdkScenario.textChunk "Hel")]
           [(false, SdkScenario.textChunk "lo")]
           SdkScenario.errorChunk
           eq_refl eq_refl eq_refl eq_refl eq_refl).
Defined.
